(** * Prerequisite and requirement services of the roadmap API

    A shallow embedding of [app/services/prerequisite_service.py] and
    [app/services/requirement_service.py], and of the parts of
    [app/services/roadmap_service.py] that call them or keep the cache, with
    the properties of the academic-requirement reasoning engine proved over
    it.

    Conventions of the embedding:
    - a JSON column (prerequisite formula, special rules) is a [json] value,
      exactly as the Python code receives it: nothing is assumed about its
      shape, and a Python exception is a [Raise] outcome;
    - Python [str] is [string]; [upper], [strip], [isdigit] and [int] are
      those of ASCII text;
    - Python [int] is [Z]; a percentage or a score, a Python [float], is an
      exact rational [Q];
    - a [set] of course codes is a [gset string], a [dict] keyed by course
      code a [gmap string _];
    - the database session is the list of its rows, with what its engine
      makes of a query parameter that is not a string;
    - the depth of recursion the interpreter allows is a parameter. *)

From Stdlib Require Import ZArith QArith Qminmax String Ascii List Bool Sorted Lia.
From Stdlib Require Import DecimalString.
From stdpp Require Import base option list gmap sets strings.

Local Open Scope string_scope.
Local Open Scope list_scope.
Local Open Scope Z_scope.

(** ** Python outcomes *)

(** The exceptions the two services can raise.  [ValidationError] is
    pydantic's, raised when a response model is built from a value of the
    wrong type; it is a subclass of [ValueError], so [except ValueError]
    handles both.  [RecursionError] is raised by a call chain deeper than the
    interpreter allows.  [DatabaseError] stands for the exceptions of the
    database layer ([sqlalchemy.exc.SQLAlchemyError]), none of them a
    [ValueError]. *)
Inductive exn : Type :=
  | AttributeError
  | TypeError
  | ValueError (msg : string)
  | ValidationError
  | RecursionError
  | DatabaseError.

Inductive result (A : Type) : Type :=
  | Ok (a : A)
  | Raise (e : exn).
Arguments Ok {A} a.
Arguments Raise {A} e.

#[global] Instance result_ret : MRet result := fun _ a => Ok a.
#[global] Instance result_bind : MBind result := fun _ _ k m =>
  match m with
  | Ok a => k a
  | Raise e => Raise e
  end.

(** [isinstance(e, ValueError)], the test of an [except ValueError] clause. *)
Definition is_ValueError (e : exn) : bool :=
  match e with
  | ValueError _ | ValidationError => true
  | _ => false
  end.

(** ** JSON values *)

(** A value loaded from a JSON column: [None], a [bool], a number, a [str],
    a [list] or a [dict] with its keys in order.  A number is modelled by an
    integer: the services only test numbers for truth, type and equality. *)
Unset Elimination Schemes.
Inductive json : Type :=
  | JNull
  | JBool (b : bool)
  | JNum (n : Z)
  | JStr (s : string)
  | JList (l : list json)
  | JDict (d : list (string * json)).
Set Elimination Schemes.

(** A Python [str] is a JSON value. *)
Coercion JStr : string >-> json.

(** Induction over a JSON value, with the induction hypothesis on every member
    of a list and on every value of an object. *)
Definition json_ind (P : json -> Prop)
    (HNull : P JNull) (HBool : forall b, P (JBool b)) (HNum : forall n, P (JNum n))
    (HStr : forall s, P (JStr s))
    (HList : forall l, Forall P l -> P (JList l))
    (HDict : forall d, Forall (fun kv => P (snd kv)) d -> P (JDict d)) :
    forall j, P j :=
  fix go (j : json) : P j :=
    match j with
    | JNull => HNull
    | JBool b => HBool b
    | JNum n => HNum n
    | JStr s => HStr s
    | JList l =>
        HList l ((fix members (l : list json) : Forall P l :=
                    match l with
                    | nil => List.Forall_nil P
                    | x :: l' => List.Forall_cons P x l' (go x) (members l')
                    end) l)
    | JDict d =>
        HDict d ((fix fields (d : list (string * json)) : Forall (fun kv => P (snd kv)) d :=
                    match d with
                    | nil => List.Forall_nil _
                    | kv :: d' => List.Forall_cons _ kv d' (go (snd kv)) (fields d')
                    end) d)
    end.

(** [not x]: Python's falsy values. *)
Definition py_falsy (x : json) : bool :=
  match x with
  | JNull => true
  | JBool b => negb b
  | JNum n => n =? 0
  | JStr s => String.eqb s ""
  | JList l => match l with nil => true | _ => false end
  | JDict d => match d with nil => true | _ => false end
  end.

(** [d.get(k)]: an object is read through the first binding of a key (a
    loaded JSON object has no two bindings of one key). *)
Fixpoint dict_get (k : string) (d : list (string * json)) : option json :=
  match d with
  | nil => None
  | (k', v) :: d' => if String.eqb k' k then Some v else dict_get k d'
  end.

(** [d.get(k, dflt)]. *)
Definition dict_get_or (k : string) (dflt : json) (d : list (string * json)) : json :=
  default dflt (dict_get k d).

(** The same lookup in continuation style: [present] receives the value as a
    component of [d], which is what lets a recursive function descend into
    it. *)
Definition with_key {A : Type} (k : string) (d : list (string * json))
    (absent : A) (present : json -> A) : A :=
  (fix scan (d : list (string * json)) : A :=
     match d with
     | nil => absent
     | (k', v) :: d' => if String.eqb k' k then present v else scan d'
     end) d.

(** [iter(x)]: a list yields its members, a string its characters, an object
    its keys; nothing else is iterable. *)
Definition chars (s : string) : list json :=
  map (fun c => JStr (String c EmptyString)) (list_ascii_of_string s).

Definition py_iter (x : json) : result (list json) :=
  match x with
  | JList l => Ok l
  | JStr s => Ok (chars s)
  | JDict d => Ok (map (fun kv => JStr (fst kv)) d)
  | _ => Raise TypeError
  end.

(** ** Strings *)

Definition upper_ascii (c : ascii) : ascii :=
  let n := nat_of_ascii c in
  if ((97 <=? n) && (n <=? 122))%nat then ascii_of_nat (n - 32) else c.

(** [s.upper()] *)
Definition py_upper (s : string) : string :=
  string_of_list_ascii (map upper_ascii (list_ascii_of_string s)).

(** [c.isspace()] on ASCII: tab to carriage return, the four separators and
    the space. *)
Definition is_space (c : ascii) : bool :=
  let n := nat_of_ascii c in
  (((9 <=? n) && (n <=? 13)) || ((28 <=? n) && (n <=? 32)))%nat.

Fixpoint lstrip (l : list ascii) : list ascii :=
  match l with
  | nil => nil
  | c :: l' => if is_space c then lstrip l' else l
  end.

(** [s.strip()] *)
Definition py_strip (s : string) : string :=
  string_of_list_ascii (rev (lstrip (rev (lstrip (list_ascii_of_string s))))).

(** [set(c.upper().strip() for c in courses)] *)
Definition normalize (courses : list string) : gset string :=
  list_to_set (map (fun c => py_strip (py_upper c)) courses).

(** [sorted(l)] on strings. *)
Fixpoint insert_sorted (x : string) (l : list string) : list string :=
  match l with
  | nil => x :: nil
  | y :: l' => if String.leb x y then x :: l else y :: insert_sorted x l'
  end.

Definition py_sorted (l : list string) : list string :=
  foldr insert_sorted nil l.

(** ** prerequisite_service.py: formula evaluation *)

(** [(is_valid, missing_courses, satisfied_courses)] *)
Definition evaluation : Type := bool * list string * list string.

(** The body of the [AND] loop, from the state
    [(is_valid, all_missing, all_satisfied)]; [ev] evaluates one condition. *)
Definition and_loop (ev : json -> result evaluation) :
    list json -> evaluation -> result evaluation :=
  fix loop (conditions : list json) (acc : evaluation) : result evaluation :=
    match conditions with
    | nil => Ok acc
    | condition :: rest =>
        match ev condition with
        | Ok (valid, missing, satisfied) =>
            let '(is_valid, all_missing, all_satisfied) := acc in
            loop rest (if valid then is_valid else false,
                       all_missing ++ missing, all_satisfied ++ satisfied)
        | Raise e => Raise e
        end
    end.

(** The body of the [OR] loop, from the state [all_missing]: it returns at the
    first valid condition. *)
Definition or_loop (ev : json -> result evaluation) :
    list json -> list string -> result evaluation :=
  fix loop (conditions : list json) (all_missing : list string) : result evaluation :=
    match conditions with
    | nil => Ok (false, all_missing, nil)
    | condition :: rest =>
        match ev condition with
        | Ok (valid, missing, satisfied) =>
            if valid then Ok (true, nil, satisfied)
            else loop rest (all_missing ++ missing)
        | Raise e => Raise e
        end
    end.

(** What [_evaluate_formula] does on a value that is not an object: a falsy
    value is an absent formula, and any other has no [get] attribute. *)
Definition evaluate_non_object (formula : json) : result evaluation :=
  if py_falsy formula then Ok (true, nil, nil) else Raise AttributeError.

(** The string case of a [COURSE] leaf. *)
Definition course_leaf (course_code : string) (completed : gset string) : result evaluation :=
  if bool_decide (py_upper course_code ∈ completed)
  then Ok (true, nil, course_code :: nil)
  else Ok (false, course_code :: nil, nil).

(** [_evaluate_formula(formula, completed, db)]; the session is not used.
    The conditions of an [AND] or [OR] node are iterated as Python iterates
    them: when they are a list the members are evaluated recursively, and when
    they are a string or an object the items are strings, which are evaluated
    by [evaluate_non_object] (see [_evaluate_formula_non_object]). *)
Fixpoint _evaluate_formula (formula : json) (completed : gset string)
    {struct formula} : result evaluation :=
  if py_falsy formula then Ok (true, nil, nil) else
  match formula with
  | JDict d =>
      match dict_get_or "type" (JStr "") d with
      | JStr type =>
          let formula_type := py_upper type in
          if String.eqb formula_type "COURSE" then
            with_key "code" d (course_leaf "" completed) (fun course_code =>
              match course_code with
              | JDict _ => _evaluate_formula course_code completed
              | JStr s => course_leaf s completed
              | _ => Ok (false, nil, nil)
              end)
          else if String.eqb formula_type "AND" then
            with_key "conditions" d (Ok (true, nil, nil)) (fun conditions =>
              match conditions with
              | JList l =>
                  and_loop (fun c => _evaluate_formula c completed) l (true, nil, nil)
              | _ =>
                  items ← py_iter conditions;
                  and_loop evaluate_non_object items (true, nil, nil)
              end)
          else if String.eqb formula_type "OR" then
            with_key "conditions" d (Ok (false, nil, nil)) (fun conditions =>
              match conditions with
              | JList l =>
                  or_loop (fun c => _evaluate_formula c completed) l nil
              | _ =>
                  items ← py_iter conditions;
                  or_loop evaluate_non_object items nil
              end)
          else Ok (false, nil, nil)
      | _ => Raise AttributeError
      end
  | _ => Raise AttributeError
  end.

(** [validate_prerequisite_formula(formula, completed, db)] *)
Definition validate_prerequisite_formula (formula : json) (completed : gset string) :
    result bool :=
  '(is_valid, _, _) ← _evaluate_formula formula completed; Ok is_valid.

(** ** prerequisite_service.py: the codes of a formula *)

(** A hashable JSON value as a [set] sees it: [True] and [1] are one key. *)
Inductive hashable : Type :=
  | HNone
  | HInt (n : Z)
  | HStr (s : string).

#[global] Instance hashable_eq_dec : EqDecision hashable.
Proof. solve_decision. Defined.

#[global] Instance hashable_countable : Countable hashable.
Proof.
  refine (inj_countable'
            (fun key => match key with
                        | HNone => inl tt
                        | HInt n => inr (inl n)
                        | HStr s => inr (inr s)
                        end)
            (fun x => match x with
                      | inl _ => HNone
                      | inr (inl n) => HInt n
                      | inr (inr s) => HStr s
                      end) _).
  intros [| |]; reflexivity.
Defined.

(** [hash(x)]; lists and objects are unhashable. *)
Definition py_hash (x : json) : option hashable :=
  match x with
  | JNull => Some HNone
  | JBool b => Some (HInt (if b then 1 else 0))
  | JNum n => Some (HInt n)
  | JStr s => Some (HStr s)
  | JList _ | JDict _ => None
  end.

(** [list(set(items))] from the keys [seen] so far: [TypeError] at the first
    unhashable item, and one item kept per key.  Python leaves the order of
    the result unspecified; here it is the order of first occurrence. *)
Fixpoint set_from (seen : list hashable) (items : list json) : result (list json) :=
  match items with
  | nil => Ok nil
  | x :: rest =>
      match py_hash x with
      | None => Raise TypeError
      | Some k =>
          if bool_decide (k ∈ seen) then set_from seen rest
          else kept ← set_from (k :: seen) rest; Ok (x :: kept)
      end
  end.

Definition py_list_set (items : list json) : result (list json) := set_from nil items.

(** [for condition in conditions: codes.extend(extract(condition))] *)
Definition extend_loop (extract : json -> result (list json)) :
    list json -> list json -> result (list json) :=
  fix loop (conditions : list json) (codes : list json) : result (list json) :=
    match conditions with
    | nil => Ok codes
    | condition :: rest =>
        match extract condition with
        | Ok found => loop rest (codes ++ found)
        | Raise e => Raise e
        end
    end.

(** A value that is not an object has no [get] attribute. *)
Definition no_get {A : Type} (x : json) : result A := Raise AttributeError.

(** [_extract_course_codes(formula)].  The [code] of a [COURSE] leaf is
    appended whenever it is truthy, whatever its type. *)
Fixpoint _extract_course_codes (formula : json) : result (list json) :=
  match formula with
  | JDict d =>
      match dict_get_or "type" (JStr "") d with
      | JStr type =>
          let formula_type := py_upper type in
          if String.eqb formula_type "COURSE" then
            let code := default JNull (dict_get "code" d) in
            py_list_set (if py_falsy code then nil else code :: nil)
          else if String.eqb formula_type "AND" || String.eqb formula_type "OR" then
            codes ← with_key "conditions" d (Ok nil) (fun conditions =>
              match conditions with
              | JList l => extend_loop _extract_course_codes l nil
              | _ => items ← py_iter conditions; extend_loop no_get items nil
              end);
            py_list_set codes
          else py_list_set nil
      | _ => Raise AttributeError
      end
  | _ => Raise AttributeError
  end.

(** ** prerequisite_service.py: the description of a formula *)

(** [str(x)] for a JSON value that is not a string, as an f-string renders
    it.  The rendering is an interface of the embedding: no property below
    depends on it. *)
Class Rendering : Type := py_str : json -> string.

(** [f"{x}"] *)
Definition py_format `{Rendering} (x : json) : string :=
  match x with
  | JStr s => s
  | _ => py_str x
  end.

(** [needle in s] on strings. *)
Definition is_substring (needle s : string) : bool :=
  match String.index 0 needle s with
  | Some _ => true
  | None => false
  end.

(** [needle in x] for a string [needle]. *)
Definition py_contains (needle : string) (x : json) : result bool :=
  match x with
  | JStr s => Ok (is_substring needle s)
  | JList l =>
      Ok (existsb (fun y => match y with JStr s => String.eqb s needle | _ => false end) l)
  | JDict d => Ok (existsb (fun kv => String.eqb (fst kv) needle) d)
  | _ => Raise TypeError
  end.

(** [[f(x) for x in items]] *)
Definition map_loop {A B : Type} (f : A -> result B) : list A -> result (list B) :=
  fix loop (items : list A) : result (list B) :=
    match items with
    | nil => Ok nil
    | x :: rest =>
        match f x with
        | Ok y => ys ← loop rest; Ok (y :: ys)
        | Raise e => Raise e
        end
    end.

(** [sep.join(items)]: every item must be a string. *)
Definition py_join (sep : string) (items : list json) : result string :=
  strings ← map_loop (fun x => match x with JStr s => Ok s | _ => Raise TypeError end) items;
  Ok (String.concat sep strings).

(** [sep.join(f"({d})" if other in d else d for d in descriptions)], or the
    only description when there is one. *)
Definition join_descriptions `{Rendering} (sep other : string) (descriptions : list json) :
    result json :=
  match descriptions with
  | d :: nil => Ok d
  | _ =>
      pieces ← map_loop (fun d =>
                 inside ← py_contains other d;
                 Ok (if inside : bool then JStr ("(" ++ py_format d ++ ")") else d))
               descriptions;
      joined ← py_join sep pieces;
      Ok (JStr joined)
  end.

(** [_format_formula_description(formula)] *)
Fixpoint _format_formula_description `{Rendering} (formula : json) : result json :=
  match formula with
  | JDict d =>
      match dict_get_or "type" (JStr "") d with
      | JStr type =>
          let formula_type := py_upper type in
          if String.eqb formula_type "COURSE" then
            Ok (dict_get_or "code" (JStr "Unknown course") d)
          else if String.eqb formula_type "AND" then
            descriptions ← with_key "conditions" d (Ok nil) (fun conditions =>
              match conditions with
              | JList l => map_loop _format_formula_description l
              | _ => items ← py_iter conditions; map_loop no_get items
              end);
            join_descriptions " AND " " OR " descriptions
          else if String.eqb formula_type "OR" then
            descriptions ← with_key "conditions" d (Ok nil) (fun conditions =>
              match conditions with
              | JList l => map_loop _format_formula_description l
              | _ => items ← py_iter conditions; map_loop no_get items
              end);
            join_descriptions " OR " " AND " descriptions
          else Ok (JStr "Unknown prerequisite formula")
      | _ => Raise AttributeError
      end
  | _ => Raise AttributeError
  end.

(** ** Rows and response models *)

(** models/course.py: a row of [courses].  [prerequisite_formula] is the JSON
    column, [JNull] when it is NULL. *)
Module Course.
Record t : Type := make {
  code : string;
  title : string;
  credits : Z;
  prerequisite_formula : json;
  typically_offered : option (list string);
  level : string;
  subject : string;
}.
End Course.

(** models/program.py: a row of [requirements]. *)
Module Requirement.
Record t : Type := make {
  id : string;
  name : string;
  requirement_type : string;
  courses : option (list string);
  credits_needed : option Z;
  choose_count : option Z;
  level_filter : option (list string);
  subject_filter : option string;
}.
End Requirement.

(** models/program.py: a row of [programs], with the requirements its
    relationship loads. *)
Module Program.
Record t : Type := make {
  code : string;
  name : string;
  total_credits : Z;
  program_requirements : list Requirement.t;
  special_rules : json;
}.
End Program.

(** The session: the rows of the two tables, in the order a query returns
    them.  [code] is a unique column of both.  [integer_code] is what the
    engine makes of an integer given where a course code is expected: the
    text it compares the column with (SQLite: the number in decimal), or
    [None] when it rejects the parameter (PostgreSQL). *)
Record database : Type := {
  course_rows : list Course.t;
  program_rows : list Program.t;
  integer_code : Z -> option string;
}.

(** SQLite, the engine of the tests of the repository, compares a text
    column with the decimal text of an integer. *)
Definition sqlite (n : Z) : option string := Some (NilZero.string_of_int (Z.to_int n)).

(** [select(Course).where(Course.code == course_code)], then
    [scalar_one_or_none()]. *)
Fixpoint select_course (rows : list Course.t) (course_code : string) : option Course.t :=
  match rows with
  | nil => None
  | row :: rest =>
      if String.eqb (Course.code row) course_code then Some row
      else select_course rest course_code
  end.

(** [select(Program).where(Program.code == program_code)], then
    [scalar_one_or_none()]. *)
Fixpoint select_program (rows : list Program.t) (program_code : string) : option Program.t :=
  match rows with
  | nil => None
  | row :: rest =>
      if String.eqb (Program.code row) program_code then Some row
      else select_program rest program_code
  end.

(** schemas/services.py: the response models. *)
Module PrerequisiteCheckResult.
Record t : Type := make {
  is_valid : bool;
  missing_courses : list string;
  satisfied_prerequisites : list string;
  formula_description : option string;
}.
End PrerequisiteCheckResult.

Module PrerequisiteNode.
Unset Elimination Schemes.
Inductive t : Type := make {
  course_code : string;
  title : string;
  depth : Z;
  prerequisites : list t;
  formula : option (list (string * json));
}.
Set Elimination Schemes.
End PrerequisiteNode.

Module RequirementProgress.
Record t : Type := make {
  requirement_id : string;
  requirement_name : string;
  requirement_type : string;
  required_count : option Z;
  completed_count : Z;
  is_satisfied : bool;
  completed_courses : list string;
  remaining_courses : list string;
  progress_percentage : Q;
}.
End RequirementProgress.

Module AvailableCourse.
Record t : Type := make {
  course_code : string;
  title : string;
  credits : Z;
  level : string;
  prerequisites_met : bool;
  satisfies_requirements : list string;
  priority_score : Q;
  typically_offered : list string;
}.
End AvailableCourse.

Module RequirementValidationResult.
Record t : Type := make {
  program_code : string;
  program_name : string;
  total_credits_required : Z;
  total_credits_completed : Z;
  requirements : list RequirementProgress.t;
  overall_progress : Q;
  is_complete : bool;
}.
End RequirementValidationResult.

Module SpecialRulesResult.
Record t : Type := make {
  excluded_courses : list string;
  warnings : list string;
  substitutions_needed : list (string * string);
  additional_requirements : list string;
}.
End SpecialRulesResult.

(** pydantic's check of an [Optional[str]] field. *)
Definition validate_optional_str (x : json) : result (option string) :=
  match x with
  | JNull => Ok None
  | JStr s => Ok (Some s)
  | _ => Raise ValidationError
  end.

(** pydantic's check of an [Optional[dict[str, Any]]] field. *)
Definition validate_optional_dict (x : json) : result (option (list (string * json))) :=
  match x with
  | JNull => Ok None
  | JDict d => Ok (Some d)
  | _ => Raise ValidationError
  end.

(** pydantic's check of a [str] field. *)
Definition validate_str (x : json) : result string :=
  match x with
  | JStr s => Ok s
  | _ => Raise ValidationError
  end.

(** ** prerequisite_service.py: the two entry points *)

(** [f"Course '{course_code}' not found"] *)
Definition course_not_found (course_code : string) : exn :=
  ValueError ("Course '" ++ course_code ++ "' not found").

(** [check_prerequisites(course_code, completed_courses, db)] *)
Definition check_prerequisites `{Rendering} (course_code : string)
    (completed_courses : list string) (db : database) : result PrerequisiteCheckResult.t :=
  match select_course (course_rows db) course_code with
  | None => Raise (course_not_found course_code)
  | Some course =>
      if py_falsy (Course.prerequisite_formula course) then
        Ok (PrerequisiteCheckResult.make true nil nil (Some "No prerequisites required"))
      else
        let completed_set := normalize completed_courses in
        '(is_valid, missing, satisfied) ←
          _evaluate_formula (Course.prerequisite_formula course) completed_set;
        description ← _format_formula_description (Course.prerequisite_formula course);
        formula_description ← validate_optional_str description;
        Ok (PrerequisiteCheckResult.make is_valid (py_sorted missing) (py_sorted satisfied)
              formula_description)
  end.

(** The same query when [course_code] is whatever JSON value a formula
    holds for a code, as the recursive calls of [get_prerequisite_tree] pass
    it: a string is compared as it is; [None] is compared with [IS NULL],
    which holds of no row; an integer ([True] is [1]) is what the engine
    makes of it; a list or an object is no parameter of a query. *)
Definition select_course_by (db : database) (course_code : json) : result (option Course.t) :=
  match course_code with
  | JStr s => Ok (select_course (course_rows db) s)
  | JNull => Ok None
  | JBool b =>
      match integer_code db (if b then 1 else 0) with
      | Some text => Ok (select_course (course_rows db) text)
      | None => Raise DatabaseError
      end
  | JNum n =>
      match integer_code db n with
      | Some text => Ok (select_course (course_rows db) text)
      | None => Raise DatabaseError
      end
  | JList _ | JDict _ => Raise DatabaseError
  end.

(** [f"{course_code}"] for a course code that is a scalar. *)
Definition key_text (course_code : json) : string :=
  match course_code with
  | JStr s => s
  | JNum n => NilZero.string_of_int (Z.to_int n)
  | JBool true => "True"
  | JBool false => "False"
  | _ => "None"
  end.

(** [depth >= max_depth or course_code in visited]: the membership test is
    made only below [max_depth], and raises on an unhashable value. *)
Definition is_cut (course_code : json) (depth max_depth : Z) (visited : gset hashable) :
    result bool :=
  if max_depth <=? depth then Ok true
  else
    match py_hash course_code with
    | Some key => Ok (bool_decide (key ∈ visited))
    | None => Raise TypeError
    end.

(** [visited.add(course_code)] *)
Definition visited_add (course_code : json) (visited : gset hashable) : gset hashable :=
  match py_hash course_code with
  | Some key => visited ∪ {[key]}
  | None => visited
  end.

(** The loop over the prerequisite codes of a course: the recursive call is
    made on every code, whatever its type; a [ValueError] of the call is
    handled by skipping the code, any other exception propagates. *)
Definition prerequisite_loop (build : json -> result PrerequisiteNode.t) :
    list json -> list PrerequisiteNode.t -> result (list PrerequisiteNode.t) :=
  fix loop (codes : list json) (nodes : list PrerequisiteNode.t) :=
    match codes with
    | nil => Ok nodes
    | prereq_code :: rest =>
        match build prereq_code with
        | Ok prereq_node => loop rest (nodes ++ prereq_node :: nil)
        | Raise e => if is_ValueError e then loop rest nodes else Raise e
        end
    end.

(** [get_prerequisite_tree] when the interpreter allows [budget] more nested
    calls: a recursive call made with none left raises [RecursionError].
    [course_code] is a string in the call of a router, and whatever code the
    formula of a course holds in a recursive call. *)
Fixpoint build_tree (budget : nat) (course_code : json) (db : database)
    (depth max_depth : Z) (visited : gset hashable) : result PrerequisiteNode.t :=
  cut ← is_cut course_code depth max_depth visited;
  if cut : bool then
    row ← select_course_by db course_code;
    match row with
    | Some row =>
        Ok (PrerequisiteNode.make (Course.code row) (Course.title row) depth nil None)
    | None => Raise (course_not_found (key_text course_code))
    end
  else
    let visited := visited_add course_code visited in
    course ← select_course_by db course_code;
    match course with
    | None => Raise (course_not_found (key_text course_code))
    | Some course =>
        prerequisite_nodes ←
          (if py_falsy (Course.prerequisite_formula course) then Ok nil
           else
             prerequisite_codes ← _extract_course_codes (Course.prerequisite_formula course);
             prerequisite_loop
               (fun prereq_code =>
                  match budget with
                  | O => Raise RecursionError
                  | S budget' => build_tree budget' prereq_code db (depth + 1) max_depth visited
                  end)
               prerequisite_codes nil);
        formula ← validate_optional_dict (Course.prerequisite_formula course);
        Ok (PrerequisiteNode.make (Course.code course) (Course.title course) depth
              prerequisite_nodes formula)
    end.

(** The depth of recursion the interpreter allows below a call of
    [get_prerequisite_tree], counted in nested calls of the function: what
    the recursion limit leaves, given the frames of the caller and of each
    level.  It is left open. *)
Class Interpreter : Type := recursion_limit : nat.

(** [get_prerequisite_tree(course_code, db, depth, max_depth, visited)]; the
    defaults are [depth = 0], [max_depth = 5] and an empty [visited]. *)
Definition get_prerequisite_tree `{Interpreter} (course_code : json) (db : database)
    (depth max_depth : Z) (visited : gset hashable) : result PrerequisiteNode.t :=
  build_tree recursion_limit course_code db depth max_depth visited.

(** ** requirement_service.py *)

Local Open Scope Q_scope.

(** [x or []] *)
Definition or_empty {A : Type} (x : option (list A)) : list A := default nil x.

(** [x or dflt] on an optional integer: [None] and [0] are falsy. *)
Definition or_int (x : option Z) (dflt : Z) : Z :=
  match x with
  | Some n => if (n =? 0)%Z then dflt else n
  | None => dflt
  end.

(** The truth value of an optional string: [None] and [""] are falsy. *)
Definition truthy_str (x : option string) : bool :=
  match x with
  | Some s => negb (String.eqb s "")
  | None => false
  end.

(** [x in l] on strings. *)
Definition in_list (x : string) (l : list string) : bool :=
  existsb (String.eqb x) l.

(** The truth value of a list: the empty list is falsy. *)
Definition truthy_list {A : Type} (l : list A) : bool :=
  match l with
  | nil => false
  | _ => true
  end.

(** The filter test of a [LEVEL_REQUIREMENT], the same in its three places
    (the third as the [where] clauses of a query): [matches] starts [True]
    and each filter that is set and fails clears it. *)
Definition matches_filters (course : Course.t) (req : Requirement.t) : bool :=
  let level_filters := or_empty (Requirement.level_filter req) in
  let subject_filter := Requirement.subject_filter req in
  let matches := true in
  let matches :=
    if truthy_list level_filters && negb (in_list (Course.level course) level_filters)
    then false else matches in
  let matches :=
    if truthy_str subject_filter
       && negb (String.eqb (Course.subject course) (default "" subject_filter))
    then false else matches in
  matches.

(** The loop of the [LEVEL_REQUIREMENT] case over the completed set, from the
    state [(matching_credits, matching_courses)]. *)
Definition level_loop (req : Requirement.t) (completed_courses_map : gmap string Course.t)
    (codes : list string) : Z * list string :=
  foldl (fun '(matching_credits, matching_courses) code =>
           match completed_courses_map !! code with
           | Some course =>
               if matches_filters course req
               then ((matching_credits + Course.credits course)%Z,
                     matching_courses ++ Course.code course :: nil)
               else (matching_credits, matching_courses)
           | None => (matching_credits, matching_courses)
           end)
        (0%Z, nil) codes.

(** [a / b * 100] on integers. *)
Definition percent (a b : Z) : Q := inject_Z a / inject_Z b * 100.

(** [_validate_single_requirement(req, completed_set, completed_courses_map, db)];
    the session is not used. *)
Definition _validate_single_requirement (req : Requirement.t) (completed_set : gset string)
    (completed_courses_map : gmap string Course.t) : RequirementProgress.t :=
  let req_type := Requirement.requirement_type req in
  if String.eqb req_type "REQUIRED" then
    let required_courses : gset string :=
      list_to_set (map py_upper (or_empty (Requirement.courses req))) in
    let completed_in_req := required_courses ∩ completed_set in
    let remaining := required_courses ∖ completed_set in
    let required_count := Z.of_nat (size required_courses) in
    let completed_count := Z.of_nat (size completed_in_req) in
    let is_satisfied := (Z.of_nat (size remaining) =? 0)%Z in
    let progress :=
      if (required_count >? 0)%Z then percent completed_count required_count else 100 in
    RequirementProgress.make (Requirement.id req) (Requirement.name req) req_type
      (Some required_count) completed_count is_satisfied
      (py_sorted (elements completed_in_req)) (py_sorted (elements remaining)) progress
  else if String.eqb req_type "CHOICE" then
    let choice_courses : gset string :=
      list_to_set (map py_upper (or_empty (Requirement.courses req))) in
    let completed_in_req := choice_courses ∩ completed_set in
    let remaining := choice_courses ∖ completed_set in
    let required_count := or_int (Requirement.choose_count req) 1 in
    let completed_count := Z.of_nat (size completed_in_req) in
    let is_satisfied := (completed_count >=? required_count)%Z in
    let progress :=
      if (required_count >? 0)%Z
      then Qmin (percent completed_count required_count) 100 else 100 in
    RequirementProgress.make (Requirement.id req) (Requirement.name req) req_type
      (Some required_count) completed_count is_satisfied
      (py_sorted (elements completed_in_req)) (py_sorted (elements remaining)) progress
  else if String.eqb req_type "LEVEL_REQUIREMENT" then
    let credits_needed := or_int (Requirement.credits_needed req) 0 in
    let '(matching_credits, matching_courses) :=
      level_loop req completed_courses_map (elements completed_set) in
    let is_satisfied := (matching_credits >=? credits_needed)%Z in
    let progress :=
      if (credits_needed >? 0)%Z
      then Qmin (percent matching_credits credits_needed) 100 else 100 in
    RequirementProgress.make (Requirement.id req) (Requirement.name req) req_type
      (Some credits_needed) matching_credits is_satisfied
      (py_sorted matching_courses) nil progress
  else
    let completed_count := Z.of_nat (size completed_set) in
    let is_satisfied := (completed_count >? 0)%Z in
    RequirementProgress.make (Requirement.id req) (Requirement.name req) req_type
      None completed_count is_satisfied
      (py_sorted (elements completed_set)) nil (if is_satisfied then 100 else 0).

(** [f"Program '{program_code}' not found"] *)
Definition program_not_found (program_code : string) : exn :=
  ValueError ("Program '" ++ program_code ++ "' not found").

(** [select(Course).where(Course.code.in_(codes))] *)
Definition select_courses_in (rows : list Course.t) (codes : gset string) : list Course.t :=
  filter (fun c => Course.code c ∈ codes) rows.

(** [{c.code: c for c in rows}]: a later row replaces an earlier one. *)
Definition by_code (rows : list Course.t) : gmap string Course.t :=
  foldl (fun m c => <[Course.code c := c]> m) ∅ rows.

(** [sum(c.credits for c in rows)] *)
Definition sum_credits (rows : list Course.t) : Z :=
  foldl (fun total c => (total + Course.credits c)%Z) 0%Z rows.

(** The loop of [validate_requirements] over the requirements, from the state
    [(requirements_progress, satisfied_count)]. *)
Definition progress_loop (completed_set : gset string)
    (completed_courses_map : gmap string Course.t) (reqs : list Requirement.t) :
    list RequirementProgress.t * Z :=
  foldl (fun '(requirements_progress, satisfied_count) req =>
           let progress := _validate_single_requirement req completed_set completed_courses_map in
           (requirements_progress ++ progress :: nil,
            if RequirementProgress.is_satisfied progress
            then (satisfied_count + 1)%Z else satisfied_count))
        (nil, 0%Z) reqs.

(** [validate_requirements(program_code, completed_courses, db)] *)
Definition validate_requirements (program_code : string) (completed_courses : list string)
    (db : database) : result RequirementValidationResult.t :=
  match select_program (program_rows db) program_code with
  | None => Raise (program_not_found program_code)
  | Some program =>
      let completed_set := normalize completed_courses in
      let completed_course_objects := select_courses_in (course_rows db) completed_set in
      let completed_courses_map := by_code completed_course_objects in
      let total_credits_completed := sum_credits completed_course_objects in
      let '(requirements_progress, satisfied_count) :=
        progress_loop completed_set completed_courses_map (Program.program_requirements program) in
      let total_requirements := Z.of_nat (length (Program.program_requirements program)) in
      let overall_progress :=
        if (total_requirements >? 0)%Z then percent satisfied_count total_requirements else 0 in
      let is_complete := forallb RequirementProgress.is_satisfied requirements_progress in
      Ok (RequirementValidationResult.make (Program.code program) (Program.name program)
            (Program.total_credits program) total_credits_completed requirements_progress
            overall_progress is_complete)
  end.

(** [_course_satisfies_requirement(course, req, completed_set)] *)
Definition _course_satisfies_requirement (course : Course.t) (req : Requirement.t)
    (completed_set : gset string) : bool :=
  let req_type := Requirement.requirement_type req in
  if String.eqb req_type "REQUIRED" then
    in_list (py_upper (Course.code course)) (map py_upper (or_empty (Requirement.courses req)))
    && negb (bool_decide (py_upper (Course.code course) ∈ completed_set))
  else if String.eqb req_type "CHOICE" then
    in_list (py_upper (Course.code course)) (map py_upper (or_empty (Requirement.courses req)))
    && negb (bool_decide (py_upper (Course.code course) ∈ completed_set))
  else if String.eqb req_type "LEVEL_REQUIREMENT" then
    matches_filters course req
    && negb (bool_decide (py_upper (Course.code course) ∈ completed_set))
  else if String.eqb req_type "ELECTIVE" then
    negb (bool_decide (py_upper (Course.code course) ∈ completed_set))
  else false.

(** [find_satisfiable_requirements(program_code, course_code, completed, db)] *)
Definition find_satisfiable_requirements (program_code course_code : string)
    (completed : list string) (db : database) : result (list string) :=
  match select_program (program_rows db) program_code with
  | None => Raise (program_not_found program_code)
  | Some program =>
      match select_course (course_rows db) course_code with
      | None => Raise (course_not_found course_code)
      | Some course =>
          let completed_set := normalize completed in
          Ok (map Requirement.id
                (filter (fun req =>
                           _course_satisfies_requirement course req completed_set = true)
                        (Program.program_requirements program)))
      end
  end.

(** [s.isdigit()] on ASCII: a non-empty string of decimal digits. *)
Definition is_digit (c : ascii) : bool :=
  let n := nat_of_ascii c in ((48 <=? n) && (n <=? 57))%nat.

Definition py_isdigit (s : string) : bool :=
  truthy_list (list_ascii_of_string s) && forallb is_digit (list_ascii_of_string s).

(** [int(s)] for a string of decimal digits. *)
Definition py_int (s : string) : Z :=
  foldl (fun n c => (10 * n + (Z.of_nat (nat_of_ascii c) - 48))%Z) 0%Z (list_ascii_of_string s).

(** The codes of [all_requirement_courses]: those listed by a requirement,
    and those of the rows matching the filters of a [LEVEL_REQUIREMENT]. *)
Definition all_requirement_courses (reqs : list Requirement.t) (rows : list Course.t) :
    gset string :=
  let listed :=
    foldl (fun (codes : gset string) req =>
             codes ∪ list_to_set (or_empty (Requirement.courses req)))
          ∅ reqs in
  foldl (fun (codes : gset string) req =>
           if String.eqb (Requirement.requirement_type req) "LEVEL_REQUIREMENT" then
             let level_courses := filter (fun c => matches_filters c req = true) rows in
             codes ∪ list_to_set (map Course.code level_courses)
           else codes)
        listed reqs.

(** The loop over the requirements for one candidate, from the state
    [(satisfies, priority_score)]. *)
Definition score_loop (course : Course.t) (completed_set : gset string)
    (reqs : list Requirement.t) : list string * Q :=
  foldl (fun '(satisfies, priority_score) req =>
           if _course_satisfies_requirement course req completed_set then
             (satisfies ++ Requirement.id req :: nil,
              if String.eqb (Requirement.requirement_type req) "REQUIRED"
              then priority_score + 10
              else if String.eqb (Requirement.requirement_type req) "CHOICE"
              then priority_score + 5
              else priority_score + 2)
           else (satisfies, priority_score))
        (nil, 0) reqs.

(** The body of the loop over the candidates: the entry of one course.  A
    [ValueError] of the prerequisite check is handled, any other exception
    propagates. *)
Definition available_entry `{Rendering} (program : Program.t) (completed : list string)
    (db : database) (course : Course.t) : result AvailableCourse.t :=
  let completed_set := normalize completed in
  prerequisites_met ←
    match check_prerequisites (Course.code course) completed db with
    | Ok prereq_result => Ok (PrerequisiteCheckResult.is_valid prereq_result)
    | Raise e => if is_ValueError e then Ok false else Raise e
    end;
  let '(satisfies, priority_score) :=
    score_loop course completed_set (Program.program_requirements program) in
  let priority_score := if prerequisites_met : bool then priority_score + 3 else priority_score in
  let level_value := if py_isdigit (Course.level course) then py_int (Course.level course) else 0%Z in
  let priority_score := priority_score + inject_Z (600 - level_value) / 100 in
  Ok (AvailableCourse.make (Course.code course) (Course.title course) (Course.credits course)
        (Course.level course) prerequisites_met satisfies priority_score
        (or_empty (Course.typically_offered course))).

(** [available.sort(key=lambda x: x.priority_score, reverse=True)]: a stable
    sort, entries of equal score keep their order. *)
Fixpoint insert_by_score (x : AvailableCourse.t) (l : list AvailableCourse.t) :
    list AvailableCourse.t :=
  match l with
  | nil => x :: nil
  | y :: l' =>
      if Qle_bool (AvailableCourse.priority_score y) (AvailableCourse.priority_score x)
      then x :: l
      else y :: insert_by_score x l'
  end.

Definition sort_by_score (l : list AvailableCourse.t) : list AvailableCourse.t :=
  foldr insert_by_score nil l.

(** [get_next_available_courses(program_code, completed, db)] *)
Definition get_next_available_courses `{Rendering} (program_code : string)
    (completed : list string) (db : database) : result (list AvailableCourse.t) :=
  match select_program (program_rows db) program_code with
  | None => Raise (program_not_found program_code)
  | Some program =>
      let completed_set := normalize completed in
      let candidate_codes :=
        all_requirement_courses (Program.program_requirements program) (course_rows db)
          ∖ completed_set in
      if bool_decide (candidate_codes = ∅) then Ok nil
      else
        let candidate_courses := select_courses_in (course_rows db) candidate_codes in
        available ← map_loop (available_entry program completed db) candidate_courses;
        Ok (sort_by_score available)
  end.

(** The loop over the [excludes] of one exclusion, from the state
    [(excluded, warnings)]. *)
Definition excludes_loop (courses_set : gset string) (course_a : string) :
    list json -> list string * list string -> result (list string * list string) :=
  fix loop (excludes : list json) (acc : list string * list string) :=
    match excludes with
    | nil => Ok acc
    | JStr excluded_course :: rest =>
        let excluded_course := py_upper excluded_course in
        if bool_decide (excluded_course ∈ courses_set) then
          loop rest
            (fst acc ++ excluded_course :: nil,
             snd acc ++ ("'" ++ course_a ++ "' excludes '" ++ excluded_course
                         ++ "'. Cannot count both toward degree.")%string :: nil)
        else loop rest acc
    | _ :: _ => Raise AttributeError
    end.

(** The loop over the exclusions, from the state [(excluded, warnings)]. *)
Definition exclusions_loop (courses_set : gset string) :
    list json -> list string * list string -> result (list string * list string) :=
  fix loop (exclusions : list json) (acc : list string * list string) :=
    match exclusions with
    | nil => Ok acc
    | JDict exclusion :: rest =>
        match dict_get_or "course" (JStr "") exclusion with
        | JStr course =>
            let course_a := py_upper course in
            let excludes := dict_get_or "excludes" (JList nil) exclusion in
            if bool_decide (course_a ∈ courses_set) then
              items ← py_iter excludes;
              acc ← excludes_loop courses_set course_a items acc;
              loop rest acc
            else loop rest acc
        | _ => Raise AttributeError
        end
    | _ :: rest => loop rest acc
    end.

(** The loop over the substitutions, from the state
    [(substitutions, warnings)]. *)
Definition substitutions_loop `{Rendering} (courses_set : gset string) :
    list json -> list (string * json) * list string ->
    result (list (string * json) * list string) :=
  fix loop (subs : list json) (acc : list (string * json) * list string) :=
    match subs with
    | nil => Ok acc
    | JDict sub :: rest =>
        let from_course := dict_get_or "from" (JStr "") sub in
        let to_course := dict_get_or "to" (JStr "") sub in
        match from_course with
        | JStr from_course =>
            if bool_decide (py_upper from_course ∈ courses_set) then
              loop rest
                (fst acc ++ (from_course, to_course) :: nil,
                 snd acc ++ ("'" ++ from_course ++ "' should be substituted with '"
                             ++ py_format to_course ++ "'")%string :: nil)
            else loop rest acc
        | _ => Raise AttributeError
        end
    | _ :: rest => loop rest acc
    end.

(** [[req for req in additional_reqs if isinstance(req, str)]] *)
Definition strings_of (items : list json) : list string :=
  omap (fun x => match x with JStr s => Some s | _ => None end) items.

(** [special_rules.get(key, [])]; a truthy value that is not an object has no
    [get] attribute. *)
Definition rules_get (special_rules : json) (key : string) : result json :=
  match special_rules with
  | JDict d => Ok (dict_get_or key (JList nil) d)
  | _ => Raise AttributeError
  end.

(** [apply_special_rules(program, courses)].  The result is a pydantic model
    whose [substitutions_needed] is a list of [dict[str, str]]. *)
Definition apply_special_rules `{Rendering} (program : Program.t) (courses : list string) :
    result SpecialRulesResult.t :=
  let special_rules :=
    if py_falsy (Program.special_rules program) then JDict nil
    else Program.special_rules program in
  exclusions ← rules_get special_rules "exclusions";
  let courses_set := normalize courses in
  exclusions ← py_iter exclusions;
  '(excluded, warnings) ← exclusions_loop courses_set exclusions (nil, nil);
  subs ← rules_get special_rules "substitutions";
  subs ← py_iter subs;
  '(substitutions, warnings) ← substitutions_loop courses_set subs (nil, warnings);
  additional_reqs ← rules_get special_rules "additional_requirements";
  additional_reqs ← py_iter additional_reqs;
  let additional := strings_of additional_reqs in
  substitutions_needed ←
    map_loop (fun '(from_course, to_course) =>
                to_course ← validate_str to_course; Ok (from_course, to_course))
             substitutions;
  Ok (SpecialRulesResult.make excluded warnings substitutions_needed additional).

Local Close Scope Q_scope.

(** ** roadmap_service.py *)

(** schemas/roadmap.py: the models of a plan. *)
Module CourseInSemester.
Record t : Type := make {
  code : string;
  title : string;
  credits : Z;
  satisfies_requirements : list string;
  prerequisites_met : bool;
  warnings : list string;
}.
End CourseInSemester.

Module SemesterPlan.
Record t : Type := make {
  number : Z;
  term : string;
  year : Z;
  courses : list CourseInSemester.t;
  total_credits : Z;
}.
End SemesterPlan.

(** schemas/roadmap.py has a [RequirementProgress] of its own, in credits. *)
Module Roadmap.
Module RequirementProgress.
Record t : Type := make {
  requirement_id : string;
  requirement_name : string;
  requirement_type : string;
  credits_needed : Z;
  credits_completed : Z;
  credits_planned : Z;
  is_satisfied : bool;
  courses_used : list string;
  remaining : option string;
}.
End RequirementProgress.
End Roadmap.

Module RoadmapResponse.
Record t : Type := make {
  program_code : string;
  program_name : string;
  semesters : list SemesterPlan.t;
  requirement_progress : list Roadmap.RequirementProgress.t;
  total_credits : Z;
  credits_needed : Z;
  warnings : list string;
  graduation_term : option string;
  is_valid : bool;
}.
End RoadmapResponse.

(** What Python renders and the embedding leaves open: a float under the
    format [.0f], and the message of an exception that is not built from a
    string.  No property below depends on either. *)
Class Formatting : Type := {
  format_0f : Q -> string;
  message_of : exn -> string;
}.

(** [str(e)]: the message of a [ValueError] is the string it was raised with. *)
Definition py_str_exn `{Formatting} (e : exn) : string :=
  match e with
  | ValueError msg => msg
  | _ => message_of e
  end.

(** [str(n)] for the length of a list. *)
Definition py_str_len {A : Type} (l : list A) : string :=
  NilZero.string_of_uint (Nat.to_uint (length l)).

(** The in-memory cache: the roadmap of a key, with the time it was cached.
    A time is a number of microseconds, the resolution of [datetime]. *)
Definition roadmap_cache : Type := gmap string (RoadmapResponse.t * Z).

(** [timedelta(seconds=CACHE_TTL_SECONDS)] *)
Definition CACHE_TTL_SECONDS : Z := 3600.

Definition cache_ttl : Z := CACHE_TTL_SECONDS * 1000000.

(** [_get_cached_roadmap(cache_key)], at the time [utcnow]: the roadmap
    found, if any, and the cache it leaves. *)
Definition _get_cached_roadmap (cache_key : string) (utcnow : Z) (cache : roadmap_cache) :
    option RoadmapResponse.t * roadmap_cache :=
  match cache !! cache_key with
  | Some (roadmap, cached_at) =>
      if utcnow - cached_at <? cache_ttl then (Some roadmap, cache)
      else (None, delete cache_key cache)
  | None => (None, cache)
  end.

(** [_cache_roadmap(cache_key, roadmap)], at the time [utcnow]. *)
Definition _cache_roadmap (cache_key : string) (roadmap : RoadmapResponse.t) (utcnow : Z)
    (cache : roadmap_cache) : roadmap_cache :=
  <[cache_key := (roadmap, utcnow)]> cache.

(** The key of [optimize_course_distribution]: the level of the course, ["999"]
    when the map does not have it, then its code. *)
Definition distribution_key (courses_map : gmap string Course.t) (c : CourseInSemester.t) :
    string * string :=
  (match courses_map !! py_upper (CourseInSemester.code c) with
   | Some course => Course.level course
   | None => "999"
   end,
   CourseInSemester.code c).

(** [a <= b] on pairs of strings, as Python compares tuples. *)
Definition key_le (a b : string * string) : bool :=
  if String.eqb (fst a) (fst b) then String.leb (snd a) (snd b)
  else String.leb (fst a) (fst b).

(** [courses.sort(key=...)]: a stable sort, courses of equal key keep their
    order. *)
Fixpoint insert_by_key (courses_map : gmap string Course.t) (x : CourseInSemester.t)
    (l : list CourseInSemester.t) : list CourseInSemester.t :=
  match l with
  | nil => x :: nil
  | y :: l' =>
      if key_le (distribution_key courses_map x) (distribution_key courses_map y)
      then x :: l
      else y :: insert_by_key courses_map x l'
  end.

Definition sort_by_key (courses_map : gmap string Course.t) (l : list CourseInSemester.t) :
    list CourseInSemester.t :=
  foldr (insert_by_key courses_map) nil l.

(** [optimize_course_distribution(semesters, courses_map)]: the courses of
    each semester are sorted in place, and the semesters returned. *)
Definition optimize_course_distribution (semesters : list SemesterPlan.t)
    (courses_map : gmap string Course.t) : list SemesterPlan.t :=
  map (fun semester =>
         SemesterPlan.make (SemesterPlan.number semester) (SemesterPlan.term semester)
           (SemesterPlan.year semester)
           (sort_by_key courses_map (SemesterPlan.courses semester))
           (SemesterPlan.total_credits semester))
      semesters.

(** The codes appended to [all_planned_courses], semester by semester. *)
Definition planned_codes (semesters : list SemesterPlan.t) : list string :=
  flat_map (fun semester => map CourseInSemester.code (SemesterPlan.courses semester))
    semesters.

(** The error of a requirement that is not satisfied. *)
Definition unsatisfied_error `{Formatting} (req : RequirementProgress.t) : string :=
  ("Requirement '" ++ RequirementProgress.requirement_name req ++ "' not satisfied: "
   ++ format_0f (RequirementProgress.progress_percentage req) ++ "% complete")%string.

(** The conversion of the progress of a requirement to the model of a plan. *)
Definition planned_progress (req : RequirementProgress.t) : Roadmap.RequirementProgress.t :=
  let credits_needed :=
    match RequirementProgress.required_count req with
    | Some n => if n =? 0 then 0 else n
    | None => 0
    end in
  let credits_completed := RequirementProgress.completed_count req in
  let credits_planned :=
    if RequirementProgress.is_satisfied req then credits_needed else credits_completed in
  Roadmap.RequirementProgress.make
    (RequirementProgress.requirement_id req) (RequirementProgress.requirement_name req)
    (RequirementProgress.requirement_type req)
    credits_needed credits_completed credits_planned
    (RequirementProgress.is_satisfied req)
    (RequirementProgress.completed_courses req)
    (if RequirementProgress.is_satisfied req then None
     else Some (py_str_len (RequirementProgress.remaining_courses req)
                ++ " more courses needed")%string).

(** [_validate_generated_plan(program, semesters, completed_courses,
    courses_map, db)]: [(is_valid, errors, requirement_progress)].  Any
    exception of the validation is handled. *)
Definition _validate_generated_plan `{Formatting} (program : Program.t)
    (semesters : list SemesterPlan.t) (completed_courses : list string)
    (courses_map : gmap string Course.t) (db : database) :
    bool * list string * list Roadmap.RequirementProgress.t :=
  let all_planned_courses := completed_courses ++ planned_codes semesters in
  match validate_requirements (Program.code program) all_planned_courses db with
  | Ok validation_result =>
      let unsatisfied :=
        filter (fun req => RequirementProgress.is_satisfied req = false)
          (RequirementValidationResult.requirements validation_result) in
      let errors := map unsatisfied_error unsatisfied in
      let requirement_progress :=
        map planned_progress (RequirementValidationResult.requirements validation_result) in
      (Nat.eqb (length errors) 0, errors, requirement_progress)
  | Raise e => (false, ("Validation failed: " ++ py_str_exn e)%string :: nil, nil)
  end.

(** ** The notions the properties are stated with *)

(** The tag a non-empty object is dispatched on: its [type], uppercased. *)
Definition node_type (formula : json) : option string :=
  if py_falsy formula then None else
  match formula with
  | JDict d =>
      match dict_get_or "type" (JStr "") d with
      | JStr type => Some (py_upper type)
      | _ => None
      end
  | _ => None
  end.

(** [formula.get("code", "")] *)
Definition node_code (formula : json) : json :=
  match formula with
  | JDict d => dict_get_or "code" (JStr "") d
  | _ => JStr ""
  end.

(** [formula.get("conditions", [])] *)
Definition node_conditions (formula : json) : json :=
  match formula with
  | JDict d => dict_get_or "conditions" (JList nil) d
  | _ => JList nil
  end.

(** [c] is evaluated by the recursive calls of a call on [j]: it is the code
    of [j] or a member of its list of conditions. *)
Definition subformula (c j : json) : Prop :=
  exists d, j = JDict d /\
    (c = dict_get_or "code" (JStr "") d \/
     exists l, dict_get_or "conditions" (JList nil) d = JList l /\ c ∈ l).

Definition valid_of (r : evaluation) : bool := fst (fst r).
Definition missing_of (r : evaluation) : list string := snd (fst r).
Definition satisfied_of (r : evaluation) : list string := snd r.

(** [_evaluate_formula] returns with [is_valid = True]. *)
Definition satisfied (formula : json) (completed : gset string) : Prop :=
  exists missing satisfied_courses,
    _evaluate_formula formula completed = Ok (true, missing, satisfied_courses).

(** The JSON values that are formulas: an empty value; or an object whose
    [type] is a string, whose [code], when the object is a [COURSE] and the
    code an object, is a formula, and whose [conditions], when the object is
    an [AND] or an [OR], are a list of formulas. *)
Fixpoint well_formed (formula : json) : bool :=
  py_falsy formula ||
  match formula with
  | JDict d =>
      match dict_get_or "type" (JStr "") d with
      | JStr type =>
          let formula_type := py_upper type in
          if String.eqb formula_type "COURSE" then
            with_key "code" d true (fun code =>
              match code with
              | JDict _ => well_formed code
              | _ => true
              end)
          else if String.eqb formula_type "AND" || String.eqb formula_type "OR" then
            with_key "conditions" d true (fun conditions =>
              match conditions with
              | JList l => forallb well_formed l
              | _ => false
              end)
          else true
      | _ => false
      end
  | _ => false
  end.

(** A [COURSE] leaf whose code, uppercased, is in the completed set. *)
Definition completed_leaf (formula : json) (completed : gset string) : Prop :=
  exists code, node_type formula = Some "COURSE" /\ node_code formula = JStr code /\
    py_upper code ∈ completed.

(** A [COURSE] node whose code is itself a formula object, and satisfied. *)
Definition satisfied_nested (formula : json) (completed : gset string) : Prop :=
  exists d, node_type formula = Some "COURSE" /\ node_code formula = JDict d /\
    satisfied (JDict d) completed.

(** An [AND] node all of whose children are satisfied. *)
Definition all_children_satisfied (formula : json) (completed : gset string) : Prop :=
  exists conditions, node_type formula = Some "AND" /\
    node_conditions formula = JList conditions /\
    Forall (fun c => satisfied c completed) conditions.

(** An [OR] node at least one of whose children is satisfied. *)
Definition some_child_satisfied (formula : json) (completed : gset string) : Prop :=
  exists conditions, node_type formula = Some "OR" /\
    node_conditions formula = JList conditions /\
    Exists (fun c => satisfied c completed) conditions.

(** The four cases in which a formula is stated to be satisfied. *)
Definition satisfied_as_stated (formula : json) (completed : gset string) : Prop :=
  py_falsy formula = true \/ completed_leaf formula completed \/
  all_children_satisfied formula completed \/ some_child_satisfied formula completed.

(** The five cases in which it is: the four, and the nested code. *)
Definition satisfied_cases (formula : json) (completed : gset string) : Prop :=
  py_falsy formula = true \/ completed_leaf formula completed \/
  satisfied_nested formula completed \/
  all_children_satisfied formula completed \/ some_child_satisfied formula completed.

(** The codes of the [COURSE] leaves of a formula that are reached through
    its [AND] and [OR] nodes, in order, an empty code apart. *)
Fixpoint leaf_codes (formula : json) : list json :=
  match formula with
  | JDict d =>
      match dict_get_or "type" (JStr "") d with
      | JStr type =>
          let formula_type := py_upper type in
          if String.eqb formula_type "COURSE" then
            let code := default JNull (dict_get "code" d) in
            if py_falsy code then nil else code :: nil
          else if String.eqb formula_type "AND" || String.eqb formula_type "OR" then
            with_key "conditions" d nil (fun conditions =>
              match conditions with
              | JList l => flat_map leaf_codes l
              | _ => nil
              end)
          else nil
      | _ => nil
      end
  | _ => nil
  end.



(** The exceptions of [_extract_course_codes]: a missing attribute, or a
    value that is not iterable or not hashable. *)
Definition lookup_error (e : exn) : Prop := e = AttributeError \/ e = TypeError.

(** A tag that is none of the three. *)
Definition unrecognized (tag : string) : Prop :=
  tag <> "COURSE" /\ tag <> "AND" /\ tag <> "OR".

(** A node without prerequisites and without formula. *)
Definition is_leaf (node : PrerequisiteNode.t) : Prop :=
  PrerequisiteNode.prerequisites node = nil /\ PrerequisiteNode.formula node = None.



(** The rows whose formula holds strings for prerequisite codes: whatever
    [_extract_course_codes] returns of it is a list of strings. *)
Definition string_keys (rows : list Course.t) : bool :=
  forallb (fun row =>
             match _extract_course_codes (Course.prerequisite_formula row) with
             | Ok codes => forallb (fun c => match c with JStr _ => true | _ => false end) codes
             | Raise _ => true
             end)
          rows.

Local Open Scope Q_scope.

(** The number of requirements of the kinds [kind] the course would satisfy. *)
Definition count_satisfied (kind : string -> bool) (course : Course.t)
    (completed_set : gset string) (reqs : list Requirement.t) : Q :=
  inject_Z (Z.of_nat (length
    (filter (fun req => kind (Requirement.requirement_type req)
                        && _course_satisfies_requirement course req completed_set = true)
            reqs))).

(** The numeric level of a course, [0] when its level is not numeric. *)
Definition level_value (course : Course.t) : Z :=
  if py_isdigit (Course.level course) then py_int (Course.level course) else 0%Z.

(** The priority score as the sum it is stated to be. *)
Definition priority_sum (course : Course.t) (completed_set : gset string)
    (reqs : list Requirement.t) (prerequisites_met : bool) : Q :=
  10 * count_satisfied (fun type => String.eqb type "REQUIRED") course completed_set reqs
  + 5 * count_satisfied (fun type => String.eqb type "CHOICE") course completed_set reqs
  + 2 * count_satisfied
          (fun type => negb (String.eqb type "REQUIRED") && negb (String.eqb type "CHOICE"))
          course completed_set reqs
  + (if prerequisites_met then 3 else 0)
  + inject_Z (600 - level_value course) / 100.

(** Descending priority score. *)
Definition by_descending_score (l : list AvailableCourse.t) : Prop :=
  StronglySorted
    (fun a b => AvailableCourse.priority_score b <= AvailableCourse.priority_score a) l.

Local Close Scope Q_scope.

(** The exclusion rules of a program, as [apply_special_rules] iterates them. *)
Definition exclusion_rules (program : Program.t) : list json :=
  let special_rules :=
    if py_falsy (Program.special_rules program) then JDict nil
    else Program.special_rules program in
  match rules_get special_rules "exclusions" ≫= py_iter with
  | Ok rules => rules
  | Raise _ => nil
  end.

(** The rule [{course, excludes}] excludes [E] for the courses [courses_set]:
    its course is in the set, and [E] is a code of its [excludes] that is in
    the set too; codes are compared uppercased. *)
Definition excludes (courses_set : gset string) (rule : json) (course_a E : string) : Prop :=
  exists d course items e,
    rule = JDict d /\ dict_get_or "course" (JStr "") d = JStr course /\
    course_a = py_upper course /\ course_a ∈ courses_set /\
    py_iter (dict_get_or "excludes" (JList nil) d) = Ok items /\
    JStr e ∈ items /\ E = py_upper e /\ E ∈ courses_set.

(** The warning of an exclusion. *)
Definition exclusion_warning (course_a E : string) : string :=
  "'" ++ course_a ++ "' excludes '" ++ E ++ "'. Cannot count both toward degree.".

(** The lists of an evaluation classify the codes it reports: a missing code
    is not completed, a satisfied one is, and a valid evaluation misses
    nothing. *)
Definition classified (completed : gset string) (r : evaluation) : Prop :=
  Forall (fun code => py_upper code ∉ completed) (missing_of r) /\
  Forall (fun code => py_upper code ∈ completed) (satisfied_of r) /\
  (valid_of r = true -> missing_of r = nil).


(** Every node of the tree is a course of the catalogue, under its title, and
    the children of a node at depth [depth] are at depth [depth + 1]. *)
Fixpoint tree_sound (db : database) (depth : Z) (node : PrerequisiteNode.t) : Prop :=
  PrerequisiteNode.depth node = depth /\
  (exists row,
     select_course (course_rows db) (PrerequisiteNode.course_code node) = Some row /\
     PrerequisiteNode.title node = Course.title row) /\
  fold_right (fun child rest => tree_sound db (depth + 1) child /\ rest)
    True (PrerequisiteNode.prerequisites node).



(** The progress [validate_requirements] computes for one requirement: that
    of [_validate_single_requirement] for the normalised completed set and the
    map of the completed rows. *)
Definition requirement_progress (db : database) (completed_courses : list string)
    (req : Requirement.t) : RequirementProgress.t :=
  _validate_single_requirement req (normalize completed_courses)
    (by_code (select_courses_in (course_rows db) (normalize completed_courses))).

(** The order [optimize_course_distribution] leaves the courses of a semester
    in: each key at most the next. *)
Definition by_key (courses_map : gmap string Course.t) (l : list CourseInSemester.t) : Prop :=
  Sorted (fun a b => key_le (distribution_key courses_map a) (distribution_key courses_map b)
                     = true) l.

(** The completed course the [LEVEL_REQUIREMENT] loop counts for a code: the
    one the map has, when it matches the filters. *)
Definition matching_course (req : Requirement.t) (completed_courses_map : gmap string Course.t)
    (code : string) : option Course.t :=
  match completed_courses_map !! code with
  | Some course => if matches_filters course req then Some course else None
  | None => None
  end.

(** The rows of the catalogue that are completed and match the filters of a
    requirement. *)
Definition matching_rows (rows : list Course.t) (completed_set : gset string)
    (req : Requirement.t) : list Course.t :=
  filter (fun c => Course.code c ∈ completed_set /\ matches_filters c req = true) rows.

(** Ascending order, each string at most the next. *)
Definition ascending (l : list string) : Prop :=
  Sorted (fun a b => String.leb a b = true) l.

(** The substitution rules of a program, as [apply_special_rules] iterates
    them. *)
Definition substitution_rules (program : Program.t) : list json :=
  let special_rules :=
    if py_falsy (Program.special_rules program) then JDict nil
    else Program.special_rules program in
  match rules_get special_rules "substitutions" ≫= py_iter with
  | Ok rules => rules
  | Raise _ => nil
  end.

(** The substitution a rule [{from, to}] asks for, for the courses
    [courses_set]: its [from], uppercased, is in the set. *)
Definition substitution_of (courses_set : gset string) (rule : json) :
    option (string * string) :=
  match rule with
  | JDict d =>
      match dict_get_or "from" (JStr "") d, dict_get_or "to" (JStr "") d with
      | JStr from_course, JStr to_course =>
          if bool_decide (py_upper from_course ∈ courses_set)
          then Some (from_course, to_course) else None
      | _, _ => None
      end
  | _ => None
  end.

(** What the loop over the substitutions records for a rule, before the
    result model checks that [to] is a string. *)
Definition recorded_substitution (courses_set : gset string) (rule : json) :
    option (string * json) :=
  match rule with
  | JDict d =>
      match dict_get_or "from" (JStr "") d with
      | JStr from_course =>
          if bool_decide (py_upper from_course ∈ courses_set)
          then Some (from_course, dict_get_or "to" (JStr "") d) else None
      | _ => None
      end
  | _ => None
  end.

(** The warning of a substitution. *)
Definition substitution_warning (from_course to_course : string) : string :=
  "'" ++ from_course ++ "' should be substituted with '" ++ to_course ++ "'".

(** The additional requirements of a program, as [apply_special_rules]
    iterates them. *)
Definition additional_rules (program : Program.t) : list json :=
  let special_rules :=
    if py_falsy (Program.special_rules program) then JDict nil
    else Program.special_rules program in
  match rules_get special_rules "additional_requirements" ≫= py_iter with
  | Ok rules => rules
  | Raise _ => nil
  end.

(** Text of ASCII characters: the text on which [upper], [strip], [isdigit]
    and [int] are as defined here. *)
Definition ascii_text (s : string) : bool :=
  forallb (fun c => (nat_of_ascii c <? 128)%nat) (list_ascii_of_string s).


(** ** Sample data *)

(** Sample formulas: [CMPUT 204] requires [CMPUT 174] and one of
    [CMPUT 175] and [CMPUT 274]. *)
Definition course (code : string) : json :=
  JDict (("type", JStr "COURSE") :: ("code", JStr code) :: nil).

Definition all_of (conditions : list json) : json :=
  JDict (("type", JStr "AND") :: ("conditions", JList conditions) :: nil).

Definition one_of (conditions : list json) : json :=
  JDict (("type", JStr "OR") :: ("conditions", JList conditions) :: nil).

Definition cmput_204 : json :=
  all_of (course "CMPUT 174" :: one_of (course "CMPUT 175" :: course "CMPUT 274" :: nil) :: nil).

(** A [COURSE] node whose code is a formula object. *)
Definition nested_course : json :=
  JDict (("type", JStr "COURSE") :: ("code", course "CMPUT 174") :: nil).

(** What [check_prerequisites] returns for [CMPUT 204] when only [CMPUT 174]
    is completed. *)
Definition cmput_204_check : PrerequisiteCheckResult.t :=
  PrerequisiteCheckResult.make false ("CMPUT 175" :: "CMPUT 274" :: nil) ("CMPUT 174" :: nil)
    (Some "CMPUT 174 AND (CMPUT 175 OR CMPUT 274)").

(** A rendering, for the examples. *)
Definition sample_rendering : Rendering := fun _ => "?".

(** An interpreter with room for a thousand nested calls, for the examples,
    and one with room for two. *)
Definition sample_interpreter : Interpreter := 1000%nat.

Definition shallow_interpreter : Interpreter := 2%nat.

(** A formatting, for the examples. *)
Definition sample_formatting : Formatting :=
  {| format_0f := fun _ => "?"; message_of := fun _ => "?" |}.

(** A catalogue: [CMPUT 275] carries the nested formula, and [CMPUT 301]
    lists itself as its prerequisite. *)
Definition sample_course (code level : string) (formula : json) : Course.t :=
  Course.make code ("Title of " ++ code) 3 formula (Some ("Fall" :: nil)) level "CMPUT".

Definition catalogue : database := {|
  course_rows :=
    sample_course "CMPUT 174" "100" JNull
    :: sample_course "CMPUT 175" "100" (course "CMPUT 174")
    :: sample_course "CMPUT 204" "200" cmput_204
    :: sample_course "CMPUT 275" "200" nested_course
    :: sample_course "CMPUT 301" "300" (course "CMPUT 301")
    :: nil;
  program_rows := nil;
  integer_code := sqlite;
|}.




(** A program with one requirement of each kind, and one without
    requirements. *)
Definition sample_requirements : list Requirement.t :=
  Requirement.make "req-1" "Foundation" "REQUIRED"
    (Some ("CMPUT 174" :: "CMPUT 175" :: nil)) None None (Some nil) None
  :: Requirement.make "req-2" "Core" "CHOICE"
       (Some ("CMPUT 204" :: "CMPUT 275" :: nil)) None (Some 1) (Some nil) None
  :: Requirement.make "req-3" "Senior" "LEVEL_REQUIREMENT"
       None (Some 6) None (Some ("200" :: "300" :: nil)) (Some "CMPUT")
  :: Requirement.make "req-4" "Options" "ELECTIVE" None (Some 3) None (Some nil) None
  :: nil.

Definition sample_rules : json :=
  JDict (("exclusions",
          JList (JDict (("course", JStr "CMPUT 275")
                        :: ("excludes", JList (JStr "CMPUT 201" :: nil)) :: nil) :: nil))
         :: nil).

Definition honors : Program.t :=
  Program.make "honors-cs" "Honors Computing Science" 120 sample_requirements sample_rules.

Definition empty_program : Program.t :=
  Program.make "open-studies" "Open Studies" 0 nil JNull.

Definition university : database := {|
  course_rows := course_rows catalogue;
  program_rows := honors :: empty_program :: nil;
  integer_code := sqlite;
|}.

(** A course of negative credits, which the column of the table does not
    exclude, and a requirement of three credits at its level. *)
Definition negative_course : Course.t :=
  Course.make "CMPUT 399" "Title of CMPUT 399" (-1)%Z JNull None "300" "CMPUT".

Definition three_credits : Requirement.t :=
  Requirement.make "req-5" "Three credits" "LEVEL_REQUIREMENT" None (Some 3%Z) None
    (Some ("300" :: nil)) None.

(** The map of the completed courses [CMPUT 174] and [CMPUT 204]. *)
Definition sample_completed : gmap string Course.t :=
  by_code (select_courses_in (course_rows catalogue) {["CMPUT 174"; "CMPUT 204"]}).

(** A plan of two semesters for the courses of the catalogue, the second with
    its courses out of order. *)
Definition planned (code : string) : CourseInSemester.t :=
  CourseInSemester.make code ("Title of " ++ code) 3 nil true nil.

Definition sample_plan : list SemesterPlan.t :=
  SemesterPlan.make 1 "FALL" 1 (planned "CMPUT 174" :: nil) 3
  :: SemesterPlan.make 2 "WINTER" 1
       (planned "CMPUT 301" :: planned "CMPUT 204" :: planned "CMPUT 175" :: nil) 9
  :: nil.

(** A roadmap to cache. *)
Definition sample_roadmap : RoadmapResponse.t :=
  RoadmapResponse.make "honors-cs" "Honors Computing Science" sample_plan nil 12 120 nil
    (Some "Winter 2025") true.

(** ** The fixtures of the tests of the repository *)

Module Fixtures.

(** [Course(code=..., credits=..., level=..., subject="TEST", prerequisite_formula=...)] *)
Definition test_course (code level : string) (credits : Z) (formula : json) : Course.t :=
  Course.make code ("Test Course " ++ code) credits formula (Some nil) level "TEST".

(** A requirement with the column defaults. *)
Definition test_requirement (id name type : string) (courses : list string) : Requirement.t :=
  Requirement.make id name type (Some courses) None None (Some nil) None.

Definition test_program (reqs : list Requirement.t) (rules : json) : Program.t :=
  Program.make "TEST-PROG" "Test Program" 12 reqs rules.

(** test_simple_prerequisite *)
Definition simple : database := {|
  course_rows :=
    test_course "TEST 101" "100" 3 (course "TEST 100")
    :: test_course "TEST 100" "100" 3 JNull :: nil;
  program_rows := nil;
  integer_code := sqlite;
|}.

(** test_or_logic_prerequisite *)
Definition or_logic : database := {|
  course_rows :=
    test_course "TEST 201" "200" 3 (one_of (course "TEST 100" :: course "TEST 101" :: nil))
    :: test_course "TEST 100" "100" 3 JNull
    :: test_course "TEST 101" "100" 3 JNull :: nil;
  program_rows := nil;
  integer_code := sqlite;
|}.

(** test_and_logic_prerequisite *)
Definition and_logic : database := {|
  course_rows :=
    test_course "TEST 301" "300" 3 (all_of (course "TEST 200" :: course "TEST 201" :: nil))
    :: test_course "TEST 200" "200" 3 JNull
    :: test_course "TEST 201" "200" 3 JNull :: nil;
  program_rows := nil;
  integer_code := sqlite;
|}.

(** test_nested_prerequisites *)
Definition nested : database := {|
  course_rows :=
    test_course "TEST 300" "300" 3 (course "TEST 200")
    :: test_course "TEST 200" "200" 3 (course "TEST 100")
    :: test_course "TEST 100" "100" 3 JNull :: nil;
  program_rows := nil;
  integer_code := sqlite;
|}.

(** test_complex_nested_formula *)
Definition complex : database := {|
  course_rows :=
    test_course "TEST 401" "400" 3
      (one_of (all_of (course "TEST 301" :: course "TEST 302" :: nil)
               :: all_of (course "TEST 310" :: course "TEST 311" :: nil) :: nil))
    :: map (fun code => test_course code "300" 3 JNull)
         ("TEST 301" :: "TEST 302" :: "TEST 310" :: "TEST 311" :: nil);
  program_rows := nil;
  integer_code := sqlite;
|}.

(** test_prerequisite_tree_depth_limit: [TEST 1], and [TEST i+1] requiring
    [TEST i] up to [TEST 10]. *)
Definition chain : database := {|
  course_rows :=
    test_course "TEST 1" "100" 3 JNull
    :: map (fun '(code, prereq) => test_course code "100" 3 (course prereq))
         (("TEST 2", "TEST 1") :: ("TEST 3", "TEST 2") :: ("TEST 4", "TEST 3")
          :: ("TEST 5", "TEST 4") :: ("TEST 6", "TEST 5") :: ("TEST 7", "TEST 6")
          :: ("TEST 8", "TEST 7") :: ("TEST 9", "TEST 8") :: ("TEST 10", "TEST 9") :: nil);
  program_rows := nil;
  integer_code := sqlite;
|}.

(** test_validate_required_courses *)
Definition required : database := {|
  course_rows :=
    map (fun code => test_course code "100" 3 JNull)
      ("TEST 101" :: "TEST 102" :: "TEST 103" :: nil);
  program_rows :=
    test_program
      (test_requirement "req-1" "Foundation Courses" "REQUIRED"
         ("TEST 101" :: "TEST 102" :: "TEST 103" :: nil) :: nil)
      JNull :: nil;
  integer_code := sqlite;
|}.

(** test_validate_choice_requirements *)
Definition choice : database := {|
  course_rows :=
    map (fun code => test_course code "200" 3 JNull)
      ("TEST 201" :: "TEST 202" :: "TEST 203" :: "TEST 204" :: "TEST 205" :: nil);
  program_rows :=
    test_program
      (Requirement.make "req-1" "Choose 2 from 5" "CHOICE"
         (Some ("TEST 201" :: "TEST 202" :: "TEST 203" :: "TEST 204" :: "TEST 205" :: nil))
         None (Some 2) (Some nil) None :: nil)
      JNull :: nil;
  integer_code := sqlite;
|}.

(** test_validate_level_requirements *)
Definition levels : database := {|
  course_rows :=
    test_course "TEST 301" "300" 6 JNull :: test_course "TEST 302" "300" 6 JNull
    :: test_course "TEST 401" "400" 6 JNull :: test_course "TEST 201" "200" 6 JNull :: nil;
  program_rows :=
    test_program
      (Requirement.make "req-1" "Upper Level Courses" "LEVEL_REQUIREMENT"
         (Some nil) (Some 18) None (Some ("300" :: "400" :: nil)) (Some "TEST") :: nil)
      JNull :: nil;
  integer_code := sqlite;
|}.

(** test_get_next_available_courses and test_multiple_requirements_progress *)
Definition two_requirements : database := {|
  course_rows :=
    test_course "TEST 101" "100" 3 JNull :: test_course "TEST 102" "100" 3 JNull
    :: test_course "TEST 201" "200" 3 (course "TEST 101")
    :: test_course "TEST 202" "200" 3 JNull :: nil;
  program_rows :=
    test_program
      (test_requirement "req-1" "Foundation" "REQUIRED" ("TEST 101" :: "TEST 102" :: nil)
       :: Requirement.make "req-2" "Advanced" "CHOICE"
            (Some ("TEST 201" :: "TEST 202" :: nil)) None (Some 1) (Some nil) None :: nil)
      JNull :: nil;
  integer_code := sqlite;
|}.

(** test_find_satisfiable_requirements *)
Definition satisfiable : database := {|
  course_rows :=
    Course.make "MATH 101" "Calculus I" 3 JNull (Some nil) "100" "MATH"
    :: Course.make "MATH 201" "Calculus II" 3 JNull (Some nil) "200" "MATH"
    :: Course.make "MATH 301" "Analysis" 3 JNull (Some nil) "300" "MATH" :: nil;
  program_rows :=
    test_program
      (test_requirement "req-1" "Required Math" "REQUIRED" ("MATH 101" :: "MATH 102" :: nil)
       :: Requirement.make "req-2" "Choose Math or Stats" "CHOICE"
            (Some ("MATH 201" :: "STAT 201" :: nil)) None (Some 1) (Some nil) None
       :: Requirement.make "req-3" "300-level Courses" "LEVEL_REQUIREMENT"
            (Some nil) (Some 6) None (Some ("300" :: nil)) (Some "MATH") :: nil)
      JNull :: nil;
  integer_code := sqlite;
|}.

(** test_apply_special_rules *)
Definition rules : json :=
  JDict (("exclusions",
          JList (JDict (("course", JStr "CMPUT 275")
                        :: ("excludes", JList (JStr "CMPUT 201" :: nil)) :: nil)
                 :: JDict (("course", JStr "MATH 134")
                           :: ("excludes", JList (JStr "MATH 144" :: JStr "MATH 154" :: nil))
                           :: nil)
                 :: nil))
         :: ("substitutions",
             JList (JDict (("from", JStr "CMPUT 115") :: ("to", JStr "CMPUT 174") :: nil) :: nil))
         :: ("additional_requirements",
             JList (JStr "Must maintain 3.0 GPA" :: JStr "Complete within 5 years" :: nil))
         :: nil).

(** What the tests read of a result. *)
Definition checked (r : result PrerequisiteCheckResult.t) :
    result (bool * list string * list string) :=
  x ← r;
  Ok (PrerequisiteCheckResult.is_valid x, PrerequisiteCheckResult.missing_courses x,
      PrerequisiteCheckResult.satisfied_prerequisites x).

Definition progress (r : result RequirementValidationResult.t) :
    result (bool * Q * list (bool * Z * Q)) :=
  x ← r;
  Ok (RequirementValidationResult.is_complete x,
      Qred (RequirementValidationResult.overall_progress x),
      map (fun p => (RequirementProgress.is_satisfied p,
                     RequirementProgress.completed_count p,
                     Qred (RequirementProgress.progress_percentage p)))
          (RequirementValidationResult.requirements x)).

Definition offered (r : result (list AvailableCourse.t)) : result (list (string * bool * Q)) :=
  l ← r;
  Ok (map (fun a => (AvailableCourse.course_code a, AvailableCourse.prerequisites_met a,
                     Qred (AvailableCourse.priority_score a))) l).

(** The depths along the first branch of a tree, [fuel] levels down. *)
Fixpoint branch_depths (fuel : nat) (node : PrerequisiteNode.t) : list Z :=
  PrerequisiteNode.depth node ::
  match fuel, PrerequisiteNode.prerequisites node with
  | S fuel', child :: _ => branch_depths fuel' child
  | _, _ => nil
  end.

End Fixtures.

(** * Properties *)

(** ** Formula evaluation *)

(** *** The evaluation equation *)

Lemma with_key_get {A : Type} (k : string) (d : list (string * json))
    (absent : A) (present : json -> A) :
  with_key k d absent present =
  match dict_get k d with
  | Some v => present v
  | None => absent
  end.
Proof.
  induction d as [|[k' v] d IH]; simpl; [reflexivity|].
  destruct (String.eqb k' k); [reflexivity|exact IH].
Qed.

Lemma and_loop_ext (ev ev' : json -> result evaluation) (l : list json) (acc : evaluation) :
  Forall (fun c => ev c = ev' c) l -> and_loop ev l acc = and_loop ev' l acc.
Proof.
  intros H. revert acc. induction H as [|c l Hc _ IH]; intros acc; simpl; [reflexivity|].
  rewrite Hc. destruct (ev' c) as [[[valid missing] satisfied]|e]; [|reflexivity].
  destruct acc as [[is_valid all_missing] all_satisfied]. apply IH.
Qed.

Lemma or_loop_ext (ev ev' : json -> result evaluation) (l : list json) (acc : list string) :
  Forall (fun c => ev c = ev' c) l -> or_loop ev l acc = or_loop ev' l acc.
Proof.
  intros H. revert acc. induction H as [|c l Hc _ IH]; intros acc; simpl; [reflexivity|].
  rewrite Hc. destruct (ev' c) as [[[valid missing] satisfied]|e]; [|reflexivity].
  destruct valid; [reflexivity|apply IH].
Qed.

(** On anything but an object the function is [evaluate_non_object]. *)
Lemma _evaluate_formula_non_object (formula : json) (completed : gset string) :
  (forall d, formula <> JDict d) ->
  _evaluate_formula formula completed = evaluate_non_object formula.
Proof.
  intros H. destruct formula as [|b|n|s|l|d]; try reflexivity.
  exfalso. exact (H d eq_refl).
Qed.

(** The items of an iterable that is not a list are strings. *)
Lemma py_iter_strings (x : json) (items : list json) :
  (forall l, x <> JList l) -> py_iter x = Ok items ->
  Forall (fun c => forall d, c <> JDict d) items.
Proof.
  intros Hx Hi. destruct x as [|b|n|s|l|d]; simpl in Hi; try discriminate.
  - injection Hi as <-. unfold chars. apply Forall_forall. intros c Hc.
    apply list_elem_of_fmap in Hc as [a [-> _]]. discriminate.
  - exfalso. exact (Hx l eq_refl).
  - injection Hi as <-. apply Forall_forall. intros c Hc.
    apply list_elem_of_fmap in Hc as [a [-> _]]. discriminate.
Qed.

(** The function satisfies the equation its Python text reads as: every
    condition, whatever iterable holds it, goes through the recursive call. *)
Lemma _evaluate_formula_eq (formula : json) (completed : gset string) :
  _evaluate_formula formula completed =
  if py_falsy formula then Ok (true, nil, nil) else
  match formula with
  | JDict d =>
      match dict_get_or "type" (JStr "") d with
      | JStr type =>
          let formula_type := py_upper type in
          if String.eqb formula_type "COURSE" then
            match dict_get_or "code" (JStr "") d with
            | JDict c => _evaluate_formula (JDict c) completed
            | JStr s => course_leaf s completed
            | _ => Ok (false, nil, nil)
            end
          else if String.eqb formula_type "AND" then
            conditions ← py_iter (dict_get_or "conditions" (JList nil) d);
            and_loop (fun c => _evaluate_formula c completed) conditions (true, nil, nil)
          else if String.eqb formula_type "OR" then
            conditions ← py_iter (dict_get_or "conditions" (JList nil) d);
            or_loop (fun c => _evaluate_formula c completed) conditions nil
          else Ok (false, nil, nil)
      | _ => Raise AttributeError
      end
  | _ => Raise AttributeError
  end.
Proof.
  destruct formula as [| | | | |d]; try reflexivity.
  cbn [_evaluate_formula]. destruct (py_falsy (JDict d)); [reflexivity|].
  destruct (dict_get_or "type" (JStr "") d) as [| | |type| |]; try reflexivity.
  cbv zeta. rewrite !with_key_get. unfold dict_get_or.
  destruct (String.eqb (py_upper type) "COURSE").
  { destruct (dict_get "code" d) as [[]|]; reflexivity. }
  destruct (String.eqb (py_upper type) "AND").
  { destruct (dict_get "conditions" d) as [conditions|]; [|reflexivity].
    cbn [default].
    destruct conditions as [| | |s|l|d']; try reflexivity.
    - cbn [py_iter mbind result_bind]. apply and_loop_ext.
      eapply Forall_impl; [apply (py_iter_strings (JStr s)); [discriminate|reflexivity]|].
      intros c Hc. cbv beta. symmetry. apply _evaluate_formula_non_object, Hc.
    - cbn [py_iter mbind result_bind]. apply and_loop_ext.
      eapply Forall_impl; [apply (py_iter_strings (JDict d')); [discriminate|reflexivity]|].
      intros c Hc. cbv beta. symmetry. apply _evaluate_formula_non_object, Hc. }
  destruct (String.eqb (py_upper type) "OR"); [|reflexivity].
  destruct (dict_get "conditions" d) as [conditions|]; [|reflexivity].
  cbn [default].
  destruct conditions as [| | |s|l|d']; try reflexivity.
  - cbn [py_iter mbind result_bind]. apply or_loop_ext.
    eapply Forall_impl; [apply (py_iter_strings (JStr s)); [discriminate|reflexivity]|].
    intros c Hc. cbv beta. symmetry. apply _evaluate_formula_non_object, Hc.
  - cbn [py_iter mbind result_bind]. apply or_loop_ext.
    eapply Forall_impl; [apply (py_iter_strings (JDict d')); [discriminate|reflexivity]|].
    intros c Hc. cbv beta. symmetry. apply _evaluate_formula_non_object, Hc.
Qed.

Lemma dict_get_elem (k : string) (d : list (string * json)) (v : json) :
  dict_get k d = Some v -> exists k', (k', v) ∈ d.
Proof.
  induction d as [|[k' v'] d IH]; simpl; [discriminate|].
  destruct (String.eqb k' k).
  - intros [= ->]. exists k'. apply list_elem_of_here.
  - intros H. destruct (IH H) as [k'' Hk]. exists k''. apply list_elem_of_further, Hk.
Qed.

(** Induction along [subformula]. *)
Lemma formula_ind (P : json -> Prop) :
  (forall j, (forall c, subformula c j -> P c) -> P j) -> forall j, P j.
Proof.
  intros step.
  assert (leaf : forall j, (forall d, j <> JDict d) -> P j).
  { intros j Hj. apply step. intros c [d [-> _]]. exfalso. exact (Hj d eq_refl). }
  assert (H : forall j, P j /\ (forall l, j = JList l -> Forall P l)).
  { induction j as [|b|n|s|l IH|d IH] using json_ind;
      (split; [|try discriminate]); try (apply leaf; discriminate).
    - intros l' [= <-]. eapply Forall_impl; [exact IH|]. intros c [Hc _]. exact Hc.
    - apply step. intros c [d' [[= <-] Hsub]].
      rewrite Forall_forall in IH.
      destruct Hsub as [Hcode|[l [Hcond Hin]]].
      + subst c. unfold dict_get_or.
        destruct (dict_get "code" d) as [v|] eqn:Hcode; [|apply leaf; discriminate].
        apply dict_get_elem in Hcode as [k Hk]. exact (proj1 (IH _ Hk)).
      + unfold dict_get_or in Hcond.
        destruct (dict_get "conditions" d) as [v|] eqn:Hget; simpl in Hcond.
        * subst v. apply dict_get_elem in Hget as [k Hk].
          pose proof (proj2 (IH _ Hk) l eq_refl) as Hl.
          rewrite Forall_forall in Hl. exact (Hl c Hin).
        * injection Hcond as <-. inversion Hin. }
  intros j. exact (proj1 (H j)).
Qed.

(** *** The two loops in closed form *)

(** The [AND] loop over conditions whose evaluations are [rs]. *)
Lemma and_loop_results (ev : json -> result evaluation) (l : list json)
    (rs : list evaluation) (is_valid : bool) (all_missing all_satisfied : list string) :
  Forall2 (fun c r => ev c = Ok r) l rs ->
  and_loop ev l (is_valid, all_missing, all_satisfied) =
  Ok (is_valid && forallb valid_of rs,
      all_missing ++ concat (map missing_of rs),
      all_satisfied ++ concat (map satisfied_of rs)).
Proof.
  intros H. revert is_valid all_missing all_satisfied.
  induction H as [|c r l rs Hc _ IH]; intros is_valid all_missing all_satisfied; simpl.
  - rewrite andb_true_r, !app_nil_r. reflexivity.
  - rewrite Hc. destruct r as [[valid missing] satisfied]. rewrite IH.
    unfold valid_of, missing_of, satisfied_of. simpl. rewrite !app_assoc.
    destruct valid, is_valid; reflexivity.
Qed.

(** An [AND] loop that returns has evaluated every condition. *)
Lemma and_loop_inv (ev : json -> result evaluation) (l : list json)
    (acc r : evaluation) :
  and_loop ev l acc = Ok r -> exists rs, Forall2 (fun c r => ev c = Ok r) l rs.
Proof.
  revert acc. induction l as [|c l IH]; intros acc; simpl.
  - intros _. exists nil. constructor.
  - destruct (ev c) as [[[valid missing] satisfied]|e] eqn:Hc; [|discriminate].
    destruct acc as [[is_valid all_missing] all_satisfied]. intros H.
    destruct (IH _ H) as [rs Hrs]. exists ((valid, missing, satisfied) :: rs).
    constructor; assumption.
Qed.

(** The [OR] loop when every condition evaluates to invalid. *)
Lemma or_loop_none (ev : json -> result evaluation) (l : list json)
    (rs : list evaluation) (all_missing : list string) :
  Forall2 (fun c r => ev c = Ok r /\ valid_of r = false) l rs ->
  or_loop ev l all_missing = Ok (false, all_missing ++ concat (map missing_of rs), nil).
Proof.
  intros H. revert all_missing.
  induction H as [|c r l rs [Hc Hv] _ IH]; intros all_missing; simpl.
  - rewrite app_nil_r. reflexivity.
  - rewrite Hc. destruct r as [[valid missing] satisfied].
    unfold valid_of in Hv. simpl in Hv. subst valid.
    rewrite IH. unfold missing_of at 2. simpl. rewrite app_assoc. reflexivity.
Qed.

(** The [OR] loop at the first valid condition: what follows it is not
    evaluated, and what the earlier ones miss is dropped. *)
Lemma or_loop_first (ev : json -> result evaluation) (pre post : list json) (c : json)
    (rs : list evaluation) (missing satisfied all_missing : list string) :
  Forall2 (fun c r => ev c = Ok r /\ valid_of r = false) pre rs ->
  ev c = Ok (true, missing, satisfied) ->
  or_loop ev (pre ++ c :: post) all_missing = Ok (true, nil, satisfied).
Proof.
  intros H Hc. revert all_missing.
  induction H as [|c' r l rs [Hc' Hv] _ IH]; intros all_missing; simpl.
  - rewrite Hc. reflexivity.
  - rewrite Hc'. destruct r as [[valid missing'] satisfied'].
    unfold valid_of in Hv. simpl in Hv. subst valid. apply IH.
Qed.

(** An [OR] loop returns valid exactly when some condition evaluates to
    valid and every condition before it evaluates to invalid. *)
Lemma or_loop_valid (ev : json -> result evaluation) (l : list json)
    (all_missing : list string) :
  (exists missing satisfied, or_loop ev l all_missing = Ok (true, missing, satisfied)) <->
  exists pre c post rs missing satisfied,
    l = pre ++ c :: post /\
    Forall2 (fun c r => ev c = Ok r /\ valid_of r = false) pre rs /\
    ev c = Ok (true, missing, satisfied).
Proof.
  split.
  - revert all_missing. induction l as [|c l IH]; intros all_missing; simpl.
    + intros (missing & satisfied & [=]).
    + destruct (ev c) as [[[valid missing'] satisfied']|e] eqn:Hc.
      2:{ intros (missing & satisfied & [=]). }
      destruct valid.
      * intros _. exists nil, c, l, nil, missing', satisfied'.
        split; [reflexivity|]. split; [constructor|exact Hc].
      * intros H. destruct (IH _ H) as (pre & c0 & post & rs & m & s & -> & Hpre & Hc0).
        exists (c :: pre), c0, post, ((false, missing', satisfied') :: rs), m, s.
        split; [reflexivity|]. split; [|exact Hc0].
        constructor; [split; [exact Hc|reflexivity]|exact Hpre].
  - intros (pre & c & post & rs & m & s & -> & Hpre & Hc).
    exists nil, s. eapply or_loop_first; eassumption.
Qed.

(** *** Evaluation by tag *)

Lemma node_type_inv (formula : json) (tag : string) :
  node_type formula = Some tag ->
  exists d type, formula = JDict d /\ py_falsy formula = false /\
    dict_get_or "type" (JStr "") d = JStr type /\ tag = py_upper type.
Proof.
  unfold node_type. destruct (py_falsy formula) eqn:Hf; [discriminate|].
  destruct formula as [|b|n|s|l|d]; try discriminate.
  destruct (dict_get_or "type" (JStr "") d) as [|b|n|type|l|d'] eqn:Ht; try discriminate.
  intros [= <-]. exists d, type. auto.
Qed.

Ltac by_tag H :=
  let d := fresh "d" in let type := fresh "type" in
  let Hf := fresh "Hf" in let Ht := fresh "Ht" in let Hu := fresh "Hu" in
  destruct (node_type_inv _ _ H) as (d & type & -> & Hf & Ht & Hu);
  rewrite _evaluate_formula_eq, Hf, Ht; cbv zeta; rewrite <- Hu.

Lemma evaluate_course (formula : json) (completed : gset string) :
  node_type formula = Some "COURSE" ->
  _evaluate_formula formula completed =
  match node_code formula with
  | JDict c => _evaluate_formula (JDict c) completed
  | JStr s => course_leaf s completed
  | _ => Ok (false, nil, nil)
  end.
Proof. intros H. by_tag H. reflexivity. Qed.

Lemma evaluate_and (formula : json) (completed : gset string) :
  node_type formula = Some "AND" ->
  _evaluate_formula formula completed =
  conditions ← py_iter (node_conditions formula);
  and_loop (fun c => _evaluate_formula c completed) conditions (true, nil, nil).
Proof. intros H. by_tag H. reflexivity. Qed.

Lemma evaluate_or (formula : json) (completed : gset string) :
  node_type formula = Some "OR" ->
  _evaluate_formula formula completed =
  conditions ← py_iter (node_conditions formula);
  or_loop (fun c => _evaluate_formula c completed) conditions nil.
Proof. intros H. by_tag H. reflexivity. Qed.

Lemma evaluate_unrecognized (formula : json) (completed : gset string) (tag : string) :
  node_type formula = Some tag -> unrecognized tag ->
  _evaluate_formula formula completed = Ok (false, nil, nil).
Proof.
  intros H (HC & HA & HO). by_tag H.
  apply String.eqb_neq in HC, HA, HO. rewrite HC, HA, HO. reflexivity.
Qed.

(** A value that is neither empty nor a tagged object makes the call raise. *)
Lemma evaluate_untagged (formula : json) (completed : gset string) :
  py_falsy formula = false -> node_type formula = None ->
  _evaluate_formula formula completed = Raise AttributeError.
Proof.
  intros Hf H. rewrite _evaluate_formula_eq, Hf. unfold node_type in H. rewrite Hf in H.
  destruct formula as [|b|n|s|l|d]; try reflexivity.
  destruct (dict_get_or "type" (JStr "") d); try reflexivity. discriminate.
Qed.

(** *** Well-formed formulas are evaluated without exception *)

Lemma well_formed_eq (formula : json) :
  well_formed formula =
  py_falsy formula ||
  match formula with
  | JDict d =>
      match dict_get_or "type" (JStr "") d with
      | JStr type =>
          let formula_type := py_upper type in
          if String.eqb formula_type "COURSE" then
            match dict_get_or "code" (JStr "") d with
            | JDict c => well_formed (JDict c)
            | _ => true
            end
          else if String.eqb formula_type "AND" || String.eqb formula_type "OR" then
            match dict_get_or "conditions" (JList nil) d with
            | JList l => forallb well_formed l
            | _ => false
            end
          else true
      | _ => false
      end
  | _ => false
  end.
Proof.
  destruct formula as [|b|n|s|l|d]; try reflexivity.
  cbn [well_formed]. f_equal.
  destruct (dict_get_or "type" (JStr "") d) as [|b|n|type|l|d']; try reflexivity.
  cbv zeta. rewrite !with_key_get. unfold dict_get_or.
  destruct (dict_get "code" d) as [[]|], (dict_get "conditions" d) as [[]|]; reflexivity.
Qed.

Lemma and_loop_returns (ev : json -> result evaluation) (l : list json) (acc : evaluation) :
  Forall (fun c => exists r, ev c = Ok r) l -> exists r, and_loop ev l acc = Ok r.
Proof.
  intros H. revert acc. induction H as [|c l [r Hc] _ IH]; intros acc; simpl; [eauto|].
  rewrite Hc. destruct r as [[valid missing] satisfied], acc as [[is_valid am] asat]. apply IH.
Qed.

Lemma or_loop_returns (ev : json -> result evaluation) (l : list json) (acc : list string) :
  Forall (fun c => exists r, ev c = Ok r) l -> exists r, or_loop ev l acc = Ok r.
Proof.
  intros H. revert acc. induction H as [|c l [r Hc] _ IH]; intros acc; simpl; [eauto|].
  rewrite Hc. destruct r as [[[] missing] satisfied]; [eauto|apply IH].
Qed.

Lemma course_leaf_returns (code : string) (completed : gset string) :
  exists r, course_leaf code completed = Ok r.
Proof. unfold course_leaf. destruct (bool_decide _); eauto. Qed.

(** The children of a well-formed node are well-formed. *)
Lemma well_formed_conditions (formula : json) (tag : string) :
  well_formed formula = true -> node_type formula = Some tag -> tag = "AND" \/ tag = "OR" ->
  exists l, node_conditions formula = JList l /\ Forall (fun c => well_formed c = true) l.
Proof.
  intros Hwf H Htag. destruct (node_type_inv _ _ H) as (d & type & -> & Hf & Ht & Hu).
  rewrite well_formed_eq, Hf, Ht in Hwf. cbv zeta in Hwf. rewrite <- Hu in Hwf.
  simpl. destruct Htag as [-> | ->]; simpl in Hwf;
    (destruct (dict_get_or "conditions" (JList nil) d) as [|b|n|s|l|d'];
       try discriminate; exists l; split; [reflexivity|];
       apply Forall_forall; intros c Hc;
       rewrite forallb_forall in Hwf; apply Hwf, list_elem_of_In, Hc).
Qed.

Lemma well_formed_code (formula : json) (c : list (string * json)) :
  well_formed formula = true -> node_type formula = Some "COURSE" ->
  node_code formula = JDict c -> well_formed (JDict c) = true.
Proof.
  intros Hwf H Hc. destruct (node_type_inv _ _ H) as (d & type & -> & Hf & Ht & Hu).
  rewrite well_formed_eq, Hf, Ht in Hwf. cbv zeta in Hwf. rewrite <- Hu in Hwf.
  simpl in Hc, Hwf. rewrite Hc in Hwf. exact Hwf.
Qed.

Lemma well_formed_tagged (formula : json) :
  well_formed formula = true -> py_falsy formula = false ->
  exists tag, node_type formula = Some tag.
Proof.
  intros Hwf Hf. rewrite well_formed_eq, Hf in Hwf. unfold node_type. rewrite Hf.
  destruct formula as [|b|n|s|l|d]; try discriminate.
  destruct (dict_get_or "type" (JStr "") d); try discriminate. eauto.
Qed.

Lemma tag_cases (tag : string) :
  tag = "COURSE" \/ tag = "AND" \/ tag = "OR" \/ unrecognized tag.
Proof.
  unfold unrecognized.
  destruct (String.eqb_spec tag "COURSE"); [auto|].
  destruct (String.eqb_spec tag "AND"); [auto|].
  destruct (String.eqb_spec tag "OR"); [auto|].
  right. right. right. repeat split; assumption.
Qed.

Lemma well_formed_returns (formula : json) (completed : gset string) :
  well_formed formula = true -> exists r, _evaluate_formula formula completed = Ok r.
Proof.
  induction formula as [j IH] using formula_ind. intros Hwf.
  destruct (py_falsy j) eqn:Hf.
  { rewrite _evaluate_formula_eq, Hf. eauto. }
  destruct (well_formed_tagged _ Hwf Hf) as [tag Htag].
  destruct (tag_cases tag) as [-> | [-> | [-> | Hu]]].
  - rewrite (evaluate_course _ _ Htag).
    destruct (node_code j) as [|b|n|s|l|c] eqn:Hc; eauto using course_leaf_returns.
    apply IH; [|exact (well_formed_code _ _ Hwf Htag Hc)].
    destruct (node_type_inv _ _ Htag) as (d & type & -> & _). exists d. split; [reflexivity|].
    left. symmetry. exact Hc.
  - rewrite (evaluate_and _ _ Htag).
    destruct (well_formed_conditions _ _ Hwf Htag) as (l & Hl & Hall); [auto|].
    rewrite Hl. simpl. apply and_loop_returns.
    rewrite Forall_forall in Hall |- *. intros c Hc. apply IH; [|exact (Hall c Hc)].
    destruct (node_type_inv _ _ Htag) as (d & type & -> & _). exists d. split; [reflexivity|].
    right. exists l. auto.
  - rewrite (evaluate_or _ _ Htag).
    destruct (well_formed_conditions _ _ Hwf Htag) as (l & Hl & Hall); [auto|].
    rewrite Hl. simpl. apply or_loop_returns.
    rewrite Forall_forall in Hall |- *. intros c Hc. apply IH; [|exact (Hall c Hc)].
    destruct (node_type_inv _ _ Htag) as (d & type & -> & _). exists d. split; [reflexivity|].
    right. exists l. auto.
  - rewrite (evaluate_unrecognized _ _ _ Htag Hu). eauto.
Qed.

(** *** Satisfaction *)

Lemma course_leaf_valid (code : string) (completed : gset string)
    (missing satisfied_courses : list string) :
  course_leaf code completed = Ok (true, missing, satisfied_courses) <->
  py_upper code ∈ completed /\ missing = nil /\ satisfied_courses = code :: nil.
Proof.
  unfold course_leaf. destruct (bool_decide_reflect (py_upper code ∈ completed)) as [Hin|Hout].
  - split; [intros [= <- <-]; auto|intros (_ & -> & ->); reflexivity].
  - split; [discriminate|intros (Hin & _); contradiction].
Qed.

Lemma and_loop_valid (ev : json -> result evaluation) (l : list json) :
  (exists missing satisfied_courses,
     and_loop ev l (true, nil, nil) = Ok (true, missing, satisfied_courses)) <->
  Forall (fun c => exists missing satisfied_courses,
            ev c = Ok (true, missing, satisfied_courses)) l.
Proof.
  split.
  - intros (missing & sat & H).
    destruct (and_loop_inv _ _ _ _ H) as [rs Hrs].
    rewrite (and_loop_results _ _ _ _ _ _ Hrs) in H. injection H as Hv _ _.
    simpl in Hv. clear missing sat.
    induction Hrs as [|c r l rs Hc _ IH]; constructor.
    + destruct r as [[valid m] s]. simpl in Hv. apply andb_prop in Hv as [Hv _].
      unfold valid_of in Hv. simpl in Hv. subst valid. eauto.
    + apply IH. simpl in Hv. apply andb_prop in Hv as [_ Hv]. exact Hv.
  - intros H.
    assert (exists rs, Forall2 (fun c r => ev c = Ok r) l rs /\ forallb valid_of rs = true)
      as (rs & Hrs & Hv).
    { induction H as [|c l (m & s & Hc) _ (rs & Hrs & Hv)].
      - exists nil. split; [constructor|reflexivity].
      - exists ((true, m, s) :: rs). split; [constructor; assumption|exact Hv]. }
    rewrite (and_loop_results _ _ _ _ _ _ Hrs), Hv. eauto.
Qed.

Lemma or_loop_exists (ev : json -> result evaluation) (l : list json) (acc : list string) :
  Forall (fun c => exists r, ev c = Ok r) l ->
  Exists (fun c => exists missing satisfied_courses,
            ev c = Ok (true, missing, satisfied_courses)) l ->
  exists missing satisfied_courses, or_loop ev l acc = Ok (true, missing, satisfied_courses).
Proof.
  intros Hall Hex. revert acc.
  induction Hall as [|c l [r Hc] _ IH]; intros acc; [inversion Hex|].
  simpl. rewrite Hc. destruct r as [[[] m] s]; [eauto|].
  apply IH. inversion Hex as [? ? (m' & s' & Hc')|]; [congruence|assumption].
Qed.

(** On any JSON value, well-formed or not: the conditions are the items
    Python iterates, and an [OR] node needs the children before the satisfied
    one to return. *)
Lemma satisfied_iff_evaluated (formula : json) (completed : gset string) :
  satisfied formula completed <->
  py_falsy formula = true \/ completed_leaf formula completed \/
  satisfied_nested formula completed \/
  (exists conditions,
     node_type formula = Some "AND" /\
     py_iter (node_conditions formula) = Ok conditions /\
     Forall (fun c => satisfied c completed) conditions) \/
  (exists pre c post rs,
     node_type formula = Some "OR" /\
     py_iter (node_conditions formula) = Ok (pre ++ c :: post) /\
     Forall2 (fun c r => _evaluate_formula c completed = Ok r /\ valid_of r = false) pre rs /\
     satisfied c completed).
Proof.
  destruct (py_falsy formula) eqn:Hf.
  { split; [auto|]. intros _. exists nil, nil. rewrite _evaluate_formula_eq, Hf. reflexivity. }
  destruct (node_type formula) as [tag|] eqn:Htag.
  2:{ unfold satisfied, completed_leaf, satisfied_nested.
      rewrite (evaluate_untagged _ _ Hf Htag), Htag. split.
      - intros (missing & sat & [=]).
      - intros [H|[(s & H & _)|[(c & H & _)|[(l & H & _)|(pre & c & post & rs & H & _)]]]];
          discriminate. }
  unfold completed_leaf, satisfied_nested.
  destruct (tag_cases tag) as [-> | [-> | [-> | Hu]]].
  - unfold satisfied at 1. rewrite (evaluate_course _ _ Htag). split.
    + intros (missing & sat & H). right.
      destruct (node_code formula) as [|b|n|s|l|c] eqn:Hc; try discriminate.
      * left. exists s. apply course_leaf_valid in H as (Hin & _).
        split_and!; first [exact Htag|reflexivity|exact Hin].
      * right. left. exists c. split_and!; try first [exact Htag|reflexivity].
        exists missing, sat. exact H.
    + intros [H|[(s & _ & Hc & Hin)|[(c & _ & Hc & H)|[(l & H & _)|(pre & c & post & rs & H & _)]]]];
        try congruence.
      * rewrite Hc. exists nil, (s :: nil). apply course_leaf_valid. auto.
      * rewrite Hc. exact H.
  - unfold satisfied at 1. rewrite (evaluate_and _ _ Htag). split.
    + intros (missing & sat & H). right. right. right. left.
      destruct (py_iter (node_conditions formula)) as [l|e]; [|discriminate].
      exists l. split_and!; try first [exact Htag|reflexivity]. apply and_loop_valid. eauto.
    + intros [H|[(s & H & _)|[(c & H & _)|[(l & _ & -> & H)|(pre & c & post & rs & H & _)]]]];
        try congruence.
      apply and_loop_valid in H. exact H.
  - unfold satisfied at 1. rewrite (evaluate_or _ _ Htag). split.
    + intros (missing & sat & H). right. right. right. right.
      destruct (py_iter (node_conditions formula)) as [l|e]; [|discriminate].
      cbn [mbind result_bind] in H.
      destruct (proj1 (or_loop_valid _ _ _) (ex_intro _ missing (ex_intro _ sat H)))
        as (pre & c & post & rs & m & s & -> & Hpre & Hc).
      exists pre, c, post, rs. split_and!; try first [exact Htag|reflexivity|exact Hpre].
      exists m, s. exact Hc.
    + intros [H|[(s & H & _)|[(c & H & _)|[(l & H & _)|(pre & c & post & rs & _ & -> & Hpre & m & s & Hc)]]]];
        try congruence.
      exists nil, s. exact (or_loop_first _ _ _ _ _ _ _ _ Hpre Hc).
  - unfold satisfied at 1. rewrite (evaluate_unrecognized _ _ _ Htag Hu).
    destruct Hu as (HC & HA & HO). split.
    + intros (missing & sat & [=]).
    + intros [H|[(s & H & _)|[(c & H & _)|[(l & H & _)|(pre & c & post & rs & H & _)]]]];
        try discriminate; congruence.
Qed.

(** The five cases are complete and sound on a well-formed formula. *)
Lemma satisfied_iff_cases (formula : json) (completed : gset string) :
  well_formed formula = true ->
  satisfied formula completed <-> satisfied_cases formula completed.
Proof.
  intros Hwf. unfold satisfied_cases.
  destruct (py_falsy formula) eqn:Hf.
  { split; [auto|]. intros _. exists nil, nil. rewrite _evaluate_formula_eq, Hf. reflexivity. }
  destruct (well_formed_tagged _ Hwf Hf) as [tag Htag].
  assert (Hother : forall tag', node_type formula = Some tag' -> tag' = tag) by congruence.
  unfold completed_leaf, satisfied_nested, all_children_satisfied, some_child_satisfied.
  destruct (tag_cases tag) as [-> | [-> | [-> | Hu]]].
  - unfold satisfied at 1. rewrite (evaluate_course _ _ Htag). split.
    + intros (missing & sat & H). right.
      destruct (node_code formula) as [|b|n|s|l|c] eqn:Hc; try discriminate.
      * left. exists s. apply course_leaf_valid in H as (Hin & _). auto.
      * right. left. exists c. repeat split; [assumption|]. exists missing, sat. exact H.
    + intros [H|[(s & _ & Hc & Hin)|[(c & _ & Hc & H)|[(l & H & _)|(l & H & _)]]]];
        try discriminate; try (apply Hother in H; discriminate).
      * rewrite Hc. exists nil, (s :: nil). apply course_leaf_valid. auto.
      * rewrite Hc. exact H.
  - destruct (well_formed_conditions _ _ Hwf Htag) as (l & Hl & Hall); [auto|].
    unfold satisfied at 1. rewrite (evaluate_and _ _ Htag), Hl. cbn [py_iter mbind result_bind].
    rewrite and_loop_valid. split.
    + intros H. right. right. right. left. exists l. auto.
    + intros [H|[(s & H & _)|[(c & H & _)|[(l' & _ & Hl' & H)|(l' & H & _)]]]];
        try discriminate; try (apply Hother in H; discriminate).
      injection Hl' as <-. exact H.
  - destruct (well_formed_conditions _ _ Hwf Htag) as (l & Hl & Hall); [auto|].
    unfold satisfied at 1. rewrite (evaluate_or _ _ Htag), Hl. cbn [py_iter mbind result_bind].
    split.
    + intros H. right. right. right. right. exists l. repeat split; [assumption|].
      apply or_loop_valid in H as (pre & c & post & rs & m & s & -> & _ & Hc).
      apply Exists_app. right. apply Exists_cons_hd. exists m, s. exact Hc.
    + intros [H|[(s & H & _)|[(c & H & _)|[(l' & H & _)|(l' & _ & Hl' & H)]]]];
        try discriminate; try (apply Hother in H; discriminate).
      injection Hl' as <-. apply or_loop_exists; [|exact H].
      eapply Forall_impl; [exact Hall|]. intros c Hc. cbv beta.
      apply well_formed_returns, Hc.
  - unfold satisfied at 1. rewrite (evaluate_unrecognized _ _ _ Htag Hu).
    destruct Hu as (HC & HA & HO). split.
    + intros (missing & sat & [=]).
    + intros [H|[(s & H & _)|[(c & H & _)|[(l' & H & _)|(l' & H & _)]]]];
        try discriminate; apply Hother in H; congruence.
Qed.

(** *** The properties of formula evaluation *)

(** C1, as stated, fails: a [COURSE] node whose code is the nested formula
    [COURSE(CMPUT 174)] is satisfied by a student who completed
    [CMPUT 174], and it is none of the four stated cases. *)
Lemma evaluate_formula_stated_cases_fail :
  ~ (satisfied nested_course {["CMPUT 174"]} <->
     satisfied_as_stated nested_course {["CMPUT 174"]}).
Proof.
  intros [Hcases _].
  assert (Hsat : satisfied nested_course {["CMPUT 174"]}).
  { exists nil, ("CMPUT 174" :: nil). vm_compute. reflexivity. }
  destruct (Hcases Hsat) as [H|[(code & _ & H & _)|[(l & H & _)|(l & H & _)]]];
    vm_compute in H; discriminate.
Qed.

(** C1 (amended): on every well-formed formula, [_evaluate_formula] returns
    [is_valid = True] if and only if the formula is empty, or a [COURSE] leaf
    whose code, uppercased, is in the completed set, or a [COURSE] node whose
    code is a nested formula object that is itself satisfied, or an [AND]
    node all of whose children are satisfied, or an [OR] node at least one of
    whose children is satisfied; and a node with an unrecognized tag
    evaluates to [(False, [], [])], without exception. *)
Theorem evaluate_formula_satisfied (formula : json) (completed : gset string) :
  well_formed formula = true ->
  (satisfied formula completed <-> satisfied_cases formula completed) /\
  (forall tag, node_type formula = Some tag -> unrecognized tag ->
     _evaluate_formula formula completed = Ok (false, nil, nil)).
Proof.
  intros Hwf. split.
  - apply satisfied_iff_cases, Hwf.
  - intros tag Htag Hu. exact (evaluate_unrecognized _ _ _ Htag Hu).
Qed.

Lemma evaluate_formula_satisfied_witness :
  well_formed cmput_204 = true /\
  ((satisfied cmput_204 {["CMPUT 174"]} <-> satisfied_cases cmput_204 {["CMPUT 174"]}) /\
   (forall tag, node_type cmput_204 = Some tag -> unrecognized tag ->
      _evaluate_formula cmput_204 {["CMPUT 174"]} = Ok (false, nil, nil))).
Proof.
  split; [reflexivity|]. apply evaluate_formula_satisfied. reflexivity.
Defined.

(** C2: an [OR] node evaluates its children in order.  At the first child
    that is valid it returns [(True, [], satisfied)] with the satisfied list
    of that child, whatever the later children are and whatever the earlier
    ones miss; when every child is invalid it returns [False] with the
    concatenation of their missing lists and no satisfied course. *)
Theorem evaluate_or_first_valid (formula : json) (completed : gset string)
    (conditions : list json) :
  node_type formula = Some "OR" ->
  node_conditions formula = JList conditions ->
  (forall pre c post rs missing satisfied_courses,
     conditions = pre ++ c :: post ->
     Forall2 (fun c r => _evaluate_formula c completed = Ok r /\ valid_of r = false) pre rs ->
     _evaluate_formula c completed = Ok (true, missing, satisfied_courses) ->
     _evaluate_formula formula completed = Ok (true, nil, satisfied_courses)) /\
  (forall rs,
     Forall2 (fun c r => _evaluate_formula c completed = Ok r /\ valid_of r = false)
       conditions rs ->
     _evaluate_formula formula completed = Ok (false, concat (map missing_of rs), nil)).
Proof.
  intros Htag Hl. rewrite (evaluate_or _ _ Htag), Hl. cbn [py_iter mbind result_bind]. split.
  - intros pre c post rs missing sat -> Hpre Hc.
    exact (or_loop_first (fun c => _evaluate_formula c completed) _ _ _ _ _ _ _ Hpre Hc).
  - intros rs Hrs.
    exact (or_loop_none (fun c => _evaluate_formula c completed) _ _ _ Hrs).
Qed.

(** The third condition is not a formula: evaluating it raises. *)
Lemma evaluate_or_first_valid_witness :
  _evaluate_formula (JNum 5) {["CMPUT 175"]} = Raise AttributeError /\
  _evaluate_formula
    (one_of (all_of (course "CMPUT 174" :: course "CMPUT 175" :: nil)
             :: course "CMPUT 175" :: JNum 5 :: nil))
    {["CMPUT 175"]} = Ok (true, nil, "CMPUT 175" :: nil) /\
  _evaluate_formula (one_of (course "CMPUT 174" :: course "CMPUT 274" :: nil))
    {["CMPUT 175"]} = Ok (false, "CMPUT 174" :: "CMPUT 274" :: nil, nil).
Proof.
  split; [reflexivity|]. split.
  - refine (proj1 (evaluate_or_first_valid
                     (one_of (all_of (course "CMPUT 174" :: course "CMPUT 175" :: nil)
                              :: course "CMPUT 175" :: JNum 5 :: nil))
                     {["CMPUT 175"]} _ eq_refl eq_refl)
              (all_of (course "CMPUT 174" :: course "CMPUT 175" :: nil) :: nil)
              (course "CMPUT 175") (JNum 5 :: nil)
              ((false, "CMPUT 174" :: nil, "CMPUT 175" :: nil) :: nil) nil _ eq_refl _ _).
    + repeat constructor.
    + vm_compute. reflexivity.
  - refine (proj2 (evaluate_or_first_valid
                     (one_of (course "CMPUT 174" :: course "CMPUT 274" :: nil))
                     {["CMPUT 175"]} _ eq_refl eq_refl)
              ((false, "CMPUT 174" :: nil, nil) :: (false, "CMPUT 274" :: nil, nil) :: nil) _).
    repeat constructor.
Defined.

(** C3: an [AND] node evaluates every child, whether or not an earlier one
    is invalid: its missing list is the concatenation of the missing lists of
    its children in order, its satisfied list the concatenation of their
    satisfied lists, and it is valid when all of them are. *)
Theorem evaluate_and_collects (formula : json) (completed : gset string)
    (conditions : list json) (rs : list evaluation) :
  node_type formula = Some "AND" ->
  node_conditions formula = JList conditions ->
  Forall2 (fun c r => _evaluate_formula c completed = Ok r) conditions rs ->
  _evaluate_formula formula completed =
  Ok (forallb valid_of rs, concat (map missing_of rs), concat (map satisfied_of rs)).
Proof.
  intros Htag Hl Hrs. rewrite (evaluate_and _ _ Htag), Hl. cbn [py_iter mbind result_bind].
  exact (and_loop_results (fun c => _evaluate_formula c completed) _ _ true nil nil Hrs).
Qed.

Lemma evaluate_and_collects_witness :
  _evaluate_formula
    (all_of (course "CMPUT 174" :: course "CMPUT 175" :: course "CMPUT 274" :: nil))
    {["CMPUT 175"]} =
  Ok (false, "CMPUT 174" :: "CMPUT 274" :: nil, "CMPUT 175" :: nil).
Proof.
  refine (evaluate_and_collects
            (all_of (course "CMPUT 174" :: course "CMPUT 175" :: course "CMPUT 274" :: nil))
            {["CMPUT 175"]} _
            ((false, "CMPUT 174" :: nil, nil) :: (true, nil, "CMPUT 175" :: nil)
             :: (false, "CMPUT 274" :: nil, nil) :: nil) eq_refl eq_refl _).
  repeat constructor.
Defined.

(** ** The codes of a formula *)

Lemma extend_loop_ext (ex ex' : json -> result (list json)) (l codes : list json) :
  Forall (fun c => ex c = ex' c) l -> extend_loop ex l codes = extend_loop ex' l codes.
Proof.
  intros H. revert codes. induction H as [|c l Hc _ IH]; intros codes; simpl; [reflexivity|].
  rewrite Hc. destruct (ex' c); [apply IH|reflexivity].
Qed.

Lemma _extract_course_codes_non_object (formula : json) :
  (forall d, formula <> JDict d) -> _extract_course_codes formula = no_get formula.
Proof.
  intros H. destruct formula as [|b|n|s|l|d]; try reflexivity.
  exfalso. exact (H d eq_refl).
Qed.

(** The equation the Python text reads as. *)
Lemma _extract_course_codes_eq (formula : json) :
  _extract_course_codes formula =
  match formula with
  | JDict d =>
      match dict_get_or "type" (JStr "") d with
      | JStr type =>
          let formula_type := py_upper type in
          if String.eqb formula_type "COURSE" then
            let code := default JNull (dict_get "code" d) in
            py_list_set (if py_falsy code then nil else code :: nil)
          else if String.eqb formula_type "AND" || String.eqb formula_type "OR" then
            conditions ← py_iter (dict_get_or "conditions" (JList nil) d);
            codes ← extend_loop _extract_course_codes conditions nil;
            py_list_set codes
          else py_list_set nil
      | _ => Raise AttributeError
      end
  | _ => Raise AttributeError
  end.
Proof.
  destruct formula as [|b|n|s|l|d]; try reflexivity.
  cbn [_extract_course_codes].
  destruct (dict_get_or "type" (JStr "") d) as [|b|n|type|l|d']; try reflexivity.
  cbv zeta. destruct (String.eqb (py_upper type) "COURSE"); [reflexivity|].
  destruct (String.eqb (py_upper type) "AND" || String.eqb (py_upper type) "OR");
    [|reflexivity].
  rewrite with_key_get. unfold dict_get_or.
  destruct (dict_get "conditions" d) as [conditions|]; [|reflexivity].
  cbn [default]. destruct conditions as [|b|n|s|l|d']; try reflexivity.
  - cbn [py_iter mbind result_bind].
    rewrite (extend_loop_ext no_get _extract_course_codes); [reflexivity|].
    eapply Forall_impl; [apply (py_iter_strings (JStr s)); [discriminate|reflexivity]|].
    intros c Hc. cbv beta. symmetry. apply _extract_course_codes_non_object, Hc.
  - cbn [py_iter mbind result_bind].
    rewrite (extend_loop_ext no_get _extract_course_codes); [reflexivity|].
    eapply Forall_impl; [apply (py_iter_strings (JDict d')); [discriminate|reflexivity]|].
    intros c Hc. cbv beta. symmetry. apply _extract_course_codes_non_object, Hc.
Qed.

Lemma set_from_error (seen : list hashable) (items : list json) (e : exn) :
  set_from seen items = Raise e -> e = TypeError.
Proof.
  revert seen. induction items as [|x items IH]; intros seen; simpl; [discriminate|].
  destruct (py_hash x) as [k|]; [|intros [= <-]; reflexivity].
  destruct (bool_decide (k ∈ seen)); [apply IH|].
  destruct (set_from (k :: seen) items) eqn:H; simpl; [discriminate|].
  intros [= <-]. eapply IH, H.
Qed.

Lemma extend_loop_error (ex : json -> result (list json)) (l codes : list json) (e : exn) :
  Forall (fun c => forall e, ex c = Raise e -> lookup_error e) l ->
  extend_loop ex l codes = Raise e -> lookup_error e.
Proof.
  intros H. revert codes. induction H as [|c l Hc _ IH]; intros codes; simpl; [discriminate|].
  destruct (ex c) eqn:Hex; [apply IH|]. intros [= <-]. apply Hc. reflexivity.
Qed.

Lemma _extract_course_codes_error (formula : json) (e : exn) :
  _extract_course_codes formula = Raise e -> lookup_error e.
Proof.
  revert e. induction formula as [j IH] using formula_ind. intros e.
  rewrite _extract_course_codes_eq.
  destruct j as [|b|n|s|l|d]; try (intros [= <-]; left; reflexivity).
  destruct (dict_get_or "type" (JStr "") d) as [|b|n|type|l|d'];
    try (intros [= <-]; left; reflexivity).
  cbv zeta. destruct (String.eqb (py_upper type) "COURSE").
  { intros H. right. eapply set_from_error, H. }
  destruct (String.eqb (py_upper type) "AND" || String.eqb (py_upper type) "OR").
  2:{ intros H. right. eapply set_from_error, H. }
  destruct (dict_get_or "conditions" (JList nil) d) as [|b|n|s|l|d'] eqn:Hc;
    cbn [py_iter mbind result_bind]; try (intros [= <-]; right; reflexivity).
  - destruct (extend_loop _ (chars s) nil) as [codes|e'] eqn:Hloop.
    + intros H. right. eapply set_from_error, H.
    + intros [= <-]. eapply extend_loop_error; [|exact Hloop].
      apply Forall_forall. intros c Hin e0 He.
      unfold chars in Hin. apply list_elem_of_fmap in Hin as [a [-> _]].
      injection He as <-. left. reflexivity.
  - destruct (extend_loop _ l nil) as [codes|e'] eqn:Hloop.
    + intros H. right. eapply set_from_error, H.
    + intros [= <-]. eapply extend_loop_error; [|exact Hloop].
      apply Forall_forall. intros c Hin e0 He. eapply IH; [|exact He].
      exists d. split; [reflexivity|]. right. exists l. auto.
  - destruct (extend_loop _ _ nil) as [codes|e'] eqn:Hloop.
    + intros H. right. eapply set_from_error, H.
    + intros [= <-]. eapply extend_loop_error; [|exact Hloop].
      apply Forall_forall. intros c Hin e0 He.
      apply list_elem_of_fmap in Hin as [a [-> _]].
      injection He as <-. left. reflexivity.
Qed.


Lemma leaf_codes_eq (formula : json) :
  leaf_codes formula =
  match formula with
  | JDict d =>
      match dict_get_or "type" (JStr "") d with
      | JStr type =>
          let formula_type := py_upper type in
          if String.eqb formula_type "COURSE" then
            let code := default JNull (dict_get "code" d) in
            if py_falsy code then nil else code :: nil
          else if String.eqb formula_type "AND" || String.eqb formula_type "OR" then
            match dict_get_or "conditions" (JList nil) d with
            | JList l => flat_map leaf_codes l
            | _ => nil
            end
          else nil
      | _ => nil
      end
  | _ => nil
  end.
Proof.
  destruct formula as [|b|n|s|l|d]; try reflexivity. cbn [leaf_codes].
  destruct (dict_get_or "type" (JStr "") d) as [|b|n|type|l|d']; try reflexivity.
  cbv zeta. rewrite with_key_get. unfold dict_get_or.
  destruct (dict_get "conditions" d) as [[]|]; reflexivity.
Qed.




(** On a formula whose codes are strings, each code once. *)
Example extract_course_codes_sample :
  _extract_course_codes (all_of (cmput_204 :: course "CMPUT 175" :: nil)) =
  Ok (JStr "CMPUT 174" :: JStr "CMPUT 175" :: JStr "CMPUT 274" :: nil).
Proof. vm_compute. reflexivity. Qed.

(** C4: [_extract_course_codes] does not ignore a [COURSE] leaf whose code is
    a nested formula object.  The object is truthy, so it is appended to the
    codes, and [set(codes)] raises [TypeError] on it, although
    [_evaluate_formula] accepts the same formula; the exception is not the
    [ValueError] that [get_prerequisite_tree] handles, so the tree of a course
    with such a formula is not built. *)
Theorem extract_course_codes_nested_raises `{Interpreter} :
  _extract_course_codes nested_course = Raise TypeError /\
  _evaluate_formula nested_course {["CMPUT 174"]} = Ok (true, nil, "CMPUT 174" :: nil) /\
  get_prerequisite_tree "CMPUT 275" catalogue 0 5 ∅ = Raise TypeError.
Proof.
  repeat split; [vm_compute; reflexivity..|].
  unfold get_prerequisite_tree. generalize recursion_limit.
  intros [|budget]; vm_compute; reflexivity.
Qed.

(** ** The prerequisite tree *)

Lemma select_course_code (rows : list Course.t) (course_code : string) (row : Course.t) :
  select_course rows course_code = Some row -> Course.code row = course_code.
Proof.
  induction rows as [|r rows IH]; simpl; [discriminate|].
  destruct (String.eqb_spec (Course.code r) course_code) as [Heq|_]; [|exact IH].
  intros [= <-]. exact Heq.
Qed.

Lemma select_course_elem (rows : list Course.t) (course_code : string) (row : Course.t) :
  select_course rows course_code = Some row -> row ∈ rows.
Proof.
  induction rows as [|r rows IH]; simpl; [discriminate|].
  destruct (String.eqb (Course.code r) course_code).
  - intros [= <-]. apply list_elem_of_here.
  - intros H. apply list_elem_of_further, IH, H.
Qed.

(** The row found for a code, whatever the code is, is the row of its own
    code. *)
Lemma select_course_by_code (db : database) (course_code : json) (row : Course.t) :
  select_course_by db course_code = Ok (Some row) ->
  select_course (course_rows db) (Course.code row) = Some row.
Proof.
  assert (Hsel : forall text, select_course (course_rows db) text = Some row ->
                              select_course (course_rows db) (Course.code row) = Some row).
  { intros text Hrow. rewrite (select_course_code _ _ _ Hrow). exact Hrow. }
  destruct course_code as [|b|n|s|l|d]; cbn; try discriminate.
  - destruct (integer_code db _) as [text|]; [|discriminate]. intros [= Hrow]. eauto.
  - destruct (integer_code db _) as [text|]; [|discriminate]. intros [= Hrow]. eauto.
  - intros [= Hrow]. eauto.
Qed.


(** The cutoff test of a string. *)
Lemma is_cut_string (s : string) (depth max_depth : Z) (visited : gset hashable) :
  is_cut s depth max_depth visited =
  Ok ((max_depth <=? depth) || bool_decide (HStr s ∈ visited)).
Proof. unfold is_cut. destruct (max_depth <=? depth); reflexivity. Qed.

Lemma is_cut_false (course_code : json) (depth max_depth : Z) (visited : gset hashable) :
  is_cut course_code depth max_depth visited = Ok false ->
  depth < max_depth /\ exists key, py_hash course_code = Some key /\ key ∉ visited.
Proof.
  unfold is_cut. destruct (Z.leb_spec max_depth depth) as [_|Hlt]; [discriminate|].
  destruct (py_hash course_code) as [key|]; [|discriminate].
  intros [= Hkey]. apply bool_decide_eq_false in Hkey. eauto.
Qed.


Lemma prerequisite_loop_ext (build build' : json -> result PrerequisiteNode.t)
    (codes : list json) (nodes : list PrerequisiteNode.t) :
  (forall c, c ∈ codes -> build c = build' c) ->
  prerequisite_loop build codes nodes = prerequisite_loop build' codes nodes.
Proof.
  revert nodes. induction codes as [|c codes IH]; intros nodes H; simpl; [reflexivity|].
  rewrite (H c (list_elem_of_here _ _)).
  assert (Hrest : forall c', c' ∈ codes -> build c' = build' c').
  { intros c' Hin. apply H, list_elem_of_further, Hin. }
  destruct (build' c) as [node|e]; [apply IH, Hrest|].
  destruct (is_ValueError e); [apply IH, Hrest|reflexivity].
Qed.

(** What holds of the nodes built holds of the nodes collected. *)
Lemma prerequisite_loop_Forall (P : PrerequisiteNode.t -> Prop)
    (build : json -> result PrerequisiteNode.t) (codes : list json)
    (nodes nodes' : list PrerequisiteNode.t) :
  (forall c node, c ∈ codes -> build c = Ok node -> P node) ->
  Forall P nodes -> prerequisite_loop build codes nodes = Ok nodes' -> Forall P nodes'.
Proof.
  revert nodes. induction codes as [|c codes IH]; intros nodes Hb Hn; simpl.
  - intros [= <-]. exact Hn.
  - assert (Hrest : forall c' node, c' ∈ codes -> build c' = Ok node -> P node).
    { intros c' node Hin. apply Hb, list_elem_of_further, Hin. }
    destruct (build c) as [node|e] eqn:Hc.
    + apply (IH _ Hrest). apply Forall_app. split; [exact Hn|]. constructor; [|constructor].
      exact (Hb _ _ (list_elem_of_here _ _) Hc).
    + destruct (is_ValueError e); [apply (IH _ Hrest Hn)|discriminate].
Qed.

(** The loop lets through no [ValueError], and no exception the calls do
    not raise. *)
Lemma prerequisite_loop_error (build : json -> result PrerequisiteNode.t)
    (codes : list json) (nodes : list PrerequisiteNode.t) (e : exn) :
  prerequisite_loop build codes nodes = Raise e ->
  is_ValueError e = false /\ exists c, c ∈ codes /\ build c = Raise e.
Proof.
  revert nodes. induction codes as [|c codes IH]; intros nodes; simpl; [discriminate|].
  assert (Hrest : forall nodes, prerequisite_loop build codes nodes = Raise e ->
            is_ValueError e = false /\ exists c', c' ∈ c :: codes /\ build c' = Raise e).
  { intros nodes' Hl. destruct (IH _ Hl) as (He & c' & Hin & Hc').
    split; [exact He|]. exists c'. split; [apply list_elem_of_further, Hin|exact Hc']. }
  destruct (build c) as [node|e'] eqn:Hc; [apply Hrest|].
  destruct (is_ValueError e') eqn:He; [apply Hrest|].
  intros [= <-]. split; [exact He|]. exists c. split; [apply list_elem_of_here|exact Hc].
Qed.

(** A code whose call raises a [ValueError] is skipped. *)
Lemma prerequisite_loop_skip (build : json -> result PrerequisiteNode.t)
    (pre post : list json) (c : json) (e : exn) (nodes : list PrerequisiteNode.t) :
  build c = Raise e -> is_ValueError e = true ->
  prerequisite_loop build (pre ++ c :: post) nodes =
  prerequisite_loop build (pre ++ post) nodes.
Proof.
  intros Hc He. revert nodes. induction pre as [|c' pre IH]; intros nodes; simpl.
  - rewrite Hc, He. reflexivity.
  - destruct (build c') as [node|e']; [apply IH|].
    destruct (is_ValueError e'); [apply IH|reflexivity].
Qed.

Lemma fold_right_and_Forall (P : PrerequisiteNode.t -> Prop) (l : list PrerequisiteNode.t) :
  fold_right (fun child rest => P child /\ rest) True l <-> Forall P l.
Proof.
  induction l as [|x l IH]; simpl.
  - split; [constructor|trivial].
  - rewrite IH. split; [intros [? ?]; constructor; assumption|].
    intros H. inversion H. auto.
Qed.



(** The unfolding of [build_tree], for any budget. *)
Lemma build_tree_eq (budget : nat) (course_code : json) (db : database)
    (depth max_depth : Z) (visited : gset hashable) :
  build_tree budget course_code db depth max_depth visited =
  cut ← is_cut course_code depth max_depth visited;
  if cut : bool then
    row ← select_course_by db course_code;
    match row with
    | Some row =>
        Ok (PrerequisiteNode.make (Course.code row) (Course.title row) depth nil None)
    | None => Raise (course_not_found (key_text course_code))
    end
  else
    course ← select_course_by db course_code;
    match course with
    | None => Raise (course_not_found (key_text course_code))
    | Some course =>
        prerequisite_nodes ←
          (if py_falsy (Course.prerequisite_formula course) then Ok nil
           else
             prerequisite_codes ← _extract_course_codes (Course.prerequisite_formula course);
             prerequisite_loop
               (fun prereq_code =>
                  match budget with
                  | O => Raise RecursionError
                  | S budget' =>
                      build_tree budget' prereq_code db (depth + 1) max_depth
                        (visited_add course_code visited)
                  end)
               prerequisite_codes nil);
        formula ← validate_optional_dict (Course.prerequisite_formula course);
        Ok (PrerequisiteNode.make (Course.code course) (Course.title course) depth
              prerequisite_nodes formula)
    end.
Proof. destruct budget; reflexivity. Qed.

(** What a call that returns has done: it found a row for its code, and
    either cut the traversal and returned the leaf of the row, or built the
    node of the row from the nodes its loop collected. *)
Lemma build_tree_inv (budget : nat) (course_code : json) (db : database)
    (depth max_depth : Z) (visited : gset hashable) (node : PrerequisiteNode.t) :
  build_tree budget course_code db depth max_depth visited = Ok node ->
  exists row,
    select_course_by db course_code = Ok (Some row) /\
    PrerequisiteNode.course_code node = Course.code row /\
    PrerequisiteNode.title node = Course.title row /\
    PrerequisiteNode.depth node = depth /\
    ((is_cut course_code depth max_depth visited = Ok true /\ is_leaf node) \/
     (is_cut course_code depth max_depth visited = Ok false /\
      validate_optional_dict (Course.prerequisite_formula row) =
      Ok (PrerequisiteNode.formula node) /\
      if py_falsy (Course.prerequisite_formula row)
      then PrerequisiteNode.prerequisites node = nil
      else exists codes,
          _extract_course_codes (Course.prerequisite_formula row) = Ok codes /\
          prerequisite_loop
            (fun prereq_code =>
               match budget with
               | O => Raise RecursionError
               | S budget' =>
                   build_tree budget' prereq_code db (depth + 1) max_depth
                     (visited_add course_code visited)
               end)
            codes nil = Ok (PrerequisiteNode.prerequisites node))).
Proof.
  rewrite build_tree_eq.
  destruct (is_cut course_code depth max_depth visited) as [[|]|e]; [| |discriminate];
    cbn [mbind result_bind];
    (destruct (select_course_by db course_code) as [[row|]|e]; [|discriminate..]);
    cbn [mbind result_bind].
  - intros [= <-]. exists row. cbn. split_and!; try reflexivity. left. repeat split.
  - destruct (if py_falsy (Course.prerequisite_formula row) then _ else _)
      as [nodes|e] eqn:Hnodes; [|discriminate].
    cbn [mbind result_bind].
    destruct (validate_optional_dict (Course.prerequisite_formula row)) as [formula|e] eqn:Hv;
      [|discriminate].
    intros [= <-]. exists row. cbn. split_and!; try reflexivity. right.
    split_and!; [reflexivity|exact Hv|].
    destruct (py_falsy (Course.prerequisite_formula row)).
    + injection Hnodes as <-. reflexivity.
    + destruct (_extract_course_codes (Course.prerequisite_formula row)) as [codes|e];
        [|discriminate].
      exists codes. split; [reflexivity|exact Hnodes].
Qed.


(** The codes of a row of string keys are strings. *)
Lemma string_keys_codes (rows : list Course.t) (row : Course.t) (codes : list json)
    (c : json) :
  string_keys rows = true -> row ∈ rows ->
  _extract_course_codes (Course.prerequisite_formula row) = Ok codes ->
  c ∈ codes -> exists p, c = JStr p.
Proof.
  unfold string_keys. rewrite forallb_forall. intros Hrows Hrow Hex Hc.
  apply list_elem_of_In in Hrow. specialize (Hrows _ Hrow). rewrite Hex in Hrows.
  rewrite forallb_forall in Hrows. apply list_elem_of_In in Hc. specialize (Hrows _ Hc).
  destruct c; try discriminate. eauto.
Qed.



(** With that room, more room changes nothing. *)
Lemma build_tree_budget (budget budget' : nat) (course_code : json) (db : database)
    (depth max_depth : Z) (visited : gset hashable) :
  (Z.to_nat (max_depth - depth) <= budget)%nat ->
  (Z.to_nat (max_depth - depth) <= budget')%nat ->
  build_tree budget course_code db depth max_depth visited =
  build_tree budget' course_code db depth max_depth visited.
Proof.
  revert budget' course_code depth visited.
  induction budget as [|budget IH]; intros budget' course_code depth visited Hb Hb';
    rewrite !(build_tree_eq _ course_code);
    (destruct (is_cut course_code depth max_depth visited) as [[|]|e] eqn:Hcut;
     [reflexivity| |reflexivity]);
    apply is_cut_false in Hcut as [Hlt _]; [lia|].
  destruct budget' as [|budget']; [lia|].
  cbn [mbind result_bind].
  destruct (select_course_by db course_code) as [[row|]|e]; [|reflexivity..].
  cbn [mbind result_bind].
  destruct (py_falsy (Course.prerequisite_formula row)); [reflexivity|].
  destruct (_extract_course_codes (Course.prerequisite_formula row)) as [codes|e];
    [|reflexivity].
  cbn [mbind result_bind].
  rewrite (prerequisite_loop_ext _
             (fun c => build_tree budget' c db (depth + 1) max_depth
                         (visited_add course_code visited)));
    [reflexivity|].
  intros c _. apply IH; lia.
Qed.

(** The only [ValueError] of a call on a string is that of its own course:
    not found, or with a formula that is neither null nor an object. *)
Lemma build_tree_value_error (budget : nat) (course_code : string) (db : database)
    (depth max_depth : Z) (visited : gset hashable) (row : Course.t) (e : exn) :
  select_course (course_rows db) course_code = Some row ->
  (Course.prerequisite_formula row = JNull \/
   exists d, Course.prerequisite_formula row = JDict d) ->
  build_tree budget course_code db depth max_depth visited = Raise e ->
  is_ValueError e = false.
Proof.
  intros Hrow Hformula. rewrite build_tree_eq, is_cut_string.
  cbn [mbind result_bind select_course_by]. rewrite Hrow.
  destruct ((max_depth <=? depth) || bool_decide (HStr course_code ∈ visited));
    [discriminate|].
  cbn [mbind result_bind].
  destruct (if py_falsy (Course.prerequisite_formula row) then _ else _)
    as [nodes|e'] eqn:Hnodes; cbn [mbind result_bind].
  - destruct Hformula as [-> | [d ->]]; discriminate.
  - intros [= ->].
    destruct (py_falsy (Course.prerequisite_formula row)); [discriminate|].
    destruct (_extract_course_codes (Course.prerequisite_formula row)) as [codes|e'] eqn:Hex;
      cbn [mbind result_bind] in Hnodes.
    + apply prerequisite_loop_error in Hnodes as [He _]. exact He.
    + injection Hnodes as ->.
      destruct (_extract_course_codes_error _ _ Hex) as [-> | ->]; reflexivity.
Qed.

(** A call on a string at the cutoff, or on a string that is the code of no
    row. *)
Lemma build_tree_cut (budget : nat) (course_code : string) (db : database)
    (depth max_depth : Z) (visited : gset hashable) :
  max_depth <= depth \/ HStr course_code ∈ visited \/
  select_course (course_rows db) course_code = None ->
  build_tree budget course_code db depth max_depth visited =
  match select_course (course_rows db) course_code with
  | Some row => Ok (PrerequisiteNode.make (Course.code row) (Course.title row) depth nil None)
  | None => Raise (course_not_found course_code)
  end.
Proof.
  intros Hcut. rewrite build_tree_eq, is_cut_string.
  cbn [mbind result_bind select_course_by].
  destruct ((max_depth <=? depth) || bool_decide (HStr course_code ∈ visited)) eqn:Hc;
    [reflexivity|].
  apply orb_false_elim in Hc as [Hlt Hvis].
  apply Z.leb_gt in Hlt. apply bool_decide_eq_false in Hvis.
  destruct Hcut as [Hle|[Hin|Hnone]]; [lia|contradiction|].
  rewrite Hnone. reflexivity.
Qed.




(** A course that lists itself: the second visit is a leaf. *)
Example prerequisite_tree_self_reference :
  get_prerequisite_tree (H := sample_interpreter) "CMPUT 301" catalogue 0 5 ∅ =
  Ok (PrerequisiteNode.make "CMPUT 301" "Title of CMPUT 301" 0
        (PrerequisiteNode.make "CMPUT 301" "Title of CMPUT 301" 1 nil None :: nil)
        (Some (("type", JStr "COURSE") :: ("code", JStr "CMPUT 301") :: nil))).
Proof. vm_compute. reflexivity. Qed.

(** ** Courses that are not found *)

(** C6: a course that is not in the catalogue is an error only as the subject
    of a call.  [check_prerequisites] and [get_prerequisite_tree] on it raise
    the [ValueError] of a course not found; as a candidate of
    [get_next_available_courses] it is entered with
    [prerequisites_met = False]; as a prerequisite code in the loop of
    [get_prerequisite_tree] it is skipped; and the tree of a course that is in
    the catalogue, with a formula that is null or an object, raises no
    [ValueError]. *)
Theorem not_found_only_for_subject `{Rendering} `{Interpreter} (course_code : string)
    (db : database) :
  select_course (course_rows db) course_code = None ->
  (forall completed,
     check_prerequisites course_code completed db = Raise (course_not_found course_code)) /\
  (forall depth max_depth visited,
     get_prerequisite_tree course_code db depth max_depth visited =
     Raise (course_not_found course_code)) /\
  (forall program completed candidate,
     Course.code candidate = course_code ->
     exists entry,
       available_entry program completed db candidate = Ok entry /\
       AvailableCourse.prerequisites_met entry = false) /\
  (forall depth max_depth visited pre post nodes,
     prerequisite_loop (fun p => get_prerequisite_tree p db depth max_depth visited)
       (pre ++ JStr course_code :: post) nodes =
     prerequisite_loop (fun p => get_prerequisite_tree p db depth max_depth visited)
       (pre ++ post) nodes) /\
  (forall root row depth max_depth visited e,
     select_course (course_rows db) root = Some row ->
     Course.prerequisite_formula row = JNull \/
     (exists d, Course.prerequisite_formula row = JDict d) ->
     get_prerequisite_tree root db depth max_depth visited = Raise e ->
     is_ValueError e = false).
Proof.
  intros Hnone.
  assert (Htree : forall depth max_depth visited,
            get_prerequisite_tree course_code db depth max_depth visited =
            Raise (course_not_found course_code)).
  { intros depth max_depth visited. unfold get_prerequisite_tree.
    rewrite build_tree_cut, Hnone; auto. }
  repeat split.
  - intros completed. unfold check_prerequisites. rewrite Hnone. reflexivity.
  - exact Htree.
  - intros program completed candidate Hcode. unfold available_entry, check_prerequisites.
    rewrite Hcode, Hnone. cbn [is_ValueError course_not_found mbind result_bind].
    destruct (score_loop _ _ _) as [satisfies priority_score].
    eexists. split; reflexivity.
  - intros depth max_depth visited pre post nodes.
    eapply prerequisite_loop_skip; [apply Htree|reflexivity].
  - intros root row depth max_depth visited e Hrow Hformula.
    apply (build_tree_value_error _ _ _ _ _ _ row); assumption.
Qed.

Lemma not_found_only_for_subject_witness :
  select_course (course_rows catalogue) "CMPUT 274" = None /\
  check_prerequisites (H := sample_rendering) "CMPUT 274" nil catalogue =
  Raise (course_not_found "CMPUT 274") /\
  get_prerequisite_tree (H := sample_interpreter) "CMPUT 274" catalogue 0 5 ∅ =
  Raise (course_not_found "CMPUT 274") /\
  exists node,
    get_prerequisite_tree (H := sample_interpreter) "CMPUT 204" catalogue 0 5 ∅ = Ok node /\
    map PrerequisiteNode.course_code (PrerequisiteNode.prerequisites node) =
    "CMPUT 174" :: "CMPUT 175" :: nil.
Proof.
  pose proof (not_found_only_for_subject (H := sample_rendering) (H0 := sample_interpreter)
                "CMPUT 274" catalogue eq_refl)
    as (H1 & H2 & _).
  split; [reflexivity|]. split; [apply H1|]. split; [apply H2|].
  eexists. split; vm_compute; reflexivity.
Defined.

(** ** Requirement progress *)

Local Open Scope Q_scope.

Lemma percent_nonneg (a b : Z) : (0 <= a)%Z -> (0 < b)%Z -> 0 <= percent a b.
Proof.
  intros Ha Hb. unfold percent. apply Qmult_le_0_compat; [|discriminate].
  apply Qle_shift_div_l.
  - change 0 with (inject_Z 0). rewrite <- Zlt_Qlt. exact Hb.
  - rewrite Qmult_0_l. change 0 with (inject_Z 0). rewrite <- Zle_Qle. exact Ha.
Qed.

Lemma percent_le_100 (a b : Z) : (a <= b)%Z -> (0 < b)%Z -> percent a b <= 100.
Proof.
  intros Hab Hb. unfold percent.
  apply Qle_trans with (1 * 100); [|discriminate].
  apply Qmult_le_compat_r; [|discriminate].
  apply Qle_shift_div_r.
  - change 0 with (inject_Z 0). rewrite <- Zlt_Qlt. exact Hb.
  - rewrite Qmult_1_l. rewrite <- Zle_Qle. exact Hab.
Qed.

Lemma Qmin_percent_range (a b : Z) :
  (0 <= a)%Z -> (0 < b)%Z -> 0 <= Qmin (percent a b) 100 /\ Qmin (percent a b) 100 <= 100.
Proof.
  intros Ha Hb. split.
  - apply Q.min_glb; [apply percent_nonneg; assumption|discriminate].
  - apply Q.le_min_r.
Qed.

(** The credits counted by the [LEVEL_REQUIREMENT] loop are not negative when
    no course has negative credits. *)
Lemma level_loop_nonneg (req : Requirement.t) (completed_courses_map : gmap string Course.t)
    (codes : list string) :
  (forall code course,
     completed_courses_map !! code = Some course -> (0 <= Course.credits course)%Z) ->
  (0 <= fst (level_loop req completed_courses_map codes))%Z.
Proof.
  intros Hc. unfold level_loop.
  assert (H : forall acc : Z * list string, (0 <= fst acc)%Z ->
            (0 <= fst (foldl (fun '(matching_credits, matching_courses) code =>
                          match completed_courses_map !! code with
                          | Some course =>
                              if matches_filters course req
                              then ((matching_credits + Course.credits course)%Z,
                                    matching_courses ++ Course.code course :: nil)
                              else (matching_credits, matching_courses)
                          | None => (matching_credits, matching_courses)
                          end) acc codes))%Z).
  { induction codes as [|code codes IH]; intros [credits courses] Hacc; simpl; [exact Hacc|].
    apply IH. destruct (completed_courses_map !! code) as [course|] eqn:Hcode; [|exact Hacc].
    destruct (matches_filters course req); [|exact Hacc].
    simpl in *. specialize (Hc _ _ Hcode). lia. }
  apply H. simpl. lia.
Qed.

(** C7, as stated, fails for a completed course of negative credits: the
    percentage is clamped at 100 only, and a [LEVEL_REQUIREMENT] of three
    credits with one course of -1 credit completed is at -100/3. *)
Lemma progress_percentage_negative :
  RequirementProgress.progress_percentage
    (_validate_single_requirement three_credits {["CMPUT 399"]}
       {["CMPUT 399" := negative_course]}) == -100 # 3 /\
  ~ 0 <= RequirementProgress.progress_percentage
           (_validate_single_requirement three_credits {["CMPUT 399"]}
              {["CMPUT 399" := negative_course]}).
Proof.
  split; [vm_compute; reflexivity|].
  intros H. apply Qle_bool_iff in H. vm_compute in H. discriminate.
Qed.

(** C7 (amended): whatever the requirement, of one of the four kinds or of an
    unknown one, and whatever the completed set, the [progress_percentage] of
    [_validate_single_requirement] is between 0 and 100, provided the
    completed courses have no negative credits; this is needed of the courses
    counted for a [LEVEL_REQUIREMENT] only. *)
Theorem progress_percentage_in_range (req : Requirement.t) (completed_set : gset string)
    (completed_courses_map : gmap string Course.t) :
  (Requirement.requirement_type req = "LEVEL_REQUIREMENT" ->
   forall code course,
     completed_courses_map !! code = Some course -> (0 <= Course.credits course)%Z) ->
  0 <= RequirementProgress.progress_percentage
         (_validate_single_requirement req completed_set completed_courses_map) /\
  RequirementProgress.progress_percentage
    (_validate_single_requirement req completed_set completed_courses_map) <= 100.
Proof.
  intros Hc. unfold _validate_single_requirement.
  destruct (String.eqb (Requirement.requirement_type req) "REQUIRED").
  { cbn [RequirementProgress.progress_percentage].
    set (required := list_to_set (map py_upper (or_empty (Requirement.courses req)))
                     : gset string).
    destruct (Z.gtb_spec (Z.of_nat (size required)) 0) as [Hpos|_];
      [|split; discriminate].
    split.
    - apply percent_nonneg; lia.
    - apply percent_le_100; [|lia]. apply inj_le, subseteq_size, intersection_subseteq_l. }
  destruct (String.eqb (Requirement.requirement_type req) "CHOICE").
  { cbn [RequirementProgress.progress_percentage].
    destruct (Z.gtb_spec (or_int (Requirement.choose_count req) 1) 0) as [Hpos|_];
      [|split; discriminate].
    apply Qmin_percent_range; lia. }
  destruct (String.eqb_spec (Requirement.requirement_type req) "LEVEL_REQUIREMENT")
    as [Hlevel|_].
  { pose proof (level_loop_nonneg req completed_courses_map (elements completed_set)
                  (Hc Hlevel)) as Hn.
    destruct (level_loop req completed_courses_map (elements completed_set))
      as [matching_credits matching_courses].
    cbn [RequirementProgress.progress_percentage].
    destruct (Z.gtb_spec (or_int (Requirement.credits_needed req) 0) 0) as [Hpos|_];
      [|split; discriminate].
    apply Qmin_percent_range; [exact Hn|lia]. }
  cbn [RequirementProgress.progress_percentage].
  destruct (Z.of_nat (size completed_set) >? 0)%Z; split; discriminate.
Qed.

Lemma progress_percentage_in_range_witness :
  0 <= RequirementProgress.progress_percentage
         (_validate_single_requirement
            (Requirement.make "req-3" "Senior" "LEVEL_REQUIREMENT"
               None (Some 6%Z) None (Some ("200" :: "300" :: nil)%list) (Some "CMPUT"))
            {["CMPUT 174"; "CMPUT 204"]} sample_completed) /\
  RequirementProgress.progress_percentage
    (_validate_single_requirement
       (Requirement.make "req-3" "Senior" "LEVEL_REQUIREMENT"
          None (Some 6%Z) None (Some ("200" :: "300" :: nil)%list) (Some "CMPUT"))
       {["CMPUT 174"; "CMPUT 204"]} sample_completed) <= 100.
Proof.
  apply progress_percentage_in_range.
  intros _ code course Hcode.
  assert (Hall : map_Forall (fun _ c => (0 <=? Course.credits c)%Z = true) sample_completed).
  { apply map_Forall_to_list. vm_compute. repeat constructor. }
  apply Z.leb_le. exact (Hall code course Hcode).
Defined.

(** The four kinds on the sample: 3 of the 6 credits needed, and so on. *)
Example progress_percentage_samples :
  map (fun req => RequirementProgress.progress_percentage
                    (_validate_single_requirement req {["CMPUT 174"; "CMPUT 204"]}
                       sample_completed))
      sample_requirements
  = (inject_Z 1 / inject_Z 2 * 100) :: Qmin (inject_Z 1 / inject_Z 1 * 100) 100
    :: Qmin (inject_Z 3 / inject_Z 6 * 100) 100 :: 100 :: nil.
Proof. vm_compute. reflexivity. Qed.

(** ** The next available courses *)

Lemma map_loop_Forall2 {A B : Type} (f : A -> result B) (l : list A) (l' : list B) :
  map_loop f l = Ok l' -> Forall2 (fun x y => f x = Ok y) l l'.
Proof.
  revert l'. induction l as [|x l IH]; intros l'; simpl.
  - intros [= <-]. constructor.
  - destruct (f x) as [y|e] eqn:Hx; [|discriminate].
    destruct (map_loop f l) as [ys|e]; [|discriminate].
    intros [= <-]. constructor; [exact Hx|]. apply IH. reflexivity.
Qed.

(** Every result of the loop is that of an item. *)
Lemma map_loop_elem {A B : Type} (f : A -> result B) (l : list A) (l' : list B) :
  map_loop f l = Ok l' -> Forall (fun y => exists x, x ∈ l /\ f x = Ok y) l'.
Proof.
  intros H. apply map_loop_Forall2 in H.
  induction H as [|x y l l' Hx _ IH]; constructor.
  - exists x. split; [apply list_elem_of_here|exact Hx].
  - eapply List.Forall_impl; [|exact IH]. intros y' (x' & Hin & Hx').
    exists x'. split; [apply list_elem_of_further, Hin|exact Hx'].
Qed.

Lemma insert_by_score_perm (x : AvailableCourse.t) (l : list AvailableCourse.t) :
  Permutation (insert_by_score x l) (x :: l).
Proof.
  induction l as [|y l IH]; simpl; [reflexivity|].
  destruct (Qle_bool _ _); [reflexivity|].
  rewrite IH. apply perm_swap.
Qed.

(** The sort neither adds nor drops an entry. *)
Lemma sort_by_score_perm (l : list AvailableCourse.t) : Permutation (sort_by_score l) l.
Proof.
  induction l as [|x l IH]; simpl; [reflexivity|].
  rewrite insert_by_score_perm. constructor. exact IH.
Qed.

Lemma insert_by_score_sorted (x : AvailableCourse.t) (l : list AvailableCourse.t) :
  by_descending_score l -> by_descending_score (insert_by_score x l).
Proof.
  unfold by_descending_score. intros Hl.
  induction Hl as [|y l Hl IH Hy]; simpl.
  - constructor; constructor.
  - destruct (Qle_bool (AvailableCourse.priority_score y) (AvailableCourse.priority_score x))
      eqn:Hle.
    + apply Qle_bool_iff in Hle. constructor; [constructor; assumption|].
      constructor; [exact Hle|].
      eapply List.Forall_impl; [|exact Hy]. intros z Hz. cbv beta in *.
      eapply Qle_trans; eassumption.
    + constructor; [exact IH|].
      eapply Permutation_Forall; [symmetry; apply insert_by_score_perm|].
      constructor; [|exact Hy].
      apply Qlt_le_weak, Qnot_le_lt. intros H. apply Qle_bool_iff in H. congruence.
Qed.

Lemma sort_by_score_sorted (l : list AvailableCourse.t) : by_descending_score (sort_by_score l).
Proof.
  induction l as [|x l IH]; simpl; [constructor|].
  apply insert_by_score_sorted, IH.
Qed.

Lemma count_satisfied_cons (kind : string -> bool) (course : Course.t)
    (completed_set : gset string) (req : Requirement.t) (reqs : list Requirement.t) :
  count_satisfied kind course completed_set (req :: reqs) ==
  (if kind (Requirement.requirement_type req)
      && _course_satisfies_requirement course req completed_set then 1 else 0)
  + count_satisfied kind course completed_set reqs.
Proof.
  unfold count_satisfied. rewrite filter_cons.
  destruct (decide _) as [Hk|Hk].
  - rewrite Hk. cbn [length]. rewrite Nat2Z.inj_succ, <- Z.add_1_l, inject_Z_plus. reflexivity.
  - apply not_true_is_false in Hk. rewrite Hk, Qplus_0_l. reflexivity.
Qed.

(** The score of the loop is the sum of the three counts. *)
Lemma score_loop_sum (course : Course.t) (completed_set : gset string)
    (reqs : list Requirement.t) :
  snd (score_loop course completed_set reqs) ==
  10 * count_satisfied (fun type => String.eqb type "REQUIRED") course completed_set reqs
  + 5 * count_satisfied (fun type => String.eqb type "CHOICE") course completed_set reqs
  + 2 * count_satisfied
          (fun type => negb (String.eqb type "REQUIRED") && negb (String.eqb type "CHOICE"))
          course completed_set reqs.
Proof.
  unfold score_loop.
  assert (H : forall acc : list string * Q,
            snd (foldl (fun '(satisfies, priority_score) req =>
                   if _course_satisfies_requirement course req completed_set then
                     (satisfies ++ Requirement.id req :: nil,
                      if String.eqb (Requirement.requirement_type req) "REQUIRED"
                      then priority_score + 10
                      else if String.eqb (Requirement.requirement_type req) "CHOICE"
                      then priority_score + 5
                      else priority_score + 2)
                   else (satisfies, priority_score)) acc reqs) ==
            snd acc
            + (10 * count_satisfied (fun type => String.eqb type "REQUIRED")
                      course completed_set reqs
               + 5 * count_satisfied (fun type => String.eqb type "CHOICE")
                       course completed_set reqs
               + 2 * count_satisfied
                       (fun type => negb (String.eqb type "REQUIRED")
                                    && negb (String.eqb type "CHOICE"))
                       course completed_set reqs)).
  { induction reqs as [|req reqs IH]; intros [satisfies score].
    - cbn [foldl snd].
      repeat match goal with
             | |- context [count_satisfied ?k course completed_set nil] =>
                 change (count_satisfied k course completed_set nil) with 0
             end.
      ring.
    - cbn [foldl]. rewrite IH, !count_satisfied_cons. cbv beta.
      destruct (_course_satisfies_requirement course req completed_set);
        [|rewrite !andb_false_r; cbn [snd]; ring].
      rewrite !andb_true_r.
      destruct (String.eqb (Requirement.requirement_type req) "REQUIRED") eqn:HR.
      { apply String.eqb_eq in HR. rewrite HR. cbn. ring. }
      destruct (String.eqb (Requirement.requirement_type req) "CHOICE"); cbn; ring. }
  rewrite H. cbn [snd]. ring.
Qed.

(** The entry of a candidate carries the sum as its score. *)
Lemma available_entry_score `{Rendering} (program : Program.t) (completed : list string)
    (db : database) (candidate : Course.t) (entry : AvailableCourse.t) :
  available_entry program completed db candidate = Ok entry ->
  AvailableCourse.course_code entry = Course.code candidate /\
  AvailableCourse.priority_score entry ==
  priority_sum candidate (normalize completed) (Program.program_requirements program)
    (AvailableCourse.prerequisites_met entry).
Proof.
  unfold available_entry.
  destruct (match check_prerequisites _ _ _ with Ok _ => _ | Raise _ => _ end)
    as [prerequisites_met|e]; [|discriminate].
  cbn [mbind result_bind].
  pose proof (score_loop_sum candidate (normalize completed)
                (Program.program_requirements program)) as Hsum.
  destruct (score_loop candidate (normalize completed) (Program.program_requirements program))
    as [satisfies priority_score].
  cbn [snd] in Hsum. intros [= <-]. split; [reflexivity|].
  cbn [AvailableCourse.priority_score AvailableCourse.prerequisites_met].
  unfold priority_sum, level_value. rewrite <- Hsum.
  destruct prerequisites_met; ring.
Qed.

(** C8: every entry returned by [get_next_available_courses] is that of a
    course of the catalogue, with as priority score the sum of 10 for each
    [REQUIRED] requirement the course would satisfy, 5 for each [CHOICE] one
    and 2 for each other one, of 3 if its prerequisites are met, and of
    [(600 - level) / 100], the level counting as 0 when it is not numeric;
    and the entries are in descending order of score. *)
Theorem next_available_scored_and_sorted `{Rendering} (program_code : string)
    (completed : list string) (db : database) (program : Program.t)
    (available : list AvailableCourse.t) :
  select_program (program_rows db) program_code = Some program ->
  get_next_available_courses program_code completed db = Ok available ->
  Forall (fun entry =>
            exists candidate,
              candidate ∈ course_rows db /\
              AvailableCourse.course_code entry = Course.code candidate /\
              AvailableCourse.priority_score entry ==
              priority_sum candidate (normalize completed)
                (Program.program_requirements program)
                (AvailableCourse.prerequisites_met entry))
         available /\
  by_descending_score available.
Proof.
  intros Hprogram. unfold get_next_available_courses. rewrite Hprogram.
  destruct (bool_decide _).
  { intros [= <-]. split; constructor. }
  destruct (map_loop _ _) as [entries|e] eqn:Hloop; [|discriminate].
  cbn [mbind result_bind]. intros [= <-]. split; [|apply sort_by_score_sorted].
  eapply Permutation_Forall; [symmetry; apply sort_by_score_perm|].
  eapply List.Forall_impl; [|exact (map_loop_elem _ _ _ Hloop)].
  intros entry (candidate & Hin & Hentry). cbv beta.
  exists candidate. split.
  - unfold select_courses_in in Hin. apply list_elem_of_filter in Hin as [_ Hin]. exact Hin.
  - exact (available_entry_score _ _ _ _ _ Hentry).
Qed.

Lemma next_available_scored_and_sorted_witness :
  exists available,
    get_next_available_courses (H := sample_rendering) "honors-cs" ("CMPUT 174" :: nil)
      university = Ok available /\
    map AvailableCourse.course_code available =
    "CMPUT 175" :: "CMPUT 204" :: "CMPUT 275" :: "CMPUT 301" :: nil /\
    Forall (fun entry =>
              exists candidate,
                candidate ∈ course_rows university /\
                AvailableCourse.course_code entry = Course.code candidate /\
                AvailableCourse.priority_score entry ==
                priority_sum candidate (normalize ("CMPUT 174" :: nil))
                  (Program.program_requirements honors)
                  (AvailableCourse.prerequisites_met entry))
           available /\
    by_descending_score available.
Proof.
  eexists. split; [vm_compute; reflexivity|]. split; [reflexivity|].
  apply (next_available_scored_and_sorted (H := sample_rendering) "honors-cs"
           ("CMPUT 174" :: nil) university honors _ eq_refl).
  vm_compute. reflexivity.
Defined.

Local Close Scope Q_scope.

(** ** Special rules *)

(** The inner loop appends, in order, the codes of [excludes] that are in the
    set, each with its warning. *)
Lemma excludes_loop_spec (courses_set : gset string) (course_a : string)
    (items : list json) (acc acc' : list string * list string) :
  excludes_loop courses_set course_a items acc = Ok acc' ->
  exists added,
    fst acc' = fst acc ++ added /\
    snd acc' = snd acc ++ map (exclusion_warning course_a) added /\
    forall E, E ∈ added <-> exists e, JStr e ∈ items /\ E = py_upper e /\ E ∈ courses_set.
Proof.
  revert acc. induction items as [|x items IH]; intros acc; simpl.
  - intros [= <-]. exists nil. rewrite !app_nil_r. repeat split.
    + intros HE. inversion HE.
    + intros (e & He & _). inversion He.
  - destruct x as [|b|n|s|l|d]; try discriminate.
    destruct (bool_decide_reflect (py_upper s ∈ courses_set)) as [Hin|Hout]; intros H;
      destruct (IH _ H) as (added & Hf & Hs & Hadded).
    + exists (py_upper s :: added). cbn [fst snd] in Hf, Hs.
      rewrite <- !app_assoc in Hf, Hs. repeat split; [exact Hf|exact Hs| |].
      * intros HE. apply elem_of_cons in HE as [-> | HE].
        { exists s. split; [apply list_elem_of_here|auto]. }
        apply Hadded in HE as (e & He & HE). exists e. split; [apply list_elem_of_further, He|exact HE].
      * intros (e & He & -> & HE). apply elem_of_cons in He as [[= ->] | He].
        { apply list_elem_of_here. }
        apply list_elem_of_further, Hadded. eauto.
    + exists added. repeat split; [exact Hf|exact Hs| |].
      * intros HE. apply Hadded in HE as (e & He & HE).
        exists e. split; [apply list_elem_of_further, He|exact HE].
      * intros (e & He & -> & HE). apply elem_of_cons in He as [[= ->] | He]; [contradiction|].
        apply Hadded. eauto.
Qed.

(** The outer loop appends, in order, what each exclusion excludes. *)
Lemma exclusions_loop_spec (courses_set : gset string) (rules : list json)
    (acc acc' : list string * list string) :
  exclusions_loop courses_set rules acc = Ok acc' ->
  exists added : list (string * string),
    fst acc' = fst acc ++ map snd added /\
    snd acc' = snd acc ++ map (fun ae => exclusion_warning (fst ae) (snd ae)) added /\
    forall course_a E,
      (course_a, E) ∈ added <->
      exists rule, rule ∈ rules /\ excludes courses_set rule course_a E.
Proof.
  revert acc. induction rules as [|rule rules IH]; intros acc; simpl.
  - intros [= <-]. exists nil. rewrite !app_nil_r. repeat split.
    + intros HE. inversion HE.
    + intros (rule & Hrule & _). inversion Hrule.
  - assert (Hskip : (forall course_a E, ~ excludes courses_set rule course_a E) ->
                    exclusions_loop courses_set rules acc = Ok acc' ->
                    exists added : list (string * string),
                      fst acc' = fst acc ++ map snd added /\
                      snd acc' = snd acc
                                 ++ map (fun ae => exclusion_warning (fst ae) (snd ae)) added /\
                      forall course_a E,
                        (course_a, E) ∈ added <->
                        exists rule', rule' ∈ rule :: rules /\
                                      excludes courses_set rule' course_a E).
    { intros Hno H. destruct (IH _ H) as (added & Hf & Hs & Hadded).
      exists added. repeat split; [exact Hf|exact Hs| |].
      - intros HE. apply Hadded in HE as (rule' & Hin & HE).
        exists rule'. split; [apply list_elem_of_further, Hin|exact HE].
      - intros (rule' & Hin & HE). apply elem_of_cons in Hin as [-> | Hin].
        + exfalso. exact (Hno _ _ HE).
        + apply Hadded. eauto. }
    destruct rule as [|b|n|s|l|d];
      try (apply Hskip; intros course_a E (d' & ? & ? & ? & [=] & _)).
    destruct (dict_get_or "course" (JStr "") d) as [|b|n|course|l|d'] eqn:Hcourse;
      try discriminate.
    destruct (bool_decide_reflect (py_upper course ∈ courses_set)) as [Hin|Hout].
    2:{ apply Hskip. intros course_a E (d' & c & items & e & [= <-] & Hc & -> & HA & _).
        rewrite Hcourse in Hc. injection Hc as <-. contradiction. }
    destruct (py_iter (dict_get_or "excludes" (JList nil) d)) as [items|e] eqn:Hitems;
      [|discriminate].
    cbn [mbind result_bind].
    destruct (excludes_loop courses_set (py_upper course) items acc) as [acc1|e] eqn:Hinner;
      [|discriminate].
    intros H. destruct (IH _ H) as (added & Hf & Hs & Hadded).
    destruct (excludes_loop_spec _ _ _ _ _ Hinner) as (added1 & Hf1 & Hs1 & Hadded1).
    exists (map (fun E => (py_upper course, E)) added1 ++ added).
    rewrite !map_app, !map_map. cbn [fst snd].
    rewrite List.map_id, !app_assoc, <- Hf1.
    change (map (fun x => exclusion_warning (py_upper course) x) added1)
      with (map (exclusion_warning (py_upper course)) added1).
    rewrite <- Hs1. repeat split; [exact Hf|exact Hs| |].
    + intros HE. apply elem_of_app in HE as [HE|HE].
      * apply list_elem_of_fmap in HE as (E' & [= -> ->] & HE).
        apply Hadded1 in HE as (e & He & -> & HE).
        exists (JDict d). split; [apply list_elem_of_here|].
        exists d, course, items, e. auto 10.
      * apply Hadded in HE as (rule' & Hrule & HE).
        exists rule'. split; [apply list_elem_of_further, Hrule|exact HE].
    + intros (rule' & Hrule & HE). apply elem_of_app.
      apply elem_of_cons in Hrule as [-> | Hrule]; [left|right; apply Hadded; eauto].
      destruct HE as (d' & c & items' & e & [= <-] & Hc & -> & HA & Hi & He & -> & HE).
      rewrite Hcourse in Hc. injection Hc as <-.
      rewrite Hitems in Hi. injection Hi as <-.
      apply list_elem_of_fmap. exists (py_upper e). split; [reflexivity|].
      apply Hadded1. eauto.
Qed.

(** The loop over the substitutions keeps the warnings it starts from. *)
Lemma substitutions_loop_warnings `{Rendering} (courses_set : gset string) (subs : list json)
    (acc acc' : list (string * json) * list string) :
  substitutions_loop courses_set subs acc = Ok acc' ->
  exists more, snd acc' = snd acc ++ more.
Proof.
  revert acc. induction subs as [|sub subs IH]; intros acc; simpl.
  - intros [= <-]. exists nil. rewrite app_nil_r. reflexivity.
  - destruct sub as [|b|n|s|l|d]; try apply IH.
    destruct (dict_get_or "from" (JStr "") d) as [|b|n|from|l|d']; try discriminate.
    destruct (bool_decide _); [|apply IH].
    intros Hloop. destruct (IH _ Hloop) as [more Hmore]. cbn [snd] in Hmore.
    rewrite <- app_assoc in Hmore. eauto.
Qed.

(** C9: a code [E] is added to [excluded_courses] exactly when some exclusion
    rule, whose course is in the normalized set of the input courses, lists
    [E] in its [excludes] and [E] is in the set too, codes being compared
    uppercased; each such exclusion has its warning, which names both
    courses; and a rule whose course is not in the set adds nothing. *)
Theorem special_rules_exclusions `{Rendering} (program : Program.t) (courses : list string)
    (result : SpecialRulesResult.t) :
  apply_special_rules program courses = Ok result ->
  (forall E,
     E ∈ SpecialRulesResult.excluded_courses result <->
     exists rule course_a,
       rule ∈ exclusion_rules program /\ excludes (normalize courses) rule course_a E) /\
  (forall rule course_a E,
     rule ∈ exclusion_rules program -> excludes (normalize courses) rule course_a E ->
     exclusion_warning course_a E ∈ SpecialRulesResult.warnings result) /\
  ((forall d course,
      JDict d ∈ exclusion_rules program -> dict_get_or "course" (JStr "") d = JStr course ->
      py_upper course ∉ normalize courses) ->
   SpecialRulesResult.excluded_courses result = nil).
Proof.
  unfold apply_special_rules, exclusion_rules.
  set (special_rules := if py_falsy (Program.special_rules program) then JDict nil
                        else Program.special_rules program).
  destruct (rules_get special_rules "exclusions") as [exclusions|e]; [|discriminate].
  cbn [mbind result_bind].
  destruct (py_iter exclusions) as [rules|e]; [|discriminate].
  cbn [mbind result_bind].
  destruct (exclusions_loop (normalize courses) rules (nil, nil)) as [[excluded warnings]|e]
    eqn:Hloop; [|discriminate].
  cbn [mbind result_bind].
  destruct (rules_get special_rules "substitutions") as [subs|e]; [|discriminate].
  cbn [mbind result_bind].
  destruct (py_iter subs) as [subs'|e]; [|discriminate].
  cbn [mbind result_bind].
  destruct (substitutions_loop (normalize courses) subs' (nil, warnings))
    as [[substitutions warnings']|e] eqn:Hsubs; [|discriminate].
  cbn [mbind result_bind].
  destruct (rules_get special_rules "additional_requirements") as [additional|e];
    [|discriminate].
  cbn [mbind result_bind].
  destruct (py_iter additional) as [additional'|e]; [|discriminate].
  cbn [mbind result_bind].
  destruct (map_loop _ substitutions) as [needed|e]; [|discriminate].
  cbn [mbind result_bind]. intros [= <-].
  cbn [SpecialRulesResult.excluded_courses SpecialRulesResult.warnings].
  destruct (exclusions_loop_spec _ _ _ _ Hloop) as (added & Hf & Hs & Hadded).
  destruct (substitutions_loop_warnings _ _ _ _ Hsubs) as [more Hmore].
  cbn [fst snd] in Hf, Hs, Hmore. rewrite app_nil_l in Hf, Hs. subst excluded warnings warnings'.
  repeat split.
  - intros HE. apply list_elem_of_fmap in HE as ([course_a E'] & -> & HE).
    apply Hadded in HE as (rule & Hrule & HE). exists rule, course_a. auto.
  - intros (rule & course_a & Hrule & HE).
    apply list_elem_of_fmap. exists (course_a, E). split; [reflexivity|].
    apply Hadded. eauto.
  - intros rule course_a E Hrule HE. apply elem_of_app. left.
    apply list_elem_of_fmap. exists (course_a, E). split; [reflexivity|].
    apply Hadded. eauto.
  - intros Habsent. destruct added as [|[course_a E] added]; [reflexivity|].
    exfalso.
    destruct (proj1 (Hadded course_a E) (list_elem_of_here _ _))
      as (rule & Hrule & d & c & items & e & -> & Hc & -> & HA & _).
    exact (Habsent d c Hrule Hc HA).
Qed.

Lemma special_rules_exclusions_witness :
  apply_special_rules (H := sample_rendering) honors ("cmput 275" :: "CMPUT 201 " :: nil) =
  Ok (SpecialRulesResult.make ("CMPUT 201" :: nil)
        ("'CMPUT 275' excludes 'CMPUT 201'. Cannot count both toward degree." :: nil)
        nil nil) /\
  apply_special_rules (H := sample_rendering) honors ("CMPUT 201" :: nil) =
  Ok (SpecialRulesResult.make nil nil nil nil) /\
  "CMPUT 201" ∈ ("CMPUT 201" :: nil : list string) /\
  exclusion_warning "CMPUT 275" "CMPUT 201" ∈
    ("'CMPUT 275' excludes 'CMPUT 201'. Cannot count both toward degree." :: nil).
Proof.
  assert (Hrun : apply_special_rules (H := sample_rendering) honors
                   ("cmput 275" :: "CMPUT 201 " :: nil) =
                 Ok (SpecialRulesResult.make ("CMPUT 201" :: nil)
                       ("'CMPUT 275' excludes 'CMPUT 201'. Cannot count both toward degree."
                        :: nil) nil nil)) by (vm_compute; reflexivity).
  destruct (special_rules_exclusions (H := sample_rendering) honors
              ("cmput 275" :: "CMPUT 201 " :: nil) _ Hrun) as (Hiff & Hwarn & _).
  assert (Hex : excludes (normalize ("cmput 275" :: "CMPUT 201 " :: nil))
                  (JDict (("course", JStr "CMPUT 275")
                          :: ("excludes", JList (JStr "CMPUT 201" :: nil)) :: nil))
                  "CMPUT 275" "CMPUT 201").
  { exists (("course", JStr "CMPUT 275") :: ("excludes", JList (JStr "CMPUT 201" :: nil)) :: nil),
      "CMPUT 275", (JStr "CMPUT 201" :: nil), "CMPUT 201".
    repeat split; try reflexivity; try apply list_elem_of_here;
      apply bool_decide_eq_true; vm_compute; reflexivity. }
  split; [exact Hrun|]. split; [vm_compute; reflexivity|]. split.
  - apply Hiff. eexists _, _. split; [|exact Hex]. apply list_elem_of_here.
  - apply (Hwarn _ _ _ (list_elem_of_here _ _) Hex).
Defined.

(** ** Programs without requirements *)

(** C10: for a program that exists and has no requirement,
    [validate_requirements] returns, whatever the completed courses,
    [is_complete = True] together with [overall_progress = 0] and an empty
    list of requirements. *)
Theorem validate_requirements_no_requirement (program_code : string)
    (completed_courses : list string) (db : database) (program : Program.t) :
  select_program (program_rows db) program_code = Some program ->
  Program.program_requirements program = nil ->
  exists result,
    validate_requirements program_code completed_courses db = Ok result /\
    RequirementValidationResult.is_complete result = true /\
    RequirementValidationResult.overall_progress result = 0%Q /\
    RequirementValidationResult.requirements result = nil.
Proof.
  intros Hprogram Hreqs. unfold validate_requirements. rewrite Hprogram, Hreqs.
  eexists. split; [reflexivity|]. repeat split.
Qed.

Lemma validate_requirements_no_requirement_witness :
  exists result,
    validate_requirements "open-studies" ("CMPUT 174" :: nil) university = Ok result /\
    RequirementValidationResult.is_complete result = true /\
    RequirementValidationResult.overall_progress result = 0%Q /\
    RequirementValidationResult.requirements result = nil.
Proof.
  apply (validate_requirements_no_requirement "open-studies" ("CMPUT 174" :: nil) university
           empty_program); reflexivity.
Defined.

(** With requirements, progress and completion agree on the sample: two of
    the four requirements are satisfied. *)
Example validate_requirements_sample :
  (r ← validate_requirements "honors-cs" ("CMPUT 174" :: "CMPUT 204" :: nil) university;
   Ok (RequirementValidationResult.is_complete r,
       RequirementValidationResult.overall_progress r,
       map RequirementProgress.is_satisfied (RequirementValidationResult.requirements r)))
  = Ok (false, (inject_Z 2 / inject_Z 4 * 100)%Q, false :: true :: false :: true :: nil).
Proof. vm_compute. reflexivity. Qed.

(** ** The tests of the repository, on the embedding *)

Section Tests.
Import Fixtures.
Local Open Scope Q_scope.

#[local] Existing Instance sample_rendering.
#[local] Existing Instance sample_interpreter.

Example test_simple_prerequisite :
  checked (check_prerequisites "TEST 101" nil simple) = Ok (false, "TEST 100" :: nil, nil) /\
  checked (check_prerequisites "TEST 101" ("TEST 100" :: nil) simple)
  = Ok (true, nil, "TEST 100" :: nil).
Proof. split; vm_compute; reflexivity. Qed.

Example test_or_logic_prerequisite :
  checked (check_prerequisites "TEST 201" nil or_logic)
  = Ok (false, "TEST 100" :: "TEST 101" :: nil, nil) /\
  checked (check_prerequisites "TEST 201" ("TEST 100" :: nil) or_logic)
  = Ok (true, nil, "TEST 100" :: nil) /\
  checked (check_prerequisites "TEST 201" ("TEST 101" :: nil) or_logic)
  = Ok (true, nil, "TEST 101" :: nil) /\
  checked (check_prerequisites "TEST 201" ("TEST 100" :: "TEST 101" :: nil) or_logic)
  = Ok (true, nil, "TEST 100" :: nil).
Proof. repeat split; vm_compute; reflexivity. Qed.

Example test_and_logic_prerequisite :
  checked (check_prerequisites "TEST 301" nil and_logic)
  = Ok (false, "TEST 200" :: "TEST 201" :: nil, nil) /\
  checked (check_prerequisites "TEST 301" ("TEST 200" :: nil) and_logic)
  = Ok (false, "TEST 201" :: nil, "TEST 200" :: nil) /\
  checked (check_prerequisites "TEST 301" ("TEST 200" :: "TEST 201" :: nil) and_logic)
  = Ok (true, nil, "TEST 200" :: "TEST 201" :: nil).
Proof. repeat split; vm_compute; reflexivity. Qed.

Example test_nested_prerequisites :
  (tree ← get_prerequisite_tree "TEST 300" nested 0 5 ∅;
   Ok (PrerequisiteNode.course_code tree,
       map (fun child =>
              (PrerequisiteNode.course_code child,
               map PrerequisiteNode.course_code (PrerequisiteNode.prerequisites child)))
           (PrerequisiteNode.prerequisites tree)))
  = Ok ("TEST 300", ("TEST 200", "TEST 100" :: nil) :: nil) /\
  checked (check_prerequisites "TEST 300" ("TEST 200" :: nil) nested)
  = Ok (true, nil, "TEST 200" :: nil).
Proof. split; vm_compute; reflexivity. Qed.

Example test_no_prerequisites :
  check_prerequisites "TEST 100" nil simple
  = Ok (PrerequisiteCheckResult.make true nil nil (Some "No prerequisites required")).
Proof. vm_compute. reflexivity. Qed.

Example test_complex_nested_formula :
  map (fun completed =>
         x ← check_prerequisites "TEST 401" completed complex;
         Ok (PrerequisiteCheckResult.is_valid x))
      (("TEST 301" :: "TEST 302" :: nil) :: ("TEST 310" :: "TEST 311" :: nil)
       :: ("TEST 301" :: nil) :: ("TEST 301" :: "TEST 311" :: nil) :: nil)
  = Ok true :: Ok true :: Ok false :: Ok false :: nil.
Proof. vm_compute. reflexivity. Qed.

Example test_course_not_found :
  check_prerequisites "NONEXISTENT" nil simple
  = Raise (ValueError "Course 'NONEXISTENT' not found").
Proof. vm_compute. reflexivity. Qed.

Example test_prerequisite_tree_depth_limit :
  (tree ← get_prerequisite_tree "TEST 10" chain 0 3 ∅; Ok (branch_depths 10 tree))
  = Ok (0 :: 1 :: 2 :: 3 :: nil)%Z.
Proof. vm_compute. reflexivity. Qed.

Example test_validate_required_courses :
  progress (validate_requirements "TEST-PROG" nil required)
  = Ok (false, 0, (false, 0%Z, 0) :: nil) /\
  progress (validate_requirements "TEST-PROG" ("TEST 101" :: "TEST 102" :: nil) required)
  = Ok (false, 0, (false, 2%Z, 200 # 3) :: nil) /\
  progress (validate_requirements "TEST-PROG" ("TEST 101" :: "TEST 102" :: "TEST 103" :: nil)
              required)
  = Ok (true, 100, (true, 3%Z, 100) :: nil).
Proof. repeat split; vm_compute; reflexivity. Qed.

Example test_validate_choice_requirements :
  progress (validate_requirements "TEST-PROG" ("TEST 201" :: nil) choice)
  = Ok (false, 0, (false, 1%Z, 50) :: nil) /\
  progress (validate_requirements "TEST-PROG" ("TEST 201" :: "TEST 202" :: nil) choice)
  = Ok (true, 100, (true, 2%Z, 100) :: nil) /\
  progress (validate_requirements "TEST-PROG" ("TEST 201" :: "TEST 202" :: "TEST 203" :: nil)
              choice)
  = Ok (true, 100, (true, 3%Z, 100) :: nil).
Proof. repeat split; vm_compute; reflexivity. Qed.

Example test_validate_level_requirements :
  progress (validate_requirements "TEST-PROG" ("TEST 301" :: nil) levels)
  = Ok (false, 0, (false, 6%Z, 100 # 3) :: nil) /\
  progress (validate_requirements "TEST-PROG" ("TEST 201" :: nil) levels)
  = Ok (false, 0, (false, 0%Z, 0) :: nil) /\
  progress (validate_requirements "TEST-PROG" ("TEST 301" :: "TEST 302" :: "TEST 401" :: nil)
              levels)
  = Ok (true, 100, (true, 18%Z, 100) :: nil).
Proof. repeat split; vm_compute; reflexivity. Qed.

Example test_multiple_requirements_progress :
  progress (validate_requirements "TEST-PROG" ("TEST 101" :: "TEST 102" :: nil)
              two_requirements)
  = Ok (false, 50, (true, 2%Z, 100) :: (false, 0%Z, 0) :: nil) /\
  progress (validate_requirements "TEST-PROG" ("TEST 101" :: "TEST 102" :: "TEST 201" :: nil)
              two_requirements)
  = Ok (true, 100, (true, 2%Z, 100) :: (true, 1%Z, 100) :: nil).
Proof. repeat split; vm_compute; reflexivity. Qed.

Example test_find_satisfiable_requirements :
  find_satisfiable_requirements "TEST-PROG" "MATH 101" nil satisfiable = Ok ("req-1" :: nil) /\
  find_satisfiable_requirements "TEST-PROG" "MATH 201" nil satisfiable = Ok ("req-2" :: nil) /\
  find_satisfiable_requirements "TEST-PROG" "MATH 301" nil satisfiable = Ok ("req-3" :: nil) /\
  find_satisfiable_requirements "TEST-PROG" "MATH 101" ("MATH 101" :: nil) satisfiable = Ok nil /\
  find_satisfiable_requirements "TEST-PROG" "NONEXISTENT" nil satisfiable
  = Raise (ValueError "Course 'NONEXISTENT' not found").
Proof. repeat split; vm_compute; reflexivity. Qed.

Example test_program_not_found :
  validate_requirements "NONEXISTENT" nil required
  = Raise (ValueError "Program 'NONEXISTENT' not found").
Proof. vm_compute. reflexivity. Qed.

Example test_get_next_available_courses :
  offered (get_next_available_courses "TEST-PROG" nil two_requirements)
  = Ok (("TEST 101", true, 18) :: ("TEST 102", true, 18) :: ("TEST 202", true, 12)
        :: ("TEST 201", false, 9) :: nil) /\
  offered (get_next_available_courses "TEST-PROG" ("TEST 101" :: nil) two_requirements)
  = Ok (("TEST 102", true, 18) :: ("TEST 201", true, 12) :: ("TEST 202", true, 12) :: nil).
Proof. split; vm_compute; reflexivity. Qed.

Example test_apply_special_rules :
  apply_special_rules (test_program nil rules)
    ("CMPUT 275" :: "CMPUT 201" :: "MATH 134" :: "MATH 144" :: nil)
  = Ok (SpecialRulesResult.make ("CMPUT 201" :: "MATH 144" :: nil)
          ("'CMPUT 275' excludes 'CMPUT 201'. Cannot count both toward degree."
           :: "'MATH 134' excludes 'MATH 144'. Cannot count both toward degree." :: nil)
          nil ("Must maintain 3.0 GPA" :: "Complete within 5 years" :: nil)) /\
  apply_special_rules (test_program nil rules) ("CMPUT 115" :: nil)
  = Ok (SpecialRulesResult.make nil
          ("'CMPUT 115' should be substituted with 'CMPUT 174'" :: nil)
          (("CMPUT 115", "CMPUT 174") :: nil)
          ("Must maintain 3.0 GPA" :: "Complete within 5 years" :: nil)) /\
  apply_special_rules (test_program nil rules) nil
  = Ok (SpecialRulesResult.make nil nil nil
          ("Must maintain 3.0 GPA" :: "Complete within 5 years" :: nil)).
Proof. repeat split; vm_compute; reflexivity. Qed.

End Tests.

(** * Further properties *)

(** ** Formula evaluation: what the lists hold *)

(** The conditions Python iterates are the members of a list, which the
    recursive calls evaluate, or strings, which are not objects. *)
Lemma conditions_cases (j : json) (tag : string) (conditions : list json) :
  node_type j = Some tag -> py_iter (node_conditions j) = Ok conditions ->
  Forall (fun c => subformula c j \/ forall d, c <> JDict d) conditions.
Proof.
  intros Htag Hiter.
  destruct (node_type_inv _ _ Htag) as (d & type & -> & _ & _ & _).
  cbn [node_conditions] in Hiter.
  destruct (dict_get_or "conditions" (JList nil) d) as [|b|n|s|l|d'] eqn:Hc;
    try discriminate.
  - eapply Forall_impl; [exact (py_iter_strings (JStr s) _ ltac:(discriminate) Hiter)|].
    intros c Hc'. right. exact Hc'.
  - injection Hiter as <-. apply Forall_forall. intros c Hin. left.
    exists d. split; [reflexivity|]. right. exists l. auto.
  - eapply Forall_impl; [exact (py_iter_strings (JDict d') _ ltac:(discriminate) Hiter)|].
    intros c Hc'. right. exact Hc'.
Qed.

Lemma classified_non_object (formula : json) (completed : gset string) (r : evaluation) :
  (forall d, formula <> JDict d) ->
  _evaluate_formula formula completed = Ok r -> classified completed r.
Proof.
  intros Hj. rewrite (_evaluate_formula_non_object _ _ Hj). unfold evaluate_non_object.
  destruct (py_falsy formula); [|discriminate].
  intros [= <-]. split_and!; [constructor|constructor|reflexivity].
Qed.

Lemma and_loop_classified (ev : json -> result evaluation) (completed : gset string)
    (l : list json) (acc r : evaluation) :
  Forall (fun c => forall r, ev c = Ok r -> classified completed r) l ->
  classified completed acc -> and_loop ev l acc = Ok r -> classified completed r.
Proof.
  intros H. revert acc. induction H as [|c l Hc _ IH]; intros acc Hacc; simpl.
  - intros [= <-]. exact Hacc.
  - destruct (ev c) as [[[valid missing] sat]|e] eqn:Hev; [|discriminate].
    destruct acc as [[is_valid all_missing] all_satisfied].
    apply IH. destruct (Hc _ eq_refl) as (Hm & Hs & Hv).
    destruct Hacc as (Hm' & Hs' & Hv').
    unfold classified, valid_of, missing_of, satisfied_of in *. simpl in *.
    split_and!; [apply Forall_app; auto|apply Forall_app; auto|].
    destruct valid; [|discriminate]. intros Hi. rewrite (Hv' Hi), (Hv eq_refl). reflexivity.
Qed.

Lemma or_loop_classified (ev : json -> result evaluation) (completed : gset string)
    (l : list json) (all_missing : list string) (r : evaluation) :
  Forall (fun c => forall r, ev c = Ok r -> classified completed r) l ->
  Forall (fun code => py_upper code ∉ completed) all_missing ->
  or_loop ev l all_missing = Ok r -> classified completed r.
Proof.
  intros H. revert all_missing. induction H as [|c l Hc _ IH]; intros all_missing Hacc; simpl.
  - intros [= <-]. split_and!; [exact Hacc|constructor|discriminate].
  - destruct (ev c) as [[[valid missing] sat]|e] eqn:Hev; [|discriminate].
    destruct (Hc _ eq_refl) as (Hm & Hs & Hv).
    unfold classified, valid_of, missing_of, satisfied_of in *. simpl in *.
    destruct valid.
    + intros [= <-]. simpl. split_and!; [constructor|exact Hs|reflexivity].
    + apply IH. apply Forall_app. auto.
Qed.

(** The lists of every evaluation classify its codes. *)
Lemma evaluation_classified (formula : json) (completed : gset string) (r : evaluation) :
  _evaluate_formula formula completed = Ok r -> classified completed r.
Proof.
  revert r. induction formula as [j IH] using formula_ind. intros r.
  destruct (py_falsy j) eqn:Hf.
  { rewrite _evaluate_formula_eq, Hf. intros [= <-].
    split_and!; [constructor|constructor|reflexivity]. }
  destruct (node_type j) as [tag|] eqn:Htag.
  2:{ rewrite (evaluate_untagged _ _ Hf Htag). discriminate. }
  destruct (tag_cases tag) as [-> | [-> | [-> | Hu]]].
  - rewrite (evaluate_course _ _ Htag).
    destruct (node_code j) as [|b|n|s|l|c] eqn:Hc;
      try (intros [= <-]; split_and!; [constructor|constructor|discriminate]).
    + unfold course_leaf.
      destruct (bool_decide_reflect (py_upper s ∈ completed)) as [Hin|Hout]; intros [= <-].
      * split_and!; [constructor|repeat constructor; exact Hin|reflexivity].
      * split_and!; [repeat constructor; exact Hout|constructor|discriminate].
    + apply IH. destruct (node_type_inv _ _ Htag) as (d & type & -> & _).
      exists d. split; [reflexivity|]. left. symmetry. exact Hc.
  - rewrite (evaluate_and _ _ Htag).
    destruct (py_iter (node_conditions j)) as [conditions|e] eqn:Hiter; [|discriminate].
    cbn [mbind result_bind]. apply and_loop_classified.
    + eapply Forall_impl; [exact (conditions_cases _ _ _ Htag Hiter)|].
      intros c [Hsub|Hc] r'; [apply IH, Hsub|apply classified_non_object, Hc].
    + split_and!; [constructor|constructor|reflexivity].
  - rewrite (evaluate_or _ _ Htag).
    destruct (py_iter (node_conditions j)) as [conditions|e] eqn:Hiter; [|discriminate].
    cbn [mbind result_bind]. apply or_loop_classified; [|constructor].
    eapply Forall_impl; [exact (conditions_cases _ _ _ Htag Hiter)|].
    intros c [Hsub|Hc] r'; [apply IH, Hsub|apply classified_non_object, Hc].
  - rewrite (evaluate_unrecognized _ _ _ Htag Hu). intros [= <-].
    split_and!; [constructor|constructor|discriminate].
Qed.

(** X1: whenever [_evaluate_formula] returns, on any JSON value and any
    completed set, every code it reports missing is not in the completed set
    (uppercased), every code it reports satisfied is, and a valid result
    reports no missing code. *)
Theorem evaluate_formula_classifies (formula : json) (completed : gset string)
    (is_valid : bool) (missing satisfied_courses : list string) :
  _evaluate_formula formula completed = Ok (is_valid, missing, satisfied_courses) ->
  (forall code, code ∈ missing -> py_upper code ∉ completed) /\
  (forall code, code ∈ satisfied_courses -> py_upper code ∈ completed) /\
  (is_valid = true -> missing = nil).
Proof.
  intros Hev. destruct (evaluation_classified _ _ _ Hev) as (Hm & Hs & Hv).
  unfold missing_of, satisfied_of, valid_of in *. simpl in *.
  rewrite Forall_forall in Hm, Hs. auto.
Qed.

Lemma evaluate_formula_classifies_witness :
  (forall code, code ∈ "CMPUT 175" :: "CMPUT 274" :: nil -> py_upper code ∉ ({["CMPUT 174"]} : gset string)) /\
  (forall code, code ∈ "CMPUT 174" :: nil -> py_upper code ∈ ({["CMPUT 174"]} : gset string)) /\
  (false = true -> "CMPUT 175" :: "CMPUT 274" :: nil = @nil string).
Proof.
  apply (evaluate_formula_classifies
           (all_of (course "CMPUT 174" :: course "CMPUT 175" :: course "CMPUT 274" :: nil))).
  vm_compute. reflexivity.
Defined.

(** ** Formula evaluation: completing more courses *)

Lemma and_loop_monotone (ev ev' : json -> result evaluation) (l : list json)
    (acc acc' r : evaluation) :
  Forall (fun c => forall r, ev c = Ok r ->
                   exists r', ev' c = Ok r' /\ (valid_of r = true -> valid_of r' = true)) l ->
  (valid_of acc = true -> valid_of acc' = true) ->
  and_loop ev l acc = Ok r ->
  exists r', and_loop ev' l acc' = Ok r' /\ (valid_of r = true -> valid_of r' = true).
Proof.
  intros H. revert acc acc'. induction H as [|c l Hc _ IH]; intros acc acc' Hacc; simpl.
  - intros [= <-]. eauto.
  - destruct (ev c) as [[[valid missing] sat]|e] eqn:Hev; [|discriminate].
    destruct (Hc _ eq_refl) as ([[valid' missing'] sat'] & -> & Hv).
    destruct acc as [[is_valid all_missing] all_satisfied].
    destruct acc' as [[is_valid' all_missing'] all_satisfied'].
    apply IH. unfold valid_of in *. simpl in *.
    destruct valid; [|discriminate]. rewrite (Hv eq_refl). exact Hacc.
Qed.

Lemma or_loop_monotone (ev ev' : json -> result evaluation) (l : list json)
    (all_missing all_missing' : list string) (r : evaluation) :
  Forall (fun c => forall r, ev c = Ok r ->
                   exists r', ev' c = Ok r' /\ (valid_of r = true -> valid_of r' = true)) l ->
  or_loop ev l all_missing = Ok r ->
  exists r', or_loop ev' l all_missing' = Ok r' /\ (valid_of r = true -> valid_of r' = true).
Proof.
  intros H. revert all_missing all_missing'.
  induction H as [|c l Hc _ IH]; intros all_missing all_missing'; simpl.
  - intros [= <-]. eexists. split; [reflexivity|discriminate].
  - destruct (ev c) as [[[valid missing] sat]|e] eqn:Hev; [|discriminate].
    destruct (Hc _ eq_refl) as ([[valid' missing'] sat'] & -> & Hv).
    unfold valid_of in Hv. simpl in Hv.
    destruct valid'; [intros _; eexists; split; reflexivity|].
    destruct valid; [discriminate (Hv eq_refl)|]. apply IH.
Qed.

(** X2: completing more courses never breaks a prerequisite.  If
    [_evaluate_formula] returns on a formula for a completed set, it returns
    for every larger set, and a formula valid for the smaller set is valid
    for the larger one; this holds of any JSON value. *)
Theorem evaluate_formula_monotone (formula : json) (completed completed' : gset string)
    (r : evaluation) :
  completed ⊆ completed' ->
  _evaluate_formula formula completed = Ok r ->
  exists r', _evaluate_formula formula completed' = Ok r' /\
             (valid_of r = true -> valid_of r' = true).
Proof.
  intros Hsub. revert r. induction formula as [j IH] using formula_ind. intros r.
  assert (Hleaf : forall c r, (forall d, c <> JDict d) ->
            _evaluate_formula c completed = Ok r ->
            exists r', _evaluate_formula c completed' = Ok r' /\
                       (valid_of r = true -> valid_of r' = true)).
  { intros c r0 Hc. rewrite !(_evaluate_formula_non_object _ _ Hc). eauto. }
  destruct (py_falsy j) eqn:Hf.
  { rewrite !_evaluate_formula_eq, Hf. eauto. }
  destruct (node_type j) as [tag|] eqn:Htag.
  2:{ rewrite (evaluate_untagged _ _ Hf Htag). discriminate. }
  destruct (tag_cases tag) as [-> | [-> | [-> | Hu]]].
  - rewrite !(evaluate_course _ _ Htag).
    destruct (node_code j) as [|b|n|s|l|c] eqn:Hc; eauto.
    + unfold course_leaf.
      destruct (bool_decide_reflect (py_upper s ∈ completed)) as [Hin|Hout]; intros [= <-].
      * rewrite bool_decide_eq_true_2; [eauto|]. apply Hsub, Hin.
      * destruct (bool_decide (py_upper s ∈ completed')); eexists;
          (split; [reflexivity|discriminate]).
    + apply IH. destruct (node_type_inv _ _ Htag) as (d & type & -> & _).
      exists d. split; [reflexivity|]. left. symmetry. exact Hc.
  - rewrite !(evaluate_and _ _ Htag).
    destruct (py_iter (node_conditions j)) as [conditions|e] eqn:Hiter; [|discriminate].
    cbn [mbind result_bind]. apply and_loop_monotone; [|auto].
    eapply Forall_impl; [exact (conditions_cases _ _ _ Htag Hiter)|].
    intros c [Hc|Hc] r'; [apply IH, Hc|apply Hleaf, Hc].
  - rewrite !(evaluate_or _ _ Htag).
    destruct (py_iter (node_conditions j)) as [conditions|e] eqn:Hiter; [|discriminate].
    cbn [mbind result_bind]. apply or_loop_monotone.
    eapply Forall_impl; [exact (conditions_cases _ _ _ Htag Hiter)|].
    intros c [Hc|Hc] r'; [apply IH, Hc|apply Hleaf, Hc].
  - rewrite !(evaluate_unrecognized _ _ _ Htag Hu). eauto.
Qed.

Lemma evaluate_formula_monotone_witness :
  exists r',
    _evaluate_formula (one_of (course "CMPUT 175" :: course "CMPUT 274" :: nil))
      {["CMPUT 174"; "CMPUT 175"]} = Ok r' /\
    (valid_of (true, nil, "CMPUT 175" :: nil) = true -> valid_of r' = true).
Proof.
  apply (evaluate_formula_monotone (one_of (course "CMPUT 175" :: course "CMPUT 274" :: nil))
           {["CMPUT 175"]} {["CMPUT 174"; "CMPUT 175"]}).
  - refine (bool_decide_unpack _ _). vm_compute. exact I.
  - vm_compute. reflexivity.
Defined.

(** ** The description of a formula *)

Lemma map_loop_ext {A B : Type} (f g : A -> result B) (l : list A) :
  Forall (fun x => f x = g x) l -> map_loop f l = map_loop g l.
Proof.
  induction 1 as [|x l Hx _ IH]; simpl; [reflexivity|]. rewrite Hx, IH. reflexivity.
Qed.











(** ** [sorted] *)

Lemma insert_sorted_perm (x : string) (l : list string) :
  Permutation (insert_sorted x l) (x :: l).
Proof.
  induction l as [|y l IH]; simpl; [reflexivity|].
  destruct (String.leb x y); [reflexivity|].
  rewrite IH. apply perm_swap.
Qed.

Lemma py_sorted_perm (l : list string) : Permutation (py_sorted l) l.
Proof.
  induction l as [|x l IH]; simpl; [reflexivity|].
  rewrite insert_sorted_perm, IH. reflexivity.
Qed.

Lemma insert_sorted_ascending (x : string) (l : list string) :
  ascending l -> ascending (insert_sorted x l).
Proof.
  unfold ascending. induction 1 as [|y l Hl IH Hy]; simpl.
  - repeat constructor.
  - destruct (String.leb x y) eqn:Hxy.
    + constructor; [constructor; assumption|constructor; exact Hxy].
    + constructor; [exact IH|].
      destruct l as [|z l]; simpl.
      * constructor. destruct (String.leb_total x y); congruence.
      * destruct (String.leb x z); constructor.
        -- destruct (String.leb_total x y); congruence.
        -- inversion Hy. assumption.
Qed.

Lemma py_sorted_ascending (l : list string) : ascending (py_sorted l).
Proof.
  induction l as [|x l IH]; simpl; [constructor|]. apply insert_sorted_ascending, IH.
Qed.

Lemma py_sorted_elem (x : string) (l : list string) : x ∈ py_sorted l <-> x ∈ l.
Proof. rewrite (py_sorted_perm l). reflexivity. Qed.

Lemma py_sorted_nil (l : list string) : py_sorted l = nil -> l = nil.
Proof.
  intros Hs. apply Permutation_nil. rewrite <- Hs. apply py_sorted_perm.
Qed.

(** ** [check_prerequisites] *)

(** X4: whenever [check_prerequisites] returns, its [is_valid] is what
    [validate_prerequisite_formula] returns for the formula of the course and
    the normalised completed set; its two lists are in ascending order; every
    missing course is not completed and every satisfied one is; and a valid
    result misses no course. *)
Theorem check_prerequisites_sound `{Rendering} (course_code : string)
    (completed_courses : list string) (db : database) (r : PrerequisiteCheckResult.t) :
  check_prerequisites course_code completed_courses db = Ok r ->
  (exists row,
     select_course (course_rows db) course_code = Some row /\
     validate_prerequisite_formula (Course.prerequisite_formula row)
       (normalize completed_courses) = Ok (PrerequisiteCheckResult.is_valid r)) /\
  ascending (PrerequisiteCheckResult.missing_courses r) /\
  ascending (PrerequisiteCheckResult.satisfied_prerequisites r) /\
  Forall (fun code => py_upper code ∉ normalize completed_courses)
    (PrerequisiteCheckResult.missing_courses r) /\
  Forall (fun code => py_upper code ∈ normalize completed_courses)
    (PrerequisiteCheckResult.satisfied_prerequisites r) /\
  (PrerequisiteCheckResult.is_valid r = true -> PrerequisiteCheckResult.missing_courses r = nil).
Proof.
  unfold check_prerequisites, validate_prerequisite_formula.
  destruct (select_course (course_rows db) course_code) as [row|]; [|discriminate].
  destruct (py_falsy (Course.prerequisite_formula row)) eqn:Hf.
  { intros [= <-]. cbn. split_and!.
    - exists row. rewrite _evaluate_formula_eq, Hf. auto.
    - apply Sorted_nil.
    - apply Sorted_nil.
    - apply List.Forall_nil.
    - apply List.Forall_nil.
    - reflexivity. }
  destruct (_evaluate_formula (Course.prerequisite_formula row) (normalize completed_courses))
    as [[[is_valid missing] sat]|e] eqn:Hev; [|discriminate].
  cbn [mbind result_bind].
  destruct (_format_formula_description (Course.prerequisite_formula row)) as [description|e];
    [|discriminate].
  cbn [mbind result_bind].
  destruct (validate_optional_str description) as [formula_description|e]; [|discriminate].
  intros [= <-]. cbn.
  destruct (evaluation_classified _ _ _ Hev) as (Hm & Hs & Hv).
  unfold valid_of, missing_of, satisfied_of in *. simpl in *.
  split_and!.
  - exists row. rewrite Hev. auto.
  - apply py_sorted_ascending.
  - apply py_sorted_ascending.
  - rewrite py_sorted_perm. exact Hm.
  - rewrite py_sorted_perm. exact Hs.
  - intros Hi. rewrite (Hv Hi). reflexivity.
Qed.

Lemma check_prerequisites_sound_witness :
  ascending (PrerequisiteCheckResult.missing_courses cmput_204_check) /\
  Forall (fun code => py_upper code ∉ normalize ("cmput 174" :: nil))
    (PrerequisiteCheckResult.missing_courses cmput_204_check).
Proof.
  destruct (check_prerequisites_sound (H := sample_rendering) "CMPUT 204" ("cmput 174" :: nil)
              catalogue cmput_204_check) as (_ & Hm & _ & Hc & _).
  - vm_compute. reflexivity.
  - split; [exact Hm|exact Hc].
Defined.

(** ** The normalisation of the completed courses *)

Lemma upper_ascii_idem (c : ascii) : upper_ascii (upper_ascii c) = upper_ascii c.
Proof. destruct c as [[] [] [] [] [] [] [] []]; reflexivity. Qed.

Lemma is_space_upper (c : ascii) : is_space (upper_ascii c) = is_space c.
Proof. destruct c as [[] [] [] [] [] [] [] []]; reflexivity. Qed.

Lemma py_upper_idem (s : string) : py_upper (py_upper s) = py_upper s.
Proof.
  unfold py_upper. rewrite list_ascii_of_string_of_list_ascii, List.map_map.
  f_equal. apply List.map_ext. intros c. apply upper_ascii_idem.
Qed.

Lemma lstrip_upper (l : list ascii) : lstrip (map upper_ascii l) = map upper_ascii (lstrip l).
Proof.
  induction l as [|c l IH]; simpl; [reflexivity|].
  rewrite is_space_upper. destruct (is_space c); [exact IH|reflexivity].
Qed.

(** [upper] and [strip] commute. *)
Lemma py_strip_upper (s : string) : py_strip (py_upper s) = py_upper (py_strip s).
Proof.
  unfold py_strip, py_upper. rewrite !list_ascii_of_string_of_list_ascii.
  rewrite lstrip_upper, <- List.map_rev, lstrip_upper, <- List.map_rev. reflexivity.
Qed.

(** A list that does not start with a space. *)
Lemma lstrip_fixed (l : list ascii) :
  match l with nil => True | c :: _ => is_space c = false end -> lstrip l = l.
Proof. destruct l as [|c l]; simpl; [reflexivity|]. intros ->. reflexivity. Qed.

Lemma lstrip_clean (l : list ascii) :
  match lstrip l with nil => True | c :: _ => is_space c = false end.
Proof.
  induction l as [|c l IH]; simpl; [exact I|].
  destruct (is_space c) eqn:Hc; [exact IH|exact Hc].
Qed.

Lemma lstrip_suffix (l : list ascii) : exists spaces, l = spaces ++ lstrip l.
Proof.
  induction l as [|c l [spaces IH]]; simpl; [exists nil; reflexivity|].
  destruct (is_space c); [|exists nil; reflexivity].
  exists (c :: spaces). simpl. rewrite <- IH. reflexivity.
Qed.

(** [strip] is idempotent. *)
Lemma py_strip_idem (s : string) : py_strip (py_strip s) = py_strip s.
Proof.
  unfold py_strip. rewrite list_ascii_of_string_of_list_ascii.
  set (a := lstrip (list_ascii_of_string s)).
  set (b := lstrip (rev a)).
  assert (Hb : lstrip (rev b) = rev b).
  { apply lstrip_fixed.
    destruct (lstrip_suffix (rev a)) as [spaces Hs]. fold b in Hs.
    assert (Ha : a = rev b ++ rev spaces).
    { rewrite <- (rev_involutive a), Hs, rev_app_distr. reflexivity. }
    pose proof (lstrip_clean (list_ascii_of_string s)) as Hclean. fold a in Hclean.
    rewrite Ha in Hclean. destruct (rev b); [exact I|exact Hclean]. }
  rewrite Hb, rev_involutive. unfold b at 1.
  rewrite (lstrip_fixed (lstrip (rev a))); [reflexivity|apply lstrip_clean].
Qed.

(** The normal form of a code is its own normal form. *)
Lemma normal_form_idem (c : string) :
  py_strip (py_upper (py_strip (py_upper c))) = py_strip (py_upper c).
Proof. rewrite <- (py_strip_upper (py_upper c)), py_strip_idem, py_upper_idem. reflexivity. Qed.

Lemma elem_of_normalize (x : string) (courses : list string) :
  x ∈ normalize courses <-> exists c, c ∈ courses /\ x = py_strip (py_upper c).
Proof.
  unfold normalize. rewrite elem_of_list_to_set.
  change (map (fun c => py_strip (py_upper c)) courses)
    with ((fun c => py_strip (py_upper c)) <$> courses).
  rewrite list_elem_of_fmap. split; intros (c & H1 & H2); eauto.
Qed.

(** X5: on course codes of ASCII text, the normalisation
    [set(c.upper().strip() for c in courses)] is idempotent and absorbs what
    it normalises: uppercasing or stripping the codes beforehand, normalising
    twice, reordering the list or repeating its entries all give the same
    set. *)
Theorem normalize_absorbs (courses : list string) :
  Forall (fun c => ascii_text c = true) courses ->
  normalize (map py_upper courses) = normalize courses /\
  normalize (map py_strip courses) = normalize courses /\
  normalize (elements (normalize courses)) = normalize courses /\
  normalize (courses ++ courses) = normalize courses /\
  (forall courses', courses' ≡ₚ courses -> normalize courses' = normalize courses).
Proof.
  intros _. split_and!.
  - apply set_eq. intros x. rewrite !elem_of_normalize. split.
    + intros (c & Hc & ->). apply list_elem_of_fmap in Hc as (c' & -> & Hc').
      exists c'. rewrite py_upper_idem. auto.
    + intros (c & Hc & ->). exists (py_upper c). rewrite py_upper_idem.
      split; [|reflexivity]. apply list_elem_of_fmap. eauto.
  - apply set_eq. intros x. rewrite !elem_of_normalize. split.
    + intros (c & Hc & ->). apply list_elem_of_fmap in Hc as (c' & -> & Hc').
      exists c'. rewrite <- py_strip_upper, py_strip_idem. auto.
    + intros (c & Hc & ->). exists (py_strip c).
      rewrite <- py_strip_upper, py_strip_idem.
      split; [|reflexivity]. apply list_elem_of_fmap. eauto.
  - apply set_eq. intros x. rewrite elem_of_normalize. split.
    + intros (c & Hc & ->). apply elem_of_elements, elem_of_normalize in Hc as (c' & Hc' & ->).
      rewrite normal_form_idem. apply elem_of_normalize. eauto.
    + intros Hx. exists x. split; [apply elem_of_elements, Hx|].
      apply elem_of_normalize in Hx as (c & _ & ->). rewrite normal_form_idem. reflexivity.
  - apply set_eq. intros x. rewrite !elem_of_normalize. split.
    + intros (c & Hc & ->). apply elem_of_app in Hc. exists c. tauto.
    + intros (c & Hc & ->). exists c. rewrite elem_of_app. auto.
  - intros courses' Hperm. apply set_eq. intros x. rewrite !elem_of_normalize.
    split; intros (c & Hc & ->); exists c; (split; [|reflexivity]).
    + rewrite <- Hperm. exact Hc.
    + rewrite Hperm. exact Hc.
Qed.

Lemma normalize_absorbs_witness :
  normalize (map py_upper (" cmput 174" :: "CMPUT 204 " :: nil)) =
  normalize (" cmput 174" :: "CMPUT 204 " :: nil) /\
  normalize (map py_strip (" cmput 174" :: "CMPUT 204 " :: nil)) =
  normalize (" cmput 174" :: "CMPUT 204 " :: nil) /\
  normalize (elements (normalize (" cmput 174" :: "CMPUT 204 " :: nil))) =
  normalize (" cmput 174" :: "CMPUT 204 " :: nil).
Proof.
  destruct (normalize_absorbs (" cmput 174" :: "CMPUT 204 " :: nil)) as (H1 & H2 & H3 & _).
  - repeat constructor.
  - split_and!; assumption.
Defined.

(** X6: the entry points read the completed courses as the normalised set
    only: two lists with the same normal form give the same result, outcome
    and exception included, in each of them. *)
Theorem completed_courses_as_a_set `{Rendering} (completed completed' : list string)
    (db : database) :
  normalize completed' = normalize completed ->
  (forall course_code,
     check_prerequisites course_code completed' db =
     check_prerequisites course_code completed db) /\
  (forall program_code,
     validate_requirements program_code completed' db =
     validate_requirements program_code completed db) /\
  (forall program_code course_code,
     find_satisfiable_requirements program_code course_code completed' db =
     find_satisfiable_requirements program_code course_code completed db) /\
  (forall program_code,
     get_next_available_courses program_code completed' db =
     get_next_available_courses program_code completed db) /\
  (forall program,
     apply_special_rules program completed' = apply_special_rules program completed).
Proof.
  intros Heq.
  assert (Hcheck : forall course_code,
            check_prerequisites course_code completed' db =
            check_prerequisites course_code completed db).
  { intros course_code. unfold check_prerequisites. rewrite Heq. reflexivity. }
  split_and!.
  - exact Hcheck.
  - intros program_code. unfold validate_requirements. rewrite Heq. reflexivity.
  - intros program_code course_code. unfold find_satisfiable_requirements.
    rewrite Heq. reflexivity.
  - intros program_code. unfold get_next_available_courses. rewrite Heq.
    destruct (select_program (program_rows db) program_code) as [program|]; [|reflexivity].
    destruct (bool_decide _); [reflexivity|].
    rewrite (map_loop_ext (available_entry program completed' db)
               (available_entry program completed db)); [reflexivity|].
    apply Forall_forall. intros course _. unfold available_entry.
    rewrite Heq, Hcheck. reflexivity.
  - intros program. unfold apply_special_rules. rewrite Heq. reflexivity.
Qed.

Lemma completed_courses_as_a_set_witness :
  check_prerequisites (H := sample_rendering) "CMPUT 204"
    (" cmput 174" :: "CMPUT 174" :: nil) catalogue =
  check_prerequisites (H := sample_rendering) "CMPUT 204" ("CMPUT 174  " :: nil) catalogue.
Proof.
  apply (completed_courses_as_a_set (H := sample_rendering) ("CMPUT 174  " :: nil)
           (" cmput 174" :: "CMPUT 174" :: nil) catalogue).
  vm_compute. reflexivity.
Defined.

(** ** The prerequisite tree: its nodes *)

Lemma tree_sound_eq (db : database) (depth : Z) (node : PrerequisiteNode.t) :
  tree_sound db depth node <->
  PrerequisiteNode.depth node = depth /\
  (exists row,
     select_course (course_rows db) (PrerequisiteNode.course_code node) = Some row /\
     PrerequisiteNode.title node = Course.title row) /\
  Forall (tree_sound db (depth + 1)) (PrerequisiteNode.prerequisites node).
Proof.
  destruct node as [code title d children formula]. cbn [tree_sound].
  cbn [PrerequisiteNode.depth PrerequisiteNode.course_code PrerequisiteNode.prerequisites
       PrerequisiteNode.title].
  rewrite fold_right_and_Forall. reflexivity.
Qed.

(** Every tree [build_tree] returns is sound, whatever the code, the engine
    and the budget. *)
Lemma build_tree_sound (budget : nat) (course_code : json) (db : database)
    (depth max_depth : Z) (visited : gset hashable) (node : PrerequisiteNode.t) :
  build_tree budget course_code db depth max_depth visited = Ok node ->
  tree_sound db depth node.
Proof.
  revert course_code depth visited node.
  induction budget as [|budget IH]; intros course_code depth visited node Hrun;
    apply build_tree_inv in Hrun
      as (row & Hrow & Hcode & Htitle & Hdepth & [[_ Hleaf]|(_ & _ & Hchildren)]);
    apply select_course_by_code in Hrow;
    apply tree_sound_eq; rewrite Hcode;
    (split_and!; [exact Hdepth|exists row; split; [exact Hrow|exact Htitle]|]);
    try (destruct Hleaf as [-> _]; constructor);
    (destruct (py_falsy (Course.prerequisite_formula row));
     [rewrite Hchildren; constructor|]);
    destruct Hchildren as (codes & _ & Hloop);
    (eapply prerequisite_loop_Forall; [|constructor|exact Hloop]);
    intros c child _ Hc.
  - discriminate.
  - eapply IH, Hc.
Qed.

(** The tree returned for a string is rooted at the course of that code. *)
Lemma build_tree_code (budget : nat) (course_code : string) (db : database)
    (depth max_depth : Z) (visited : gset hashable) (node : PrerequisiteNode.t) :
  build_tree budget course_code db depth max_depth visited = Ok node ->
  PrerequisiteNode.course_code node = course_code.
Proof.
  intros Hrun. apply build_tree_inv in Hrun as (row & [= Hrow] & -> & _).
  exact (select_course_code _ _ _ Hrow).
Qed.

(** X7: every tree [get_prerequisite_tree] returns is rooted at the course
    asked for, at the depth given; each of its nodes is a course of the
    catalogue, under the title of its row; and the children of a node are one
    level below it. *)
Theorem prerequisite_tree_sound `{Interpreter} (course_code : string) (db : database)
    (depth max_depth : Z) (visited : gset hashable) (node : PrerequisiteNode.t) :
  get_prerequisite_tree course_code db depth max_depth visited = Ok node ->
  PrerequisiteNode.course_code node = course_code /\
  PrerequisiteNode.depth node = depth /\
  tree_sound db depth node /\
  Forall (fun child => PrerequisiteNode.depth child = depth + 1)
    (PrerequisiteNode.prerequisites node).
Proof.
  intros Hrun. pose proof (build_tree_code _ _ _ _ _ _ _ Hrun) as Hcode.
  apply build_tree_sound in Hrun as Hsound.
  pose proof (proj1 (tree_sound_eq _ _ _) Hsound) as (Hdepth & _ & Hchildren).
  split_and!; [exact Hcode|exact Hdepth|exact Hsound|].
  eapply Forall_impl; [exact Hchildren|].
  intros child Hchild. apply tree_sound_eq in Hchild as [Hd _]. exact Hd.
Qed.

Lemma prerequisite_tree_sound_witness :
  exists node,
    get_prerequisite_tree (H := sample_interpreter) "CMPUT 204" catalogue 0 5 ∅ = Ok node /\
    PrerequisiteNode.course_code node = "CMPUT 204" /\
    PrerequisiteNode.depth node = 0 /\
    tree_sound catalogue 0 node /\
    Forall (fun child => PrerequisiteNode.depth child = 0 + 1)
      (PrerequisiteNode.prerequisites node).
Proof.
  eexists. split; [vm_compute; reflexivity|].
  apply (prerequisite_tree_sound (H := sample_interpreter) "CMPUT 204" catalogue 0 5 ∅).
  vm_compute. reflexivity.
Defined.

(** ** The prerequisite tree: the children of a node *)

(** [list(set(items))] keeps one item per key, each an item given. *)
Lemma set_from_keys (seen : list hashable) (items l : list json) :
  set_from seen items = Ok l ->
  NoDup (map py_hash l) /\
  Forall (fun x => x ∈ items /\ forall k, py_hash x = Some k -> k ∉ seen) l.
Proof.
  revert seen l. induction items as [|x items IH]; intros seen l; simpl.
  - intros [= <-]. split; constructor.
  - destruct (py_hash x) as [k|] eqn:Hk; [|discriminate].
    destruct (bool_decide_reflect (k ∈ seen)) as [Hseen|Hnew].
    + intros Hl. destruct (IH _ _ Hl) as [Hnd Hall]. split; [exact Hnd|].
      eapply Forall_impl; [exact Hall|]. intros y [Hy Hout]. split; [|exact Hout].
      apply list_elem_of_further, Hy.
    + destruct (set_from (k :: seen) items) as [kept|e] eqn:Hkept; [|discriminate].
      intros [= <-]. destruct (IH _ _ Hkept) as [Hnd Hall]. split.
      * simpl. constructor; [|exact Hnd]. rewrite Hk. intros Hin.
        apply list_elem_of_fmap in Hin as (y & Hy & Hin).
        rewrite Forall_forall in Hall. destruct (Hall y Hin) as [_ Hout].
        apply (Hout k); [auto|apply list_elem_of_here].
      * constructor.
        -- split; [apply list_elem_of_here|]. intros k' Hk'. congruence.
        -- eapply Forall_impl; [exact Hall|]. intros y [Hy Hout].
           split; [apply list_elem_of_further, Hy|].
           intros k' Hk' Hin. apply (Hout k' Hk'), list_elem_of_further, Hin.
Qed.

(** Distinct keys: the strings among the items are distinct. *)
Lemma strings_of_NoDup (l : list json) : NoDup (map py_hash l) -> NoDup (strings_of l).
Proof.
  induction l as [|x l IH]; simpl; [constructor|].
  intros Hnd. apply NoDup_cons in Hnd as [Hx Hnd].
  destruct x as [|b|n|s|l'|d]; try (apply IH, Hnd).
  constructor; [|apply IH, Hnd].
  intros Hin. apply list_elem_of_omap in Hin as (y & Hy & Hs).
  destruct y; try discriminate. injection Hs as ->.
  apply Hx. apply list_elem_of_fmap. exists (JStr s). auto.
Qed.

(** The codes returned have distinct keys. *)
Lemma extract_course_codes_keys (formula : json) (codes : list json) :
  _extract_course_codes formula = Ok codes -> NoDup (map py_hash codes).
Proof.
  unfold py_list_set in *. rewrite _extract_course_codes_eq. intros Hex.
  destruct formula as [|b|n|s|l|d]; try discriminate.
  destruct (dict_get_or "type" (JStr "") d) as [|b|n|type|l|d']; try discriminate.
  cbv zeta in Hex.
  destruct (String.eqb (py_upper type) "COURSE"); [exact (proj1 (set_from_keys _ _ _ Hex))|].
  destruct (String.eqb (py_upper type) "AND" || String.eqb (py_upper type) "OR");
    [|exact (proj1 (set_from_keys _ _ _ Hex))].
  destruct (py_iter _) as [conditions|e]; [|discriminate].
  cbn [mbind result_bind] in Hex.
  destruct (extend_loop _ conditions nil) as [gathered|e]; [|discriminate].
  exact (proj1 (set_from_keys _ _ _ Hex)).
Qed.

(** The nodes collected are built, in order, from the codes. *)
Lemma prerequisite_loop_codes (build : json -> result PrerequisiteNode.t)
    (codes : list json) (nodes nodes' : list PrerequisiteNode.t) :
  (forall c node, c ∈ codes -> build c = Ok node ->
                  JStr (PrerequisiteNode.course_code node) = c) ->
  prerequisite_loop build codes nodes = Ok nodes' ->
  exists added,
    nodes' = nodes ++ added /\
    sublist (map (fun node => JStr (PrerequisiteNode.course_code node)) added) codes.
Proof.
  revert nodes. induction codes as [|c codes IH]; intros nodes Hb; simpl.
  - intros [= <-]. exists nil. rewrite app_nil_r. split; [reflexivity|constructor].
  - assert (Hrest : forall c' node, c' ∈ codes -> build c' = Ok node ->
                                    JStr (PrerequisiteNode.course_code node) = c').
    { intros c' node Hin. apply Hb, list_elem_of_further, Hin. }
    destruct (build c) as [node|e] eqn:Hc.
    + intros Hl. destruct (IH _ Hrest Hl) as (added & -> & Hsub).
      exists (node :: added). rewrite <- app_assoc. split; [reflexivity|].
      simpl. rewrite (Hb _ _ (list_elem_of_here _ _) Hc). constructor. exact Hsub.
    + destruct (is_ValueError e); [|discriminate].
      intros Hl. destruct (IH _ Hrest Hl) as (added & -> & Hsub).
      exists added. split; [reflexivity|]. constructor. exact Hsub.
Qed.

(** A code whose call raises no [ValueError] has its node collected. *)
Lemma prerequisite_loop_complete (build : json -> result PrerequisiteNode.t)
    (codes : list json) (nodes nodes' : list PrerequisiteNode.t) (c : json) :
  prerequisite_loop build codes nodes = Ok nodes' ->
  (forall node, node ∈ nodes -> node ∈ nodes') /\
  (c ∈ codes -> (forall e, build c = Raise e -> is_ValueError e = false) ->
   exists node, build c = Ok node /\ node ∈ nodes').
Proof.
  revert nodes. induction codes as [|c' codes IH]; intros nodes; simpl.
  - intros [= <-]. split; [auto|]. intros Hin. inversion Hin.
  - destruct (build c') as [node|e] eqn:Hc'.
    + intros Hl. destruct (IH _ Hl) as [Hkeep Hfind]. split.
      * intros x Hx. apply Hkeep, elem_of_app. auto.
      * intros Hin Herr. apply elem_of_cons in Hin as [->|Hin]; [|auto].
        exists node. split; [exact Hc'|].
        apply Hkeep, elem_of_app. right. apply list_elem_of_here.
    + destruct (is_ValueError e) eqn:He; [|discriminate].
      intros Hl. destruct (IH _ Hl) as [Hkeep Hfind]. split; [exact Hkeep|].
      intros Hin Herr. apply elem_of_cons in Hin as [->|Hin]; [|auto].
      rewrite (Herr _ Hc') in He. discriminate.
Qed.

(** X8: over a catalogue whose prerequisite codes are strings, the children
    of the root of a tree [get_prerequisite_tree] returns have distinct codes,
    each a code [_extract_course_codes] finds in the formula of the course;
    and, when the root is not cut off, every code found that is a course of
    the catalogue, with a formula that is null or an object, is the code of a
    child: no such prerequisite is dropped. *)
Theorem prerequisite_tree_children `{Interpreter} (course_code : string) (db : database)
    (depth max_depth : Z) (visited : gset hashable) (node : PrerequisiteNode.t) :
  string_keys (course_rows db) = true ->
  get_prerequisite_tree course_code db depth max_depth visited = Ok node ->
  NoDup (map PrerequisiteNode.course_code (PrerequisiteNode.prerequisites node)) /\
  (forall child,
     child ∈ PrerequisiteNode.prerequisites node ->
     exists row codes,
       select_course (course_rows db) course_code = Some row /\
       _extract_course_codes (Course.prerequisite_formula row) = Ok codes /\
       JStr (PrerequisiteNode.course_code child) ∈ codes) /\
  (forall row codes p prerequisite,
     depth < max_depth -> HStr course_code ∉ visited ->
     select_course (course_rows db) course_code = Some row ->
     _extract_course_codes (Course.prerequisite_formula row) = Ok codes ->
     JStr p ∈ codes ->
     select_course (course_rows db) p = Some prerequisite ->
     Course.prerequisite_formula prerequisite = JNull \/
     (exists d, Course.prerequisite_formula prerequisite = JDict d) ->
     p ∈ map PrerequisiteNode.course_code (PrerequisiteNode.prerequisites node)).
Proof.
  intros Hkeys Hrun. unfold get_prerequisite_tree in Hrun.
  apply build_tree_inv in Hrun
    as (row & [= Hrow] & _ & _ & _ & [[Hcut [Hnil _]]|(_ & _ & Hchildren)]).
  { rewrite Hnil. split_and!.
    - constructor.
    - intros child Hchild. inversion Hchild.
    - intros row' codes p prerequisite Hd Hv. exfalso.
      rewrite is_cut_string in Hcut. injection Hcut as Hcut.
      apply orb_prop in Hcut as [Hle|Hin].
      + apply Z.leb_le in Hle. lia.
      + apply bool_decide_eq_true in Hin. contradiction. }
  destruct (py_falsy (Course.prerequisite_formula row)) eqn:Hf.
  { rewrite Hchildren. split_and!.
    - constructor.
    - intros child Hchild. inversion Hchild.
    - intros row' codes p prerequisite _ _ Hrow' Hex Hp. exfalso.
      assert (row' = row) as -> by congruence.
      destruct (Course.prerequisite_formula row) as [|b|n|s|l|[|kv d]]; try discriminate.
      cbn in Hex. injection Hex as <-. inversion Hp. }
  destruct Hchildren as (codes & Hex & Hloop).
  set (build := fun prereq_code : json =>
                  match recursion_limit with
                  | O => Raise RecursionError
                  | S budget' =>
                      build_tree budget' prereq_code db (depth + 1) max_depth
                        (visited_add course_code visited)
                  end) in Hloop.
  assert (Hbuilt : forall c child, c ∈ codes -> build c = Ok child ->
                                   JStr (PrerequisiteNode.course_code child) = c).
  { intros c child Hin Hc.
    destruct (string_keys_codes _ _ _ _ Hkeys (select_course_elem _ _ _ Hrow) Hex Hin)
      as [p ->].
    unfold build in Hc. destruct recursion_limit as [|budget']; [discriminate|].
    rewrite (build_tree_code _ _ _ _ _ _ _ Hc). reflexivity. }
  destruct (prerequisite_loop_codes _ _ _ _ Hbuilt Hloop) as (added & Hadded & Hsub).
  rewrite Hadded. cbn [app].
  split_and!.
  - apply (NoDup_fmap_1 JStr). rewrite <- list_fmap_compose.
    eapply sublist_NoDup; [|exact Hsub].
    apply (NoDup_fmap_1 py_hash), (extract_course_codes_keys _ _ Hex).
  - intros child Hchild. exists row, codes. split_and!; [exact Hrow|exact Hex|].
    eapply elem_of_sublist; [|exact Hsub].
    apply list_elem_of_fmap. exists child. auto.
  - intros row' codes' p prerequisite _ _ Hrow' Hex' Hp Hprow Hformula.
    assert (row' = row) as -> by congruence.
    assert (codes' = codes) as -> by congruence.
    destruct (proj2 (prerequisite_loop_complete _ _ _ _ (JStr p) Hloop) Hp)
      as (child & Hchild & Hin).
    + intros e He. unfold build in He.
      destruct recursion_limit as [|budget']; [injection He as <-; reflexivity|].
      exact (build_tree_value_error _ _ _ _ _ _ _ _ Hprow Hformula He).
    + rewrite Hadded in Hin. cbn [app] in Hin.
      apply list_elem_of_fmap. exists child. split; [|exact Hin].
      pose proof (Hbuilt _ _ Hp Hchild) as Hcode. congruence.
Qed.

Lemma prerequisite_tree_children_witness :
  exists node,
    get_prerequisite_tree (H := sample_interpreter) "CMPUT 204" catalogue 0 5 ∅ = Ok node /\
    NoDup (map PrerequisiteNode.course_code (PrerequisiteNode.prerequisites node)) /\
    "CMPUT 175" ∈ map PrerequisiteNode.course_code (PrerequisiteNode.prerequisites node).
Proof.
  eexists. split; [vm_compute; reflexivity|].
  edestruct (prerequisite_tree_children (H := sample_interpreter) "CMPUT 204" catalogue 0 5
               (∅ : gset hashable))
    as (Hnd & _ & Hall); [vm_compute; reflexivity|vm_compute; reflexivity|].
  split; [exact Hnd|].
  apply (Hall (sample_course "CMPUT 204" "200" cmput_204)
              (JStr "CMPUT 174" :: JStr "CMPUT 175" :: JStr "CMPUT 274" :: nil)
              "CMPUT 175" (sample_course "CMPUT 175" "100" (course "CMPUT 174"))).
  - lia.
  - intros Hin. apply not_elem_of_empty in Hin. exact Hin.
  - reflexivity.
  - vm_compute. reflexivity.
  - apply list_elem_of_further, list_elem_of_here.
  - reflexivity.
  - right. eexists. reflexivity.
Defined.

(** ** The codes of a formula: what is returned *)

Lemma conditions_of_object (d : list (string * json)) (conditions : list json) :
  py_iter (dict_get_or "conditions" (JList nil) d) = Ok conditions ->
  dict_get_or "conditions" (JList nil) d = JList conditions \/
  ((forall l, dict_get_or "conditions" (JList nil) d <> JList l) /\
   Forall (fun c => forall d', c <> JDict d') conditions).
Proof.
  intros Hiter.
  destruct (dict_get_or "conditions" (JList nil) d) as [|b|n|s|l|d'] eqn:Hc;
    try discriminate.
  - right. split; [discriminate|].
    exact (py_iter_strings (JStr s) _ ltac:(discriminate) Hiter).
  - left. injection Hiter as <-. reflexivity.
  - right. split; [discriminate|].
    exact (py_iter_strings (JDict d') _ ltac:(discriminate) Hiter).
Qed.

(** The codes of the leaves are not empty. *)
Lemma leaf_codes_truthy (formula c : json) : c ∈ leaf_codes formula -> py_falsy c = false.
Proof.
  induction formula as [j IH] using formula_ind. rewrite leaf_codes_eq.
  destruct j as [|b|n|s|l|d]; try solve [cbn; intros Hin; inversion Hin].
  destruct (dict_get_or "type" (JStr "") d) as [|b|n|type|l|d'];
    try solve [cbn; intros Hin; inversion Hin].
  cbv zeta. destruct (String.eqb (py_upper type) "COURSE").
  { destruct (py_falsy (default JNull (dict_get "code" d))) eqn:Hf; intros Hin.
    - inversion Hin.
    - apply list_elem_of_singleton in Hin as ->. exact Hf. }
  destruct (String.eqb (py_upper type) "AND" || String.eqb (py_upper type) "OR");
    [|intros Hin; inversion Hin].
  destruct (dict_get_or "conditions" (JList nil) d) as [|b|n|s|l|d'] eqn:Hc;
    try solve [cbn; intros Hin; inversion Hin].
  intros Hin. apply list_elem_of_In, in_flat_map in Hin as (child & Hchild & Hin).
  apply (IH child); [|apply list_elem_of_In, Hin].
  exists d. split; [reflexivity|]. right. exists l. split; [exact Hc|].
  apply list_elem_of_In, Hchild.
Qed.

Lemma extend_loop_leaf_codes (ex : json -> result (list json)) (l codes r : list json) :
  Forall (fun c => forall found, ex c = Ok found ->
                   Forall (fun x => x ∈ leaf_codes c) found) l ->
  extend_loop ex l codes = Ok r ->
  exists gathered,
    r = codes ++ gathered /\ Forall (fun x => x ∈ flat_map leaf_codes l) gathered.
Proof.
  intros H. revert codes. induction H as [|c l Hc _ IH]; intros codes; simpl.
  - intros [= <-]. exists nil. rewrite app_nil_r. split; [reflexivity|constructor].
  - destruct (ex c) as [found|e] eqn:Hex; [|discriminate].
    intros Hl. destruct (IH _ Hl) as (gathered & -> & Hg).
    exists (found ++ gathered). rewrite app_assoc. split; [reflexivity|].
    apply Forall_app. split.
    + eapply Forall_impl; [exact (Hc _ eq_refl)|]. intros x Hx. apply elem_of_app. auto.
    + eapply Forall_impl; [exact Hg|]. intros x Hx. apply elem_of_app. auto.
Qed.

(** X9: whatever the JSON value, the codes [_extract_course_codes] returns
    are pairwise distinct as set members, and each is the non-empty code of a
    [COURSE] leaf reached through the [AND] and [OR] nodes of the formula. *)
Theorem extract_course_codes_unique (formula : json) (codes : list json) :
  _extract_course_codes formula = Ok codes ->
  NoDup (map py_hash codes) /\
  Forall (fun c => c ∈ leaf_codes formula /\ py_falsy c = false) codes.
Proof.
  revert codes. induction formula as [j IH] using formula_ind. intros codes.
  remember (leaf_codes j) as leaves eqn:Hleaves.
  assert (Hset : forall items,
            py_list_set items = Ok codes ->
            Forall (fun x => x ∈ leaves) items ->
            NoDup (map py_hash codes) /\
            Forall (fun c => c ∈ leaves /\ py_falsy c = false) codes).
  { intros items Hset Hitems. destruct (set_from_keys _ _ _ Hset) as [Hnd Hall].
    split; [exact Hnd|]. rewrite Forall_forall in Hall, Hitems |- *.
    intros c Hc. destruct (Hall c Hc) as [Hin _].
    split; [apply Hitems, Hin|]. apply (leaf_codes_truthy j). rewrite <- Hleaves.
    apply Hitems, Hin. }
  rewrite leaf_codes_eq in Hleaves. rewrite _extract_course_codes_eq. revert Hleaves.
  destruct j as [|b|n|s|l|d]; try (intros _; discriminate).
  destruct (dict_get_or "type" (JStr "") d) as [|b|n|type|l|d'];
    try (intros _; discriminate).
  cbv zeta. destruct (String.eqb (py_upper type) "COURSE").
  { intros Hleaves Hcodes. apply (Hset _ Hcodes). rewrite Hleaves.
    destruct (py_falsy (default JNull (dict_get "code" d))); repeat constructor. }
  destruct (String.eqb (py_upper type) "AND" || String.eqb (py_upper type) "OR").
  2:{ intros _ Hcodes. apply (Hset _ Hcodes). constructor. }
  destruct (py_iter (dict_get_or "conditions" (JList nil) d)) as [conditions|e] eqn:Hiter;
    [|intros _; discriminate].
  cbn [mbind result_bind].
  destruct (extend_loop _extract_course_codes conditions nil) as [gathered|e] eqn:Hloop;
    [|intros _; discriminate].
  cbn [mbind result_bind]. intros Hleaves Hcodes. apply (Hset _ Hcodes).
  destruct (conditions_of_object _ _ Hiter) as [Hc|[Hc Hstrings]].
  - rewrite Hc in Hleaves. rewrite Hleaves.
    destruct (extend_loop_leaf_codes _extract_course_codes conditions nil gathered)
      as (g & -> & Hg); [|exact Hloop|exact Hg].
    apply Forall_forall. intros c Hin found Hfound.
    destruct (IH c) with (codes := found) as [_ Hall]; [|exact Hfound|].
    + exists d. split; [reflexivity|]. right. exists conditions. auto.
    + eapply Forall_impl; [exact Hall|]. intros x [Hx _]. exact Hx.
  - destruct (extend_loop_leaf_codes _extract_course_codes conditions nil gathered)
      as (g & -> & Hg); [|exact Hloop|].
    + eapply Forall_impl; [exact Hstrings|]. intros c Hnd found.
      rewrite (_extract_course_codes_non_object _ Hnd). discriminate.
    + assert (Hnone : flat_map leaf_codes conditions = nil).
      { clear -Hstrings. induction Hstrings as [|c l Hc _ IHl]; [reflexivity|].
        simpl. rewrite IHl. destruct c; try reflexivity. exfalso. exact (Hc _ eq_refl). }
      rewrite Hnone in Hg. destruct g as [|x g]; [constructor|].
      inversion Hg as [|? ? Hx]. inversion Hx.
Qed.

Lemma extract_course_codes_unique_witness :
  NoDup (map py_hash (JStr "CMPUT 174" :: JStr "CMPUT 175" :: JStr "CMPUT 274" :: nil)) /\
  Forall (fun c => c ∈ leaf_codes (all_of (cmput_204 :: course "CMPUT 175" :: nil)) /\
                   py_falsy c = false)
    (JStr "CMPUT 174" :: JStr "CMPUT 175" :: JStr "CMPUT 274" :: nil).
Proof.
  apply (extract_course_codes_unique (all_of (cmput_204 :: course "CMPUT 175" :: nil))).
  vm_compute. reflexivity.
Defined.

(** ** The prerequisite tree: when it is returned *)






(** ** The codes of a string-coded formula *)




(** ** The progress of one requirement *)

Local Open Scope Q_scope.

Lemma percent_full (a b : Z) : (0 < b)%Z -> percent a b == 100 <-> a = b.
Proof.
  intros Hb. unfold percent.
  assert (Hnz : ~ inject_Z b == 0).
  { change 0 with (inject_Z 0). rewrite inject_Z_injective. lia. }
  split.
  - intros H. change 100 with (1 * 100) in H at 2.
    apply Qmult_inj_r in H; [|discriminate].
    apply inject_Z_injective.
    rewrite <- (Qmult_div_r (inject_Z a) (inject_Z b) Hnz), H. ring.
  - intros ->. field. exact Hnz.
Qed.

Lemma percent_at_least (a b : Z) : (0 < b)%Z -> 100 <= percent a b <-> (b <= a)%Z.
Proof.
  intros Hb. unfold percent.
  assert (Hpos : 0 < inject_Z b).
  { change 0 with (inject_Z 0). rewrite <- Zlt_Qlt. exact Hb. }
  rewrite Zle_Qle. split.
  - intros H. change 100 with (1 * 100) in H at 1.
    apply Qmult_le_r in H; [|reflexivity].
    apply (Qmult_le_compat_r _ _ (inject_Z b)) in H; [|apply Qlt_le_weak, Hpos].
    rewrite Qmult_1_l, (Qmult_comm (_ / _)), Qmult_div_r in H; [exact H|].
    intros Hz. rewrite Hz in Hpos. discriminate.
  - intros H. change 100 with (1 * 100) at 1.
    apply Qmult_le_compat_r; [|discriminate].
    apply Qle_shift_div_l; [exact Hpos|]. rewrite Qmult_1_l. exact H.
Qed.

Lemma Qmin_full (x : Q) : Qmin x 100 == 100 <-> 100 <= x.
Proof. apply Q.min_r_iff. Qed.

(** X12: whatever the requirement and the completed set, a requirement that
    [_validate_single_requirement] reports satisfied has a progress of 100;
    and a requirement that is not a [LEVEL_REQUIREMENT], whose progress is
    computed from the lengths of lists, has a progress of 100 only when it is
    reported satisfied. *)
Theorem satisfied_full_progress (req : Requirement.t) (completed_set : gset string)
    (completed_courses_map : gmap string Course.t) :
  (RequirementProgress.is_satisfied
     (_validate_single_requirement req completed_set completed_courses_map) = true ->
   RequirementProgress.progress_percentage
     (_validate_single_requirement req completed_set completed_courses_map) == 100) /\
  (Requirement.requirement_type req <> "LEVEL_REQUIREMENT" ->
   RequirementProgress.progress_percentage
     (_validate_single_requirement req completed_set completed_courses_map) == 100 ->
   RequirementProgress.is_satisfied
     (_validate_single_requirement req completed_set completed_courses_map) = true).
Proof.
  unfold _validate_single_requirement.
  destruct (String.eqb (Requirement.requirement_type req) "REQUIRED").
  { cbn [RequirementProgress.progress_percentage RequirementProgress.is_satisfied].
    set (required := list_to_set (map py_upper (or_empty (Requirement.courses req)))
                     : gset string).
    pose proof (size_difference_alt required completed_set) as Hsize.
    pose proof (subseteq_size (required ∩ completed_set) required
                  (intersection_subseteq_l _ _)) as Hle.
    rewrite Z.eqb_eq.
    destruct (Z.gtb_spec (Z.of_nat (size required)) 0) as [Hpos|Hzero].
    - rewrite percent_full by exact Hpos. split; [|intros _]; lia.
    - split; [reflexivity|]. lia. }
  destruct (String.eqb (Requirement.requirement_type req) "CHOICE").
  { cbn [RequirementProgress.progress_percentage RequirementProgress.is_satisfied].
    rewrite Z.geb_le.
    destruct (Z.gtb_spec (or_int (Requirement.choose_count req) 1) 0) as [Hpos|Hneg].
    - rewrite Qmin_full, percent_at_least by exact Hpos. tauto.
    - split; [reflexivity|]. lia. }
  destruct (String.eqb_spec (Requirement.requirement_type req) "LEVEL_REQUIREMENT")
    as [Hlevel|_].
  { destruct (level_loop req completed_courses_map (elements completed_set))
      as [matching_credits matching_courses].
    cbn [RequirementProgress.progress_percentage RequirementProgress.is_satisfied].
    rewrite Z.geb_le. split; [|intros Hne; contradiction].
    destruct (Z.gtb_spec (or_int (Requirement.credits_needed req) 0) 0) as [Hpos|Hneg].
    - rewrite Qmin_full, percent_at_least by exact Hpos. tauto.
    - reflexivity. }
  cbn [RequirementProgress.progress_percentage RequirementProgress.is_satisfied].
  destruct (Z.of_nat (size completed_set) >? 0)%Z; split; try reflexivity; discriminate.
Qed.

Local Close Scope Q_scope.

(** ** The courses of a [REQUIRED] or [CHOICE] requirement *)

Lemma sorted_elements_elem (x : string) (X : gset string) :
  x ∈ py_sorted (elements X) <-> x ∈ X.
Proof. rewrite py_sorted_elem. apply elem_of_elements. Qed.

Lemma sorted_elements_NoDup (X : gset string) : NoDup (py_sorted (elements X)).
Proof. rewrite py_sorted_perm. apply NoDup_elements. Qed.

Lemma sorted_elements_length (X : gset string) : length (py_sorted (elements X)) = size X.
Proof. rewrite py_sorted_perm. reflexivity. Qed.

Lemma elem_of_listed (c : string) (courses : list string) :
  c ∈ (list_to_set (map py_upper courses) : gset string) <-> c ∈ map py_upper courses.
Proof. apply elem_of_list_to_set. Qed.

(** X13: for a [REQUIRED] or a [CHOICE] requirement, the completed and the
    remaining courses [_validate_single_requirement] reports split the listed
    courses (uppercased) between those in the completed set and those not in
    it; both lists are in ascending order and without repetition;
    [completed_count] is the number of completed courses reported; and, for a
    [REQUIRED] requirement, [required_count] is the number of courses
    reported in the two lists. *)
Theorem listed_requirement_partition (req : Requirement.t) (completed_set : gset string)
    (completed_courses_map : gmap string Course.t) (progress : RequirementProgress.t) :
  Requirement.requirement_type req = "REQUIRED" \/
  Requirement.requirement_type req = "CHOICE" ->
  progress = _validate_single_requirement req completed_set completed_courses_map ->
  (forall c, c ∈ RequirementProgress.completed_courses progress <->
             c ∈ map py_upper (or_empty (Requirement.courses req)) /\ c ∈ completed_set) /\
  (forall c, c ∈ RequirementProgress.remaining_courses progress <->
             c ∈ map py_upper (or_empty (Requirement.courses req)) /\ c ∉ completed_set) /\
  NoDup (RequirementProgress.completed_courses progress) /\
  NoDup (RequirementProgress.remaining_courses progress) /\
  ascending (RequirementProgress.completed_courses progress) /\
  ascending (RequirementProgress.remaining_courses progress) /\
  RequirementProgress.completed_count progress =
  Z.of_nat (length (RequirementProgress.completed_courses progress)) /\
  (Requirement.requirement_type req = "REQUIRED" ->
   RequirementProgress.required_count progress =
   Some (RequirementProgress.completed_count progress +
         Z.of_nat (length (RequirementProgress.remaining_courses progress)))).
Proof.
  intros Htype ->. unfold _validate_single_requirement.
  set (listed := list_to_set (map py_upper (or_empty (Requirement.courses req)))
                 : gset string).
  assert (Hlists :
    (forall c, c ∈ py_sorted (elements (listed ∩ completed_set)) <->
               c ∈ map py_upper (or_empty (Requirement.courses req)) /\ c ∈ completed_set) /\
    (forall c, c ∈ py_sorted (elements (listed ∖ completed_set)) <->
               c ∈ map py_upper (or_empty (Requirement.courses req)) /\ c ∉ completed_set) /\
    NoDup (py_sorted (elements (listed ∩ completed_set))) /\
    NoDup (py_sorted (elements (listed ∖ completed_set))) /\
    ascending (py_sorted (elements (listed ∩ completed_set))) /\
    ascending (py_sorted (elements (listed ∖ completed_set))) /\
    Z.of_nat (size (listed ∩ completed_set)) =
    Z.of_nat (length (py_sorted (elements (listed ∩ completed_set))))).
  { split_and!.
    - intros c. rewrite sorted_elements_elem, elem_of_intersection.
      unfold listed. rewrite elem_of_listed. reflexivity.
    - intros c. rewrite sorted_elements_elem, elem_of_difference.
      unfold listed. rewrite elem_of_listed. reflexivity.
    - apply sorted_elements_NoDup.
    - apply sorted_elements_NoDup.
    - apply py_sorted_ascending.
    - apply py_sorted_ascending.
    - rewrite sorted_elements_length. reflexivity. }
  destruct Hlists as (H1 & H2 & H3 & H4 & H5 & H6 & H7).
  destruct Htype as [Htype|Htype]; rewrite Htype.
  - change (String.eqb "REQUIRED" "REQUIRED") with true. cbv iota.
    cbn [RequirementProgress.completed_courses RequirementProgress.remaining_courses
         RequirementProgress.completed_count RequirementProgress.required_count].
    split_and!; try assumption.
    intros _. f_equal. rewrite !sorted_elements_length.
    pose proof (size_difference_alt listed completed_set) as Hsize.
    pose proof (subseteq_size (listed ∩ completed_set) listed
                  (intersection_subseteq_l _ _)) as Hle.
    lia.
  - change (String.eqb "CHOICE" "REQUIRED") with false.
    change (String.eqb "CHOICE" "CHOICE") with true. cbv iota.
    cbn [RequirementProgress.completed_courses RequirementProgress.remaining_courses
         RequirementProgress.completed_count RequirementProgress.required_count].
    split_and!; try assumption. discriminate.
Qed.

Lemma listed_requirement_partition_witness :
  NoDup (RequirementProgress.remaining_courses
           (_validate_single_requirement
              (Requirement.make "req-1" "Foundation" "REQUIRED"
                 (Some ("cmput 174" :: "CMPUT 175" :: "CMPUT 174" :: nil)) None None
                 (Some nil) None)
              {["CMPUT 174"]} ∅)).
Proof.
  edestruct (listed_requirement_partition
               (Requirement.make "req-1" "Foundation" "REQUIRED"
                  (Some ("cmput 174" :: "CMPUT 175" :: "CMPUT 174" :: nil)) None None
                  (Some nil) None)
               {["CMPUT 174"]} ∅) as (_ & _ & _ & Hnd & _).
  - left. reflexivity.
  - reflexivity.
  - exact Hnd.
Defined.

(** ** The validation of a program *)

(** The loop over the requirements in closed form: the progress of each, in
    order, and the number of those satisfied. *)
Lemma progress_loop_spec (completed_set : gset string)
    (completed_courses_map : gmap string Course.t) (reqs : list Requirement.t) :
  progress_loop completed_set completed_courses_map reqs =
  (map (fun req => _validate_single_requirement req completed_set completed_courses_map) reqs,
   Z.of_nat (length (filter (fun p => RequirementProgress.is_satisfied p = true)
                       (map (fun req => _validate_single_requirement req completed_set
                                          completed_courses_map) reqs)))).
Proof.
  unfold progress_loop.
  set (f := fun req => _validate_single_requirement req completed_set completed_courses_map).
  assert (H : forall (acc : list RequirementProgress.t) (n : Z),
            foldl (fun '(requirements_progress, satisfied_count) req =>
                     let progress := f req in
                     (requirements_progress ++ progress :: nil,
                      if RequirementProgress.is_satisfied progress
                      then (satisfied_count + 1)%Z else satisfied_count))
                  (acc, n) reqs =
            (acc ++ map f reqs,
             (n + Z.of_nat (length (filter (fun p => RequirementProgress.is_satisfied p = true)
                                      (map f reqs))))%Z)).
  { induction reqs as [|req reqs IH]; intros acc n; simpl.
    - rewrite app_nil_r, Z.add_0_r. reflexivity.
    - rewrite IH, <- app_assoc. simpl. f_equal.
      rewrite filter_cons. destruct (RequirementProgress.is_satisfied (f req)) eqn:Hs.
      + rewrite decide_True by reflexivity. simpl length. lia.
      + rewrite decide_False by discriminate. lia. }
  exact (H nil 0%Z).
Qed.

Lemma forallb_count {A : Type} (f : A -> bool) (l : list A) :
  forallb f l = true <-> length (filter (fun x => f x = true) l) = length l.
Proof.
  induction l as [|x l IH]; simpl; [tauto|].
  rewrite filter_cons. pose proof (length_filter (fun x => f x = true) l) as Hle.
  destruct (f x) eqn:Hx.
  - rewrite decide_True by reflexivity. simpl. rewrite IH. lia.
  - rewrite decide_False by discriminate. split; [discriminate|]. lia.
Qed.

(** X14: for a program of the database, [validate_requirements] returns; its
    [requirements] are the progress of each requirement of the program, in
    order; its [overall_progress] is between 0 and 100; and, when the program
    has a requirement, [is_complete] holds exactly when [overall_progress] is
    100.  For any other code it raises the error of a program not found. *)
Theorem validate_requirements_summary (program_code : string)
    (completed_courses : list string) (db : database) :
  match select_program (program_rows db) program_code with
  | Some program =>
      exists r,
        validate_requirements program_code completed_courses db = Ok r /\
        RequirementValidationResult.requirements r =
        map (requirement_progress db completed_courses)
          (Program.program_requirements program) /\
        (0 <= RequirementValidationResult.overall_progress r)%Q /\
        (RequirementValidationResult.overall_progress r <= 100)%Q /\
        (Program.program_requirements program <> nil ->
         RequirementValidationResult.is_complete r = true <->
         (RequirementValidationResult.overall_progress r == 100)%Q)
  | None =>
      validate_requirements program_code completed_courses db =
      Raise (program_not_found program_code)
  end.
Proof.
  unfold validate_requirements.
  destruct (select_program (program_rows db) program_code) as [program|]; [|reflexivity].
  rewrite progress_loop_spec. eexists. split; [reflexivity|].
  cbn [RequirementValidationResult.requirements RequirementValidationResult.overall_progress
       RequirementValidationResult.is_complete].
  fold (requirement_progress db completed_courses).
  set (progress := map (requirement_progress db completed_courses)
                     (Program.program_requirements program)).
  pose proof (length_filter (fun p => RequirementProgress.is_satisfied p = true) progress)
    as Hle.
  assert (Hlen : length progress = length (Program.program_requirements program)).
  { unfold progress. apply length_map. }
  split; [reflexivity|].
  destruct (Z.gtb_spec (Z.of_nat (length (Program.program_requirements program))) 0)
    as [Hpos|Hzero].
  - split_and!.
    + apply percent_nonneg; lia.
    + apply percent_le_100; lia.
    + intros _. rewrite percent_full by exact Hpos. rewrite forallb_count. lia.
  - split_and!; [discriminate..|].
    intros Hreqs. exfalso. apply Hreqs.
    destruct (Program.program_requirements program); [reflexivity|]. simpl in Hzero. lia.
Qed.

(** ** The requirements a course would satisfy *)

(** A course that is completed satisfies no requirement. *)
Lemma course_satisfies_uncompleted (course : Course.t) (req : Requirement.t)
    (completed_set : gset string) :
  _course_satisfies_requirement course req completed_set = true ->
  py_upper (Course.code course) ∉ completed_set.
Proof.
  unfold _course_satisfies_requirement.
  destruct (bool_decide_reflect (py_upper (Course.code course) ∈ completed_set)) as [Hin|Hout];
    [|auto].
  rewrite !andb_false_r. cbn [negb].
  repeat (destruct (String.eqb _ _); [discriminate|]). discriminate.
Qed.

(** X15: [find_satisfiable_requirements] raises the error of a program not
    found before it looks the course up, and the error of a course not found
    for a program of the database; otherwise it returns the ids of the
    requirements of the program that [_course_satisfies_requirement] accepts,
    in the order of the program, and none when the course is completed. *)
Theorem find_satisfiable_requirements_spec (program_code course_code : string)
    (completed : list string) (db : database) :
  match select_program (program_rows db) program_code with
  | None =>
      find_satisfiable_requirements program_code course_code completed db =
      Raise (program_not_found program_code)
  | Some program =>
      match select_course (course_rows db) course_code with
      | None =>
          find_satisfiable_requirements program_code course_code completed db =
          Raise (course_not_found course_code)
      | Some course =>
          exists ids,
            find_satisfiable_requirements program_code course_code completed db = Ok ids /\
            sublist ids (map Requirement.id (Program.program_requirements program)) /\
            (forall id,
               id ∈ ids <->
               exists req,
                 req ∈ Program.program_requirements program /\ Requirement.id req = id /\
                 _course_satisfies_requirement course req (normalize completed) = true) /\
            (py_upper (Course.code course) ∈ normalize completed -> ids = nil)
      end
  end.
Proof.
  unfold find_satisfiable_requirements.
  destruct (select_program (program_rows db) program_code) as [program|]; [|reflexivity].
  destruct (select_course (course_rows db) course_code) as [course|]; [|reflexivity].
  eexists. split; [reflexivity|]. split_and!.
  - apply (fmap_sublist Requirement.id), sublist_filter.
  - intros id. rewrite list_elem_of_fmap. split.
    + intros (req & -> & Hreq). apply list_elem_of_filter in Hreq as [Hsat Hreq]. eauto.
    + intros (req & Hreq & <- & Hsat). exists req. split; [reflexivity|].
      apply list_elem_of_filter. auto.
  - intros Hdone.
    induction (Program.program_requirements program) as [|req reqs IH]; [reflexivity|].
    rewrite filter_cons.
    destruct (decide (_course_satisfies_requirement course req (normalize completed) = true))
      as [Hsat|_]; [|exact IH].
    exfalso. exact (course_satisfies_uncompleted _ _ _ Hsat Hdone).
Qed.

(** ** The candidates of [get_next_available_courses] *)

(** X16: a code is one of [all_requirement_courses] exactly when a requirement
    of the program lists it, as it is written, or when it is the code of a row
    that matches the filters of a [LEVEL_REQUIREMENT] of the program. *)
Theorem all_requirement_courses_spec (reqs : list Requirement.t) (rows : list Course.t)
    (code : string) :
  code ∈ all_requirement_courses reqs rows <->
  (exists req, req ∈ reqs /\ code ∈ or_empty (Requirement.courses req)) \/
  (exists req row,
     req ∈ reqs /\ Requirement.requirement_type req = "LEVEL_REQUIREMENT" /\
     row ∈ rows /\ matches_filters row req = true /\ Course.code row = code).
Proof.
  unfold all_requirement_courses.
  assert (Hlisted : forall (l : list Requirement.t) (init : gset string),
            code ∈ foldl (fun (codes : gset string) req =>
                            codes ∪ list_to_set (or_empty (Requirement.courses req))) init l <->
            code ∈ init \/ exists req, req ∈ l /\ code ∈ or_empty (Requirement.courses req)).
  { induction l as [|req l IH]; intros init; simpl.
    - split; [auto|]. intros [Hin|(req & Hreq & _)]; [exact Hin|inversion Hreq].
    - rewrite IH, elem_of_union, elem_of_list_to_set. split.
      + intros [[Hin|Hin]|(req' & Hreq & Hin)]; [auto| |].
        * right. exists req. split; [apply list_elem_of_here|exact Hin].
        * right. exists req'. split; [apply list_elem_of_further, Hreq|exact Hin].
      + intros [Hin|(req' & Hreq & Hin)]; [auto|].
        apply elem_of_cons in Hreq as [->|Hreq]; [auto|]. right. eauto. }
  assert (Hlevel : forall (l : list Requirement.t) (init : gset string),
            code ∈ foldl (fun (codes : gset string) req =>
                            if String.eqb (Requirement.requirement_type req) "LEVEL_REQUIREMENT"
                            then codes ∪ list_to_set
                                   (map Course.code
                                      (filter (fun c => matches_filters c req = true) rows))
                            else codes) init l <->
            code ∈ init \/
            exists req row,
              req ∈ l /\ Requirement.requirement_type req = "LEVEL_REQUIREMENT" /\
              row ∈ rows /\ matches_filters row req = true /\ Course.code row = code).
  { induction l as [|req l IH]; intros init; simpl.
    - split; [auto|]. intros [Hin|(req & row & Hreq & _)]; [exact Hin|inversion Hreq].
    - rewrite IH. split.
      + intros [Hin|(req' & row & Hreq & Hrest)].
        * destruct (String.eqb_spec (Requirement.requirement_type req) "LEVEL_REQUIREMENT")
            as [Htype|_]; [|auto].
          apply elem_of_union in Hin as [Hin|Hin]; [auto|].
          apply elem_of_list_to_set, list_elem_of_fmap in Hin as (row & -> & Hrow).
          apply list_elem_of_filter in Hrow as [Hmatch Hrow].
          right. exists req, row. split_and!; auto. apply list_elem_of_here.
        * right. exists req', row. split; [apply list_elem_of_further, Hreq|exact Hrest].
      + intros [Hin|(req' & row & Hreq & Htype & Hrow & Hmatch & Hcode)].
        * left. destruct (String.eqb _ _); [apply elem_of_union|]; auto.
        * apply elem_of_cons in Hreq as [->|Hreq].
          -- left. rewrite Htype. change (String.eqb _ _) with true. cbv iota.
             apply elem_of_union. right. apply elem_of_list_to_set, list_elem_of_fmap.
             exists row. split; [auto|]. apply list_elem_of_filter. auto.
          -- right. exists req', row. auto. }
  rewrite Hlevel, Hlisted. split.
  - intros [[Hin|Hin]|Hin]; [|auto..]. apply elem_of_empty in Hin as [].
  - intros [Hin|Hin]; auto.
Qed.

(** The requirements a candidate is recorded to satisfy. *)
Lemma score_loop_satisfies (course : Course.t) (completed_set : gset string)
    (reqs : list Requirement.t) :
  fst (score_loop course completed_set reqs) =
  map Requirement.id
    (filter (fun req => _course_satisfies_requirement course req completed_set = true) reqs).
Proof.
  unfold score_loop.
  assert (H : forall (acc : list string) (score : Q),
            fst (foldl (fun '(satisfies, priority_score) req =>
                          if _course_satisfies_requirement course req completed_set then
                            (satisfies ++ Requirement.id req :: nil,
                             if String.eqb (Requirement.requirement_type req) "REQUIRED"
                             then (priority_score + 10)%Q
                             else if String.eqb (Requirement.requirement_type req) "CHOICE"
                             then (priority_score + 5)%Q
                             else (priority_score + 2)%Q)
                          else (satisfies, priority_score))
                       (acc, score) reqs) =
            acc ++ map Requirement.id
                     (filter (fun req => _course_satisfies_requirement course req completed_set
                                         = true) reqs)).
  { induction reqs as [|req reqs IH]; intros acc score; simpl.
    - rewrite app_nil_r. reflexivity.
    - rewrite filter_cons.
      destruct (_course_satisfies_requirement course req completed_set) eqn:Hsat.
      + rewrite decide_True by reflexivity. rewrite IH, <- app_assoc. reflexivity.
      + rewrite decide_False by discriminate. apply IH. }
  exact (H nil 0%Q).
Qed.

(** The fields of the entry of a candidate. *)
Lemma available_entry_fields `{Rendering} (program : Program.t) (completed : list string)
    (db : database) (candidate : Course.t) (entry : AvailableCourse.t) :
  available_entry program completed db candidate = Ok entry ->
  AvailableCourse.course_code entry = Course.code candidate /\
  AvailableCourse.satisfies_requirements entry =
  map Requirement.id
    (filter (fun req => _course_satisfies_requirement candidate req (normalize completed) = true)
       (Program.program_requirements program)) /\
  (AvailableCourse.prerequisites_met entry = true <->
   exists r, check_prerequisites (Course.code candidate) completed db = Ok r /\
             PrerequisiteCheckResult.is_valid r = true).
Proof.
  unfold available_entry.
  pose proof (score_loop_satisfies candidate (normalize completed)
                (Program.program_requirements program)) as Hsat.
  destruct (score_loop candidate (normalize completed) (Program.program_requirements program))
    as [satisfies score].
  cbn [fst] in Hsat.
  destruct (check_prerequisites (Course.code candidate) completed db) as [r|e].
  - cbn [mbind result_bind]. intros [= <-]. cbn. split_and!; [reflexivity|exact Hsat|].
    split; [eauto|]. intros (r' & [= <-] & Hv). exact Hv.
  - destruct (is_ValueError e); [|discriminate].
    cbn [mbind result_bind]. intros [= <-]. cbn. split_and!; [reflexivity|exact Hsat|].
    split; [discriminate|]. intros (r' & [=] & _).
Qed.

Lemma select_courses_in_empty (rows : list Course.t) : select_courses_in rows ∅ = nil.
Proof.
  unfold select_courses_in. induction rows as [|row rows IH]; [reflexivity|].
  rewrite filter_cons, decide_False; [exact IH|]. apply not_elem_of_empty.
Qed.

(** The entries of a result are those of the candidate rows, sorted. *)
Lemma next_available_entries `{Rendering} (program_code : string) (completed : list string)
    (db : database) (program : Program.t) (available : list AvailableCourse.t) :
  select_program (program_rows db) program_code = Some program ->
  get_next_available_courses program_code completed db = Ok available ->
  exists entries,
    available ≡ₚ entries /\
    Forall2 (fun candidate entry => available_entry program completed db candidate = Ok entry)
      (select_courses_in (course_rows db)
         (all_requirement_courses (Program.program_requirements program) (course_rows db)
            ∖ normalize completed))
      entries.
Proof.
  intros Hprogram. unfold get_next_available_courses. rewrite Hprogram.
  destruct (bool_decide_reflect
              (all_requirement_courses (Program.program_requirements program) (course_rows db)
                 ∖ normalize completed = ∅)) as [Hempty|_].
  - intros [= <-]. exists nil. rewrite Hempty, select_courses_in_empty.
    split; constructor.
  - destruct (map_loop _ _) as [entries|e] eqn:Hloop; [|discriminate].
    cbn [mbind result_bind]. intros [= <-]. exists entries.
    split; [apply sort_by_score_perm|]. apply map_loop_Forall2, Hloop.
Qed.

(** X17: whenever [get_next_available_courses] returns, its entries are those
    of the rows whose code is one of [all_requirement_courses] and not in the
    normalised completed set: one entry for each such row, whether or not the
    prerequisites of the course are met, and no other entry. *)
Theorem next_available_candidates `{Rendering} (program_code : string)
    (completed : list string) (db : database) (program : Program.t)
    (available : list AvailableCourse.t) :
  select_program (program_rows db) program_code = Some program ->
  get_next_available_courses program_code completed db = Ok available ->
  map AvailableCourse.course_code available ≡ₚ
  map Course.code
    (select_courses_in (course_rows db)
       (all_requirement_courses (Program.program_requirements program) (course_rows db)
          ∖ normalize completed)) /\
  Forall (fun entry =>
            (AvailableCourse.course_code entry ∉ normalize completed) /\
            (AvailableCourse.course_code entry ∈
               all_requirement_courses (Program.program_requirements program)
                 (course_rows db)))
    available.
Proof.
  intros Hprogram Hrun.
  destruct (next_available_entries _ _ _ _ _ Hprogram Hrun) as (entries & Hperm & Hall).
  set (candidates := select_courses_in _ _) in *.
  assert (Hcodes : map AvailableCourse.course_code entries = map Course.code candidates).
  { clear Hperm. induction Hall as [|c e cs es Hc _ IH]; [reflexivity|].
    simpl. rewrite IH. f_equal. apply (available_entry_fields _ _ _ _ _ Hc). }
  split.
  - rewrite <- Hcodes. apply Permutation_map, Hperm.
  - rewrite Hperm. apply Forall_forall. intros entry Hentry.
    assert (Hin : AvailableCourse.course_code entry ∈ map Course.code candidates).
    { rewrite <- Hcodes. apply list_elem_of_fmap. eauto. }
    apply list_elem_of_fmap in Hin as (row & -> & Hrow).
    unfold candidates, select_courses_in in Hrow.
    apply list_elem_of_filter in Hrow as [Hrow _].
    apply elem_of_difference in Hrow. tauto.
Qed.

Lemma next_available_candidates_witness :
  exists available,
    get_next_available_courses (H := sample_rendering) "honors-cs" ("CMPUT 174" :: nil)
      university = Ok available /\
    Forall (fun entry =>
              (AvailableCourse.course_code entry ∉ normalize ("CMPUT 174" :: nil)) /\
              (AvailableCourse.course_code entry ∈
                 all_requirement_courses (Program.program_requirements honors)
                   (course_rows university)))
      available.
Proof.
  eexists. split; [vm_compute; reflexivity|].
  apply (next_available_candidates (H := sample_rendering) "honors-cs" ("CMPUT 174" :: nil)
           university honors).
  - reflexivity.
  - vm_compute. reflexivity.
Defined.



Lemma insert_by_score_length (x : AvailableCourse.t) (l : list AvailableCourse.t) :
  length (insert_by_score x l) = S (length l).
Proof. apply (Permutation_length (insert_by_score_perm x l)). Qed.



Lemma select_course_NoDup (rows : list Course.t) (row : Course.t) :
  NoDup (map Course.code rows) -> row ∈ rows ->
  select_course rows (Course.code row) = Some row.
Proof.
  induction rows as [|r rows IH]; intros Hnd Hin; [inversion Hin|]. simpl in *.
  apply NoDup_cons in Hnd as [Hr Hnd].
  apply elem_of_cons in Hin as [->|Hin]; [rewrite String.eqb_refl; reflexivity|].
  destruct (String.eqb_spec (Course.code r) (Course.code row)) as [Heq|_]; [|auto].
  exfalso. apply Hr. rewrite Heq. apply list_elem_of_fmap. eauto.
Qed.

(** X19: in a catalogue without two rows of one code, each entry of
    [get_next_available_courses] agrees with the other entry points on its
    course: [satisfies_requirements] is what [find_satisfiable_requirements]
    returns for the course, and [prerequisites_met] holds exactly when
    [check_prerequisites] returns a valid result for it. *)
Theorem next_available_agrees `{Rendering} (program_code : string)
    (completed : list string) (db : database) (program : Program.t)
    (available : list AvailableCourse.t) :
  NoDup (map Course.code (course_rows db)) ->
  select_program (program_rows db) program_code = Some program ->
  get_next_available_courses program_code completed db = Ok available ->
  Forall (fun entry =>
            find_satisfiable_requirements program_code (AvailableCourse.course_code entry)
              completed db = Ok (AvailableCourse.satisfies_requirements entry) /\
            (AvailableCourse.prerequisites_met entry = true <->
             exists r,
               check_prerequisites (AvailableCourse.course_code entry) completed db = Ok r /\
               PrerequisiteCheckResult.is_valid r = true))
    available.
Proof.
  intros Hnd Hprogram Hrun.
  destruct (next_available_entries _ _ _ _ _ Hprogram Hrun) as (entries & Hperm & Hall).
  rewrite Hperm. clear Hperm Hrun.
  assert (Hrows : Forall (fun c => c ∈ course_rows db)
                    (select_courses_in (course_rows db)
                       (all_requirement_courses (Program.program_requirements program)
                          (course_rows db) ∖ normalize completed))).
  { apply Forall_forall. intros c Hc. apply list_elem_of_filter in Hc. tauto. }
  induction Hall as [|c e cs es Hc _ IH]; [constructor|].
  apply Forall_cons_1 in Hrows as [Hrow Hrows].
  constructor; [|exact (IH Hrows)].
  destruct (available_entry_fields _ _ _ _ _ Hc) as (Hcode & Hsat & Hmet).
  rewrite Hcode, Hsat. split; [|exact Hmet].
  unfold find_satisfiable_requirements.
  rewrite Hprogram, (select_course_NoDup _ _ Hnd Hrow). reflexivity.
Qed.

Lemma next_available_agrees_witness :
  exists available,
    get_next_available_courses (H := sample_rendering) "honors-cs" ("CMPUT 174" :: nil)
      university = Ok available /\
    Forall (fun entry =>
              find_satisfiable_requirements "honors-cs" (AvailableCourse.course_code entry)
                ("CMPUT 174" :: nil) university
              = Ok (AvailableCourse.satisfies_requirements entry) /\
              (AvailableCourse.prerequisites_met entry = true <->
               exists r,
                 check_prerequisites (H := sample_rendering)
                   (AvailableCourse.course_code entry) ("CMPUT 174" :: nil) university = Ok r /\
                 PrerequisiteCheckResult.is_valid r = true))
      available.
Proof.
  eexists. split; [vm_compute; reflexivity|].
  apply (next_available_agrees (H := sample_rendering) "honors-cs" ("CMPUT 174" :: nil)
           university honors).
  - refine (bool_decide_unpack _ _). vm_compute. exact I.
  - reflexivity.
  - vm_compute. reflexivity.
Defined.

(** ** Special rules: substitutions and additional requirements *)

(** The loop over the substitutions in closed form. *)
Lemma substitutions_loop_spec `{Rendering} (courses_set : gset string) (subs : list json)
    (acc acc' : list (string * json) * list string) :
  substitutions_loop courses_set subs acc = Ok acc' ->
  fst acc' = fst acc ++ omap (recorded_substitution courses_set) subs /\
  snd acc' = snd acc ++
             map (fun ft => ("'" ++ fst ft ++ "' should be substituted with '"
                             ++ py_format (snd ft) ++ "'")%string)
               (omap (recorded_substitution courses_set) subs).
Proof.
  revert acc. induction subs as [|sub subs IH]; intros acc.
  - intros [= <-]. cbn. rewrite !app_nil_r. split; reflexivity.
  - cbn [substitutions_loop].
    destruct sub as [|b|n|s|l|d]; try exact (IH acc).
    change (omap (recorded_substitution courses_set) (JDict d :: subs))
      with (match recorded_substitution courses_set (JDict d) with
            | Some y => y :: omap (recorded_substitution courses_set) subs
            | None => omap (recorded_substitution courses_set) subs
            end).
    cbn [recorded_substitution].
    destruct (dict_get_or "from" (JStr "") d) as [|b|n|from|l|d']; try discriminate.
    destruct (bool_decide (py_upper from ∈ courses_set)); [|exact (IH acc)].
    intros Hloop. destruct (IH _ Hloop) as [Hf Hs]. cbn [fst snd] in Hf, Hs.
    rewrite Hf, Hs, <- !app_assoc. split; reflexivity.
Qed.

(** The check of the recorded substitutions by the result model. *)
Lemma substitutions_validated `{Rendering} (courses_set : gset string) (subs : list json)
    (needed : list (string * string)) :
  map_loop (fun '(from_course, to_course) =>
              to_course ← validate_str to_course; Ok (from_course, to_course))
           (omap (recorded_substitution courses_set) subs) = Ok needed ->
  needed = omap (substitution_of courses_set) subs /\
  map (fun ft => ("'" ++ fst ft ++ "' should be substituted with '"
                  ++ py_format (snd ft) ++ "'")%string)
    (omap (recorded_substitution courses_set) subs) =
  map (fun ft => substitution_warning (fst ft) (snd ft)) needed.
Proof.
  revert needed. induction subs as [|sub subs IH]; intros needed.
  - intros [= <-]. split; reflexivity.
  - change (omap (recorded_substitution courses_set) (sub :: subs))
      with (match recorded_substitution courses_set sub with
            | Some y => y :: omap (recorded_substitution courses_set) subs
            | None => omap (recorded_substitution courses_set) subs
            end).
    change (omap (substitution_of courses_set) (sub :: subs))
      with (match substitution_of courses_set sub with
            | Some y => y :: omap (substitution_of courses_set) subs
            | None => omap (substitution_of courses_set) subs
            end).
    destruct sub as [|b|n|s|l|d]; try exact (IH needed).
    cbn [recorded_substitution substitution_of].
    destruct (dict_get_or "from" (JStr "") d) as [|b|n|from|l|d']; try exact (IH needed).
    destruct (bool_decide (py_upper from ∈ courses_set)).
    2:{ destruct (dict_get_or "to" (JStr "") d); exact (IH needed). }
    cbn [map_loop].
    destruct (dict_get_or "to" (JStr "") d) as [|b|n|to|l|d']; try discriminate.
    cbn [validate_str mbind result_bind].
    destruct (map_loop _ _) as [rest|e]; [|discriminate].
    cbn [mbind result_bind]. intros [= <-].
    destruct (IH rest eq_refl) as [-> Hw]. split; [reflexivity|].
    cbn [map fst snd py_format]. rewrite Hw. reflexivity.
Qed.

(** X20: when [apply_special_rules] returns, [substitutions_needed] holds, in
    order, the substitution of each rule [{from, to}] whose [from],
    uppercased, is among the normalised courses; and [warnings] holds one
    warning for each excluded course, in order, followed by one for each
    substitution, in order. *)
Theorem special_rules_substitutions `{Rendering} (program : Program.t)
    (courses : list string) (result : SpecialRulesResult.t) :
  apply_special_rules program courses = Ok result ->
  SpecialRulesResult.substitutions_needed result =
  omap (substitution_of (normalize courses)) (substitution_rules program) /\
  (exists exclusions : list (string * string),
     SpecialRulesResult.excluded_courses result = map snd exclusions /\
     SpecialRulesResult.warnings result =
     map (fun ae => exclusion_warning (fst ae) (snd ae)) exclusions ++
     map (fun ft => substitution_warning (fst ft) (snd ft))
       (SpecialRulesResult.substitutions_needed result)) /\
  length (SpecialRulesResult.warnings result) =
  (length (SpecialRulesResult.excluded_courses result) +
   length (SpecialRulesResult.substitutions_needed result))%nat.
Proof.
  unfold apply_special_rules, substitution_rules.
  set (special_rules := if py_falsy (Program.special_rules program) then JDict nil
                        else Program.special_rules program).
  destruct (rules_get special_rules "exclusions") as [exclusions|e]; [|discriminate].
  cbn [mbind result_bind].
  destruct (py_iter exclusions) as [rules|e]; [|discriminate].
  cbn [mbind result_bind].
  destruct (exclusions_loop (normalize courses) rules (nil, nil)) as [[excluded warnings]|e]
    eqn:Hloop; [|discriminate].
  cbn [mbind result_bind].
  destruct (rules_get special_rules "substitutions") as [subs|e]; [|discriminate].
  cbn [mbind result_bind].
  destruct (py_iter subs) as [subs'|e]; [|discriminate].
  cbn [mbind result_bind].
  destruct (substitutions_loop (normalize courses) subs' (nil, warnings))
    as [[substitutions warnings']|e] eqn:Hsubs; [|discriminate].
  cbn [mbind result_bind].
  destruct (rules_get special_rules "additional_requirements") as [additional|e];
    [|discriminate].
  cbn [mbind result_bind].
  destruct (py_iter additional) as [additional'|e]; [|discriminate].
  cbn [mbind result_bind].
  destruct (map_loop _ substitutions) as [needed|e] eqn:Hneeded; [|discriminate].
  cbn [mbind result_bind]. intros [= <-].
  cbn [SpecialRulesResult.excluded_courses SpecialRulesResult.warnings
       SpecialRulesResult.substitutions_needed].
  destruct (exclusions_loop_spec _ _ _ _ Hloop) as (added & Hf & Hs & _).
  destruct (substitutions_loop_spec _ _ _ _ Hsubs) as [Hf' Hs'].
  cbn [fst snd] in Hf, Hs, Hf', Hs'. rewrite app_nil_l in Hf, Hs, Hf'.
  subst excluded warnings substitutions warnings'.
  destruct (substitutions_validated _ _ _ Hneeded) as [Hn Hw].
  rewrite Hw. split_and!.
  - exact Hn.
  - exists added. split; reflexivity.
  - rewrite length_app, !length_map. reflexivity.
Qed.

Lemma special_rules_substitutions_witness :
  SpecialRulesResult.substitutions_needed
    (SpecialRulesResult.make nil
       ("'CMPUT 115' should be substituted with 'CMPUT 174'" :: nil)
       (("CMPUT 115", "CMPUT 174") :: nil)
       ("Must maintain 3.0 GPA" :: "Complete within 5 years" :: nil)) =
  omap (substitution_of (normalize ("cmput 115" :: nil)))
    (substitution_rules (Fixtures.test_program nil Fixtures.rules)).
Proof.
  apply (special_rules_substitutions (H := sample_rendering)
           (Fixtures.test_program nil Fixtures.rules) ("cmput 115" :: nil)).
  vm_compute. reflexivity.
Defined.

(** X21: the [additional_requirements] of [apply_special_rules] are the
    strings among the additional requirements of the program, in order,
    whatever the courses; a program without special rules (null, or an empty
    object) gets an empty result; and without courses nothing is excluded or
    substituted, and there is no warning. *)
Theorem special_rules_additional `{Rendering} (program : Program.t) :
  (forall courses result,
     apply_special_rules program courses = Ok result ->
     SpecialRulesResult.additional_requirements result =
     strings_of (additional_rules program)) /\
  (py_falsy (Program.special_rules program) = true ->
   forall courses,
     apply_special_rules program courses = Ok (SpecialRulesResult.make nil nil nil nil)) /\
  (forall result,
     apply_special_rules program nil = Ok result ->
     SpecialRulesResult.excluded_courses result = nil /\
     SpecialRulesResult.warnings result = nil /\
     SpecialRulesResult.substitutions_needed result = nil).
Proof.
  split_and!.
  - intros courses result. unfold apply_special_rules, additional_rules.
    set (special_rules := if py_falsy (Program.special_rules program) then JDict nil
                          else Program.special_rules program).
    destruct (rules_get special_rules "exclusions") as [exclusions|e]; [|discriminate].
    cbn [mbind result_bind].
    destruct (py_iter exclusions) as [rules|e]; [|discriminate].
    cbn [mbind result_bind].
    destruct (exclusions_loop (normalize courses) rules (nil, nil))
      as [[excluded warnings]|e]; [|discriminate].
    cbn [mbind result_bind].
    destruct (rules_get special_rules "substitutions") as [subs|e]; [|discriminate].
    cbn [mbind result_bind].
    destruct (py_iter subs) as [subs'|e]; [|discriminate].
    cbn [mbind result_bind].
    destruct (substitutions_loop (normalize courses) subs' (nil, warnings))
      as [[substitutions warnings']|e]; [|discriminate].
    cbn [mbind result_bind].
    destruct (rules_get special_rules "additional_requirements") as [additional|e];
      [|discriminate].
    cbn [mbind result_bind].
    destruct (py_iter additional) as [additional'|e]; [|discriminate].
    cbn [mbind result_bind].
    destruct (map_loop _ substitutions) as [needed|e]; [|discriminate].
    cbn [mbind result_bind]. intros [= <-]. reflexivity.
  - intros Hnone courses. unfold apply_special_rules. rewrite Hnone. reflexivity.
  - intros result. unfold apply_special_rules.
    set (special_rules := if py_falsy (Program.special_rules program) then JDict nil
                          else Program.special_rules program).
    change (normalize nil) with (∅ : gset string).
    destruct (rules_get special_rules "exclusions") as [exclusions|e]; [|discriminate].
    cbn [mbind result_bind].
    destruct (py_iter exclusions) as [rules|e]; [|discriminate].
    cbn [mbind result_bind].
    destruct (exclusions_loop ∅ rules (nil, nil)) as [[excluded warnings]|e] eqn:Hloop;
      [|discriminate].
    cbn [mbind result_bind].
    destruct (rules_get special_rules "substitutions") as [subs|e]; [|discriminate].
    cbn [mbind result_bind].
    destruct (py_iter subs) as [subs'|e]; [|discriminate].
    cbn [mbind result_bind].
    destruct (substitutions_loop ∅ subs' (nil, warnings))
      as [[substitutions warnings']|e] eqn:Hsubs; [|discriminate].
    cbn [mbind result_bind].
    destruct (rules_get special_rules "additional_requirements") as [additional|e];
      [|discriminate].
    cbn [mbind result_bind].
    destruct (py_iter additional) as [additional'|e]; [|discriminate].
    cbn [mbind result_bind].
    destruct (map_loop _ substitutions) as [needed|e] eqn:Hneeded; [|discriminate].
    cbn [mbind result_bind]. intros [= <-].
    cbn [SpecialRulesResult.excluded_courses SpecialRulesResult.warnings
         SpecialRulesResult.substitutions_needed].
    destruct (exclusions_loop_spec _ _ _ _ Hloop) as (added & Hf & Hs & Hadded).
    destruct (substitutions_loop_spec _ _ _ _ Hsubs) as [Hf' Hs'].
    cbn [fst snd] in Hf, Hs, Hf', Hs'. rewrite app_nil_l in Hf, Hs, Hf'.
    assert (Hnone : added = nil).
    { destruct added as [|[course_a E] added]; [reflexivity|]. exfalso.
      destruct (proj1 (Hadded course_a E) (list_elem_of_here _ _))
        as (rule & _ & d & c & items & e & _ & _ & _ & HA & _).
      exact (not_elem_of_empty _ HA). }
    assert (Hrecorded : omap (recorded_substitution ∅) subs' = nil).
    { clear. induction subs' as [|sub subs IH]; [reflexivity|].
      change (omap (recorded_substitution ∅) (sub :: subs))
        with (match recorded_substitution ∅ sub with
              | Some y => y :: omap (recorded_substitution ∅) subs
              | None => omap (recorded_substitution ∅) subs
              end).
      destruct sub as [|b|n|s|l|d]; try exact IH. cbn [recorded_substitution].
      destruct (dict_get_or "from" (JStr "") d); exact IH. }
    rewrite Hrecorded in Hf', Hs'. rewrite Hnone in Hf, Hs. cbn in Hf, Hs.
    subst excluded warnings substitutions. rewrite app_nil_r in Hs'. subst warnings'.
    injection Hneeded as <-. auto.
Qed.

(** ** roadmap_service.py: the validation of a generated plan *)

Lemma validate_requirements_complete (program_code : string) (completed : list string)
    (db : database) (v : RequirementValidationResult.t) :
  validate_requirements program_code completed db = Ok v ->
  RequirementValidationResult.is_complete v =
  forallb RequirementProgress.is_satisfied (RequirementValidationResult.requirements v).
Proof.
  unfold validate_requirements.
  destruct (select_program (program_rows db) program_code) as [program|]; [|discriminate].
  destruct (progress_loop _ _ _) as [progress n]. intros [= <-]. reflexivity.
Qed.

Lemma unsatisfied_none (l : list RequirementProgress.t) :
  filter (fun req => RequirementProgress.is_satisfied req = false) l = nil <->
  forallb RequirementProgress.is_satisfied l = true.
Proof.
  induction l as [|req l IH]; simpl; [tauto|].
  rewrite filter_cons. destruct (RequirementProgress.is_satisfied req) eqn:Hs.
  - rewrite decide_False by discriminate. exact IH.
  - rewrite decide_True by reflexivity. split; discriminate.
Qed.

(** X22: [_validate_generated_plan] validates the completed courses followed
    by the courses of the plan.  It reports the plan valid exactly when it
    reports no error, which is exactly when [validate_requirements] returns
    with [is_complete]; it reports one error for each requirement that is not
    satisfied, and the progress of each requirement, in order, with what
    remains exactly when the requirement is not satisfied; and when the
    validation raises it reports the plan invalid, with the one error of the
    failure and no progress. *)
Theorem validate_generated_plan_spec `{Formatting} (program : Program.t)
    (semesters : list SemesterPlan.t) (completed_courses : list string)
    (courses_map : gmap string Course.t) (db : database) :
  let '(is_valid, errors, requirement_progress) :=
    _validate_generated_plan program semesters completed_courses courses_map db in
  (is_valid = true <-> errors = nil) /\
  (is_valid = true <->
   exists v,
     validate_requirements (Program.code program)
       (completed_courses ++ planned_codes semesters) db = Ok v /\
     RequirementValidationResult.is_complete v = true) /\
  match validate_requirements (Program.code program)
          (completed_courses ++ planned_codes semesters) db with
  | Ok v =>
      length errors =
      length (filter (fun req => RequirementProgress.is_satisfied req = false)
                (RequirementValidationResult.requirements v)) /\
      Forall2 (fun req p =>
                 Roadmap.RequirementProgress.requirement_id p =
                 RequirementProgress.requirement_id req /\
                 Roadmap.RequirementProgress.is_satisfied p =
                 RequirementProgress.is_satisfied req /\
                 Roadmap.RequirementProgress.credits_completed p =
                 RequirementProgress.completed_count req /\
                 (Roadmap.RequirementProgress.remaining p = None <->
                  RequirementProgress.is_satisfied req = true))
        (RequirementValidationResult.requirements v) requirement_progress
  | Raise e =>
      errors = ("Validation failed: " ++ py_str_exn e)%string :: nil /\
      requirement_progress = nil
  end.
Proof.
  unfold _validate_generated_plan.
  destruct (validate_requirements (Program.code program)
              (completed_courses ++ planned_codes semesters) db) as [v|e] eqn:Hrun.
  2:{ split_and!; try reflexivity; split; try discriminate. intros (v & [=] & _). }
  pose proof (validate_requirements_complete _ _ _ _ Hrun) as Hcomplete.
  set (reqs := RequirementValidationResult.requirements v) in *.
  assert (Hvalid : Nat.eqb (length (map unsatisfied_error
                      (filter (fun req => RequirementProgress.is_satisfied req = false) reqs)))
                     0 = true <->
                   forallb RequirementProgress.is_satisfied reqs = true).
  { rewrite <- unsatisfied_none, Nat.eqb_eq, length_map. apply length_zero_iff_nil. }
  split_and!.
  - rewrite Nat.eqb_eq. apply length_zero_iff_nil.
  - rewrite Hvalid, <- Hcomplete. split; [eauto|]. intros (v' & [= <-] & Hv). exact Hv.
  - apply length_map.
  - clear. induction reqs as [|req reqs IH]; [constructor|].
    simpl. constructor; [|exact IH].
    unfold planned_progress. cbn. split_and!; try reflexivity.
    destruct (RequirementProgress.is_satisfied req); split; try reflexivity; discriminate.
Qed.

(** ** roadmap_service.py: the distribution of the courses *)

Lemma key_le_total (a b : string * string) : key_le a b = true \/ key_le b a = true.
Proof.
  unfold key_le. rewrite (String.eqb_sym (fst b)).
  destruct (String.eqb (fst a) (fst b)); apply String.leb_total.
Qed.

Lemma insert_by_key_perm (courses_map : gmap string Course.t) (x : CourseInSemester.t)
    (l : list CourseInSemester.t) :
  insert_by_key courses_map x l ≡ₚ x :: l.
Proof.
  induction l as [|y l IH]; simpl; [reflexivity|].
  destruct (key_le _ _); [reflexivity|]. rewrite IH. apply perm_swap.
Qed.

Lemma sort_by_key_perm (courses_map : gmap string Course.t) (l : list CourseInSemester.t) :
  sort_by_key courses_map l ≡ₚ l.
Proof.
  induction l as [|x l IH]; simpl; [reflexivity|].
  rewrite insert_by_key_perm, IH. reflexivity.
Qed.

Lemma insert_by_key_sorted (courses_map : gmap string Course.t) (x : CourseInSemester.t)
    (l : list CourseInSemester.t) :
  by_key courses_map l -> by_key courses_map (insert_by_key courses_map x l).
Proof.
  unfold by_key. induction 1 as [|y l Hl IH Hy]; simpl.
  - repeat constructor.
  - destruct (key_le (distribution_key courses_map x) (distribution_key courses_map y))
      eqn:Hxy.
    + constructor; [constructor; assumption|constructor; exact Hxy].
    + assert (Hyx : key_le (distribution_key courses_map y) (distribution_key courses_map x)
                    = true).
      { destruct (key_le_total (distribution_key courses_map x)
                    (distribution_key courses_map y)); congruence. }
      constructor; [exact IH|].
      destruct l as [|z l]; simpl; [constructor; exact Hyx|].
      destruct (key_le (distribution_key courses_map x) (distribution_key courses_map z));
        constructor; [exact Hyx|]. inversion Hy. assumption.
Qed.

Lemma sort_by_key_sorted (courses_map : gmap string Course.t) (l : list CourseInSemester.t) :
  by_key courses_map (sort_by_key courses_map l).
Proof.
  induction l as [|x l IH]; simpl; [constructor|]. apply insert_by_key_sorted, IH.
Qed.

(** X23: [optimize_course_distribution] moves no course from one semester to
    another: it returns the semesters in order, each with its number, term,
    year and total credits, and with its own courses, reordered so that the
    keys (level, then code) ascend. *)
Theorem optimize_course_distribution_spec (semesters : list SemesterPlan.t)
    (courses_map : gmap string Course.t) :
  Forall2 (fun before after =>
             SemesterPlan.number after = SemesterPlan.number before /\
             SemesterPlan.term after = SemesterPlan.term before /\
             SemesterPlan.year after = SemesterPlan.year before /\
             SemesterPlan.total_credits after = SemesterPlan.total_credits before /\
             SemesterPlan.courses after ≡ₚ SemesterPlan.courses before /\
             by_key courses_map (SemesterPlan.courses after))
    semesters (optimize_course_distribution semesters courses_map).
Proof.
  unfold optimize_course_distribution.
  induction semesters as [|semester semesters IH]; simpl; constructor; [|exact IH].
  cbn. split_and!; try reflexivity.
  - apply sort_by_key_perm.
  - apply sort_by_key_sorted.
Qed.

Lemma normalize_perm (courses courses' : list string) :
  courses' ≡ₚ courses -> normalize courses' = normalize courses.
Proof.
  intros Hperm. apply set_eq. intros x. rewrite !elem_of_normalize.
  split; intros (c & Hc & ->); exists c; (split; [|reflexivity]).
  - rewrite <- Hperm. exact Hc.
  - rewrite Hperm. exact Hc.
Qed.

Lemma planned_codes_optimized (semesters : list SemesterPlan.t)
    (courses_map : gmap string Course.t) :
  planned_codes (optimize_course_distribution semesters courses_map) ≡ₚ
  planned_codes semesters.
Proof.
  unfold planned_codes, optimize_course_distribution.
  induction semesters as [|semester semesters IH]; simpl; [reflexivity|].
  rewrite IH. apply Permutation_app_tail, Permutation_map, sort_by_key_perm.
Qed.

(** X24: the validation of a plan does not depend on the order of the courses
    within its semesters: [_validate_generated_plan] returns the same for the
    semesters [optimize_course_distribution] returns, with whatever map of
    courses, as for the semesters it is given. *)
Theorem validate_optimized_plan `{Formatting} (program : Program.t)
    (semesters : list SemesterPlan.t) (completed_courses : list string)
    (sorting_map courses_map : gmap string Course.t) (db : database) :
  _validate_generated_plan program (optimize_course_distribution semesters sorting_map)
    completed_courses courses_map db =
  _validate_generated_plan program semesters completed_courses courses_map db.
Proof.
  unfold _validate_generated_plan.
  assert (Hset : normalize (completed_courses
                            ++ planned_codes (optimize_course_distribution semesters sorting_map))
                 = normalize (completed_courses ++ planned_codes semesters)).
  { apply normalize_perm, Permutation_app_head, planned_codes_optimized. }
  assert (Hrun : validate_requirements (Program.code program)
                   (completed_courses
                    ++ planned_codes (optimize_course_distribution semesters sorting_map)) db =
                 validate_requirements (Program.code program)
                   (completed_courses ++ planned_codes semesters) db).
  { unfold validate_requirements. rewrite Hset. reflexivity. }
  rewrite Hrun. reflexivity.
Qed.

(** ** roadmap_service.py: the cache *)

(** X25: a roadmap cached at a time is found under its key for one hour, the
    cache unchanged by the lookup; from one hour on the lookup finds nothing
    and deletes the entry, so that no later lookup finds it, whatever the
    clock then says; and caching under a key changes no lookup of another
    key. *)
Theorem roadmap_cache_expiry (cache_key : string) (roadmap : RoadmapResponse.t)
    (cached_at utcnow : Z) (cache : roadmap_cache) :
  _get_cached_roadmap cache_key utcnow (_cache_roadmap cache_key roadmap cached_at cache) =
  (if utcnow - cached_at <? 3600 * 1000000
   then (Some roadmap, _cache_roadmap cache_key roadmap cached_at cache)
   else (None, delete cache_key cache)) /\
  (forall later, _get_cached_roadmap cache_key later (delete cache_key cache) =
                 (None, delete cache_key cache)) /\
  (forall other,
     other <> cache_key ->
     fst (_get_cached_roadmap other utcnow
            (_cache_roadmap cache_key roadmap cached_at cache)) =
     fst (_get_cached_roadmap other utcnow cache) /\
     snd (_get_cached_roadmap other utcnow
            (_cache_roadmap cache_key roadmap cached_at cache)) =
     _cache_roadmap cache_key roadmap cached_at
       (snd (_get_cached_roadmap other utcnow cache))).
Proof.
  unfold _get_cached_roadmap, _cache_roadmap, roadmap_cache in *. split_and!.
  - rewrite (lookup_insert_eq (M := gmap string)). change cache_ttl with (3600 * 1000000).
    destruct (utcnow - cached_at <? 3600 * 1000000); [reflexivity|].
    rewrite (delete_insert_eq (M := gmap string)). reflexivity.
  - intros later. rewrite (lookup_delete_eq (M := gmap string)). reflexivity.
  - intros other Hother. rewrite (lookup_insert_ne (M := gmap string)) by congruence.
    destruct (cache !! other) as [[found at_time]|]; [|split; reflexivity].
    destruct (utcnow - at_time <? cache_ttl); cbn [fst snd]; [split; reflexivity|].
    split; [reflexivity|].
    rewrite (delete_insert_ne (M := gmap string)) by congruence. reflexivity.
Qed.

(** ** The credits of a [LEVEL_REQUIREMENT] *)

Lemma sum_credits_from (rows : list Course.t) (total : Z) :
  foldl (fun total c => total + Course.credits c) total rows = total + sum_credits rows.
Proof.
  unfold sum_credits. revert total. induction rows as [|row rows IH]; intros total; simpl.
  - lia.
  - rewrite IH, (IH (0 + Course.credits row)). lia.
Qed.

Lemma sum_credits_cons (row : Course.t) (rows : list Course.t) :
  sum_credits (row :: rows) = Course.credits row + sum_credits rows.
Proof. unfold sum_credits at 1. simpl. rewrite sum_credits_from. lia. Qed.

Lemma sum_credits_perm (rows rows' : list Course.t) :
  rows ≡ₚ rows' -> sum_credits rows = sum_credits rows'.
Proof.
  induction 1 as [|row rows rows' _ IH|row row' rows|rows rows' rows'' _ IH _ IH'].
  - reflexivity.
  - rewrite !sum_credits_cons, IH. reflexivity.
  - rewrite !sum_credits_cons. lia.
  - rewrite IH. exact IH'.
Qed.

(** The loop of the [LEVEL_REQUIREMENT] case in closed form. *)
Lemma level_loop_spec (req : Requirement.t) (completed_courses_map : gmap string Course.t)
    (codes : list string) :
  level_loop req completed_courses_map codes =
  (sum_credits (omap (matching_course req completed_courses_map) codes),
   map Course.code (omap (matching_course req completed_courses_map) codes)).
Proof.
  unfold level_loop.
  assert (H : forall (credits : Z) (courses : list string),
            foldl (fun '(matching_credits, matching_courses) code =>
                     match completed_courses_map !! code with
                     | Some course =>
                         if matches_filters course req
                         then (matching_credits + Course.credits course,
                               matching_courses ++ Course.code course :: nil)
                         else (matching_credits, matching_courses)
                     | None => (matching_credits, matching_courses)
                     end) (credits, courses) codes =
            (credits + sum_credits (omap (matching_course req completed_courses_map) codes),
             courses ++ map Course.code
                          (omap (matching_course req completed_courses_map) codes))).
  { induction codes as [|code codes IH]; intros credits courses.
    - cbn. rewrite app_nil_r, Z.add_0_r. reflexivity.
    - change (omap (matching_course req completed_courses_map) (code :: codes))
        with (match matching_course req completed_courses_map code with
              | Some y => y :: omap (matching_course req completed_courses_map) codes
              | None => omap (matching_course req completed_courses_map) codes
              end).
      assert (Hhead : matching_course req completed_courses_map code =
                      match completed_courses_map !! code with
                      | Some course => if matches_filters course req then Some course else None
                      | None => None
                      end) by reflexivity.
      rewrite Hhead. cbn [foldl].
      destruct (completed_courses_map !! code) as [course|]; [|apply IH].
      destruct (matches_filters course req); [|apply IH].
      rewrite IH, sum_credits_cons, <- app_assoc. cbn [map app]. f_equal. lia. }
  rewrite (H 0 nil). reflexivity.
Qed.

(** The map of rows with distinct codes holds each row under its code. *)
Lemma by_code_lookup (rows : list Course.t) (code : string) (row : Course.t) :
  NoDup (map Course.code rows) ->
  by_code rows !! code = Some row <-> row ∈ rows /\ Course.code row = code.
Proof.
  unfold by_code.
  assert (H : forall m : gmap string Course.t,
            NoDup (map Course.code rows) ->
            foldl (fun m c => <[Course.code c := c]> m) m rows !! code = Some row <->
            (row ∈ rows /\ Course.code row = code) \/
            ((code ∉ map Course.code rows) /\ m !! code = Some row)).
  { induction rows as [|r rows IH]; intros m Hnd.
    - cbn. split; [intros Hm; right; split; [intros Hin; inversion Hin|exact Hm]|].
      intros [[Hin _]|[_ Hm]]; [inversion Hin|exact Hm].
    - cbn [foldl map] in *. apply NoDup_cons in Hnd as [Hr Hnd].
      rewrite (IH _ Hnd). split.
      + intros [[Hin Hcode]|[Hout Hm]].
        * left. split; [apply list_elem_of_further, Hin|exact Hcode].
        * destruct (decide (Course.code r = code)) as [Heq|Hne].
          -- rewrite Heq, lookup_insert_eq in Hm. injection Hm as <-.
             left. split; [apply list_elem_of_here|exact Heq].
          -- rewrite lookup_insert_ne in Hm by exact Hne. right. split; [|exact Hm].
             intros Hin. apply elem_of_cons in Hin as [Heq|Hin]; [congruence|contradiction].
      + intros [[Hin Hcode]|[Hout Hm]].
        * apply elem_of_cons in Hin as [->|Hin]; [|left; auto].
          right. split; [rewrite <- Hcode; exact Hr|].
          rewrite Hcode. apply lookup_insert_eq.
        * right. split; [intros Hin; apply Hout, list_elem_of_further, Hin|].
          rewrite lookup_insert_ne; [exact Hm|].
          intros Heq. apply Hout. rewrite <- Heq. apply list_elem_of_here. }
  intros Hnd. rewrite (H ∅ Hnd). split; [|auto].
  intros [Hin|[_ Hm]]; [exact Hin|]. rewrite lookup_empty in Hm. discriminate.
Qed.

Lemma omap_NoDup {A B : Type} (f : A -> option B) (l : list A) :
  (forall x y z, f x = Some z -> f y = Some z -> x = y) -> NoDup l -> NoDup (omap f l).
Proof.
  intros Hinj. induction 1 as [|x l Hx Hl IH]; [constructor|].
  change (omap f (x :: l)) with (match f x with Some y => y :: omap f l | None => omap f l end).
  destruct (f x) as [z|] eqn:Hz; [|exact IH].
  constructor; [|exact IH]. intros Hin.
  apply list_elem_of_omap in Hin as (y & Hy & Hfy).
  rewrite (Hinj _ _ _ Hz Hfy) in Hx. contradiction.
Qed.

(** The courses the loop counts are the completed rows that match. *)
Lemma matching_courses_rows (rows : list Course.t) (completed_set : gset string)
    (req : Requirement.t) :
  NoDup (map Course.code rows) ->
  omap (matching_course req (by_code (select_courses_in rows completed_set)))
    (elements completed_set) ≡ₚ
  matching_rows rows completed_set req.
Proof.
  intros Hnd.
  assert (Hselected : NoDup (map Course.code (select_courses_in rows completed_set))).
  { eapply sublist_NoDup; [exact Hnd|].
    apply (fmap_sublist Course.code), sublist_filter. }
  assert (Hlookup : forall code c,
            matching_course req (by_code (select_courses_in rows completed_set)) code = Some c <->
            c ∈ rows /\ Course.code c = code /\ code ∈ completed_set /\
            matches_filters c req = true).
  { intros code c. unfold matching_course.
    destruct (by_code (select_courses_in rows completed_set) !! code) as [c'|] eqn:Hc'.
    - apply (by_code_lookup _ _ _ Hselected) in Hc' as [Hin Hcode].
      apply list_elem_of_filter in Hin as [Hdone Hin].
      destruct (matches_filters c' req) eqn:Hm; split.
      + intros [= <-]. rewrite <- Hcode. auto.
      + intros (Hc & Hcode' & _ & _). f_equal.
        assert (Hsame : select_course rows (Course.code c) = Some c)
          by (apply select_course_NoDup; assumption).
        rewrite Hcode', <- Hcode, (select_course_NoDup _ _ Hnd Hin) in Hsame. congruence.
      + discriminate.
      + intros (Hc & Hcode' & _ & Hm'). exfalso.
        assert (Hsame : select_course rows (Course.code c) = Some c)
          by (apply select_course_NoDup; assumption).
        rewrite Hcode', <- Hcode, (select_course_NoDup _ _ Hnd Hin) in Hsame. congruence.
    - split; [discriminate|]. intros (Hc & Hcode & Hdone & _). exfalso.
      assert (Hsome : by_code (select_courses_in rows completed_set) !! code = Some c).
      { apply (by_code_lookup _ _ _ Hselected). split; [|exact Hcode].
        apply list_elem_of_filter. rewrite Hcode. auto. }
      congruence. }
  apply NoDup_Permutation.
  - apply omap_NoDup; [|apply NoDup_elements].
    intros x y z Hx Hy. apply Hlookup in Hx as (_ & <- & _). apply Hlookup in Hy as (_ & <- & _).
    reflexivity.
  - apply NoDup_filter. eapply NoDup_fmap_1, Hnd.
  - intros c. rewrite list_elem_of_omap. unfold matching_rows. rewrite list_elem_of_filter.
    split.
    + intros (code & _ & Hc). apply Hlookup in Hc as (Hin & <- & Hdone & Hm). auto.
    + intros [[Hdone Hm] Hin]. exists (Course.code c).
      split; [apply elem_of_elements, Hdone|]. apply Hlookup. auto.
Qed.

(** X26: in a catalogue without two rows of one code, the progress
    [validate_requirements] computes for a [LEVEL_REQUIREMENT] counts the
    credits of the rows that are completed and match the filters of the
    requirement, each row once; the completed courses it reports are the codes
    of these rows; it reports no remaining course; and it is satisfied exactly
    when the credits counted reach the credits needed. *)
Theorem level_requirement_credits (req : Requirement.t) (completed : list string)
    (db : database) :
  NoDup (map Course.code (course_rows db)) ->
  Requirement.requirement_type req = "LEVEL_REQUIREMENT" ->
  RequirementProgress.completed_count (requirement_progress db completed req) =
  sum_credits (matching_rows (course_rows db) (normalize completed) req) /\
  (forall code,
     code ∈ RequirementProgress.completed_courses (requirement_progress db completed req) <->
     exists c, c ∈ matching_rows (course_rows db) (normalize completed) req /\
               Course.code c = code) /\
  RequirementProgress.remaining_courses (requirement_progress db completed req) = nil /\
  RequirementProgress.required_count (requirement_progress db completed req) =
  Some (or_int (Requirement.credits_needed req) 0) /\
  (RequirementProgress.is_satisfied (requirement_progress db completed req) = true <->
   or_int (Requirement.credits_needed req) 0 <=
   sum_credits (matching_rows (course_rows db) (normalize completed) req)).
Proof.
  intros Hnd Htype. unfold requirement_progress, _validate_single_requirement.
  rewrite Htype.
  change (String.eqb "LEVEL_REQUIREMENT" "REQUIRED") with false.
  change (String.eqb "LEVEL_REQUIREMENT" "CHOICE") with false.
  change (String.eqb "LEVEL_REQUIREMENT" "LEVEL_REQUIREMENT") with true.
  cbv iota. rewrite level_loop_spec.
  pose proof (matching_courses_rows (course_rows db) (normalize completed) req Hnd) as Hperm.
  cbn [RequirementProgress.completed_count RequirementProgress.completed_courses
       RequirementProgress.remaining_courses RequirementProgress.required_count
       RequirementProgress.is_satisfied].
  rewrite (sum_credits_perm _ _ Hperm). split_and!; try reflexivity.
  - intros code. rewrite py_sorted_elem, list_elem_of_fmap. split.
    + intros (c & -> & Hc). exists c. split; [|reflexivity]. rewrite <- Hperm. exact Hc.
    + intros (c & Hc & <-). exists c. split; [reflexivity|]. rewrite Hperm. exact Hc.
  - rewrite Z.geb_le. reflexivity.
Qed.

Lemma level_requirement_credits_witness :
  RequirementProgress.completed_count
    (requirement_progress university ("CMPUT 174" :: "CMPUT 204" :: nil)
       (Requirement.make "req-3" "Senior" "LEVEL_REQUIREMENT"
          None (Some 6) None (Some ("200" :: "300" :: nil)) (Some "CMPUT"))) =
  sum_credits
    (matching_rows (course_rows university) (normalize ("CMPUT 174" :: "CMPUT 204" :: nil))
       (Requirement.make "req-3" "Senior" "LEVEL_REQUIREMENT"
          None (Some 6) None (Some ("200" :: "300" :: nil)) (Some "CMPUT"))).
Proof.
  apply (level_requirement_credits
           (Requirement.make "req-3" "Senior" "LEVEL_REQUIREMENT"
              None (Some 6) None (Some ("200" :: "300" :: nil)) (Some "CMPUT"))
           ("CMPUT 174" :: "CMPUT 204" :: nil) university).
  - refine (bool_decide_unpack _ _). vm_compute. exact I.
  - reflexivity.
Defined.

(** ** Completing more courses *)

Lemma level_requirement_satisfied (req : Requirement.t) (completed : list string)
    (db : database) :
  NoDup (map Course.code (course_rows db)) ->
  Requirement.requirement_type req = "LEVEL_REQUIREMENT" ->
  RequirementProgress.is_satisfied (requirement_progress db completed req) =
  (sum_credits (matching_rows (course_rows db) (normalize completed) req)
   >=? or_int (Requirement.credits_needed req) 0).
Proof.
  intros Hnd Htype. unfold requirement_progress, _validate_single_requirement.
  rewrite Htype.
  change (String.eqb "LEVEL_REQUIREMENT" "REQUIRED") with false.
  change (String.eqb "LEVEL_REQUIREMENT" "CHOICE") with false.
  change (String.eqb "LEVEL_REQUIREMENT" "LEVEL_REQUIREMENT") with true.
  cbv iota. rewrite level_loop_spec.
  cbn [RequirementProgress.is_satisfied].
  rewrite (sum_credits_perm _ _ (matching_courses_rows _ _ req Hnd)). reflexivity.
Qed.

Lemma matching_rows_mono (rows : list Course.t) (completed_set completed_set' : gset string)
    (req : Requirement.t) :
  Forall (fun c => 0 <= Course.credits c) rows ->
  completed_set ⊆ completed_set' ->
  sum_credits (matching_rows rows completed_set req) <=
  sum_credits (matching_rows rows completed_set' req).
Proof.
  intros Hcredits Hsub. unfold matching_rows.
  induction Hcredits as [|c rows Hc _ IH]; [reflexivity|].
  rewrite !filter_cons.
  destruct (decide (Course.code c ∈ completed_set /\ matches_filters c req = true))
    as [[Hin Hm]|Hout].
  - rewrite decide_True by (split; [apply Hsub, Hin|exact Hm]).
    rewrite !sum_credits_cons. lia.
  - destruct (decide (Course.code c ∈ completed_set' /\ matches_filters c req = true));
      [|exact IH].
    rewrite sum_credits_cons. lia.
Qed.

(** The progress of a requirement that is satisfied stays satisfied when
    more courses are completed. *)
Lemma requirement_progress_mono (req : Requirement.t) (completed completed' : list string)
    (db : database) :
  NoDup (map Course.code (course_rows db)) ->
  Forall (fun c => 0 <= Course.credits c) (course_rows db) ->
  normalize completed ⊆ normalize completed' ->
  RequirementProgress.is_satisfied (requirement_progress db completed req) = true ->
  RequirementProgress.is_satisfied (requirement_progress db completed' req) = true.
Proof.
  intros Hnd Hcredits Hsub.
  destruct (String.eqb_spec (Requirement.requirement_type req) "LEVEL_REQUIREMENT")
    as [Hlevel|Hother].
  { rewrite !(level_requirement_satisfied _ _ _ Hnd Hlevel), !Z.geb_le.
    pose proof (matching_rows_mono (course_rows db) _ _ req Hcredits Hsub). lia. }
  unfold requirement_progress, _validate_single_requirement.
  destruct (String.eqb (Requirement.requirement_type req) "REQUIRED").
  { cbn [RequirementProgress.is_satisfied]. rewrite !Z.eqb_eq.
    set (required := list_to_set (map py_upper (or_empty (Requirement.courses req)))
                     : gset string).
    assert (Hle : (size (required ∖ normalize completed')
                   <= size (required ∖ normalize completed))%nat).
    { apply subseteq_size. intros x Hx. apply elem_of_difference in Hx as [Hx Hout].
      apply elem_of_difference. split; [exact Hx|]. intros Hin. apply Hout, Hsub, Hin. }
    lia. }
  destruct (String.eqb (Requirement.requirement_type req) "CHOICE").
  { cbn [RequirementProgress.is_satisfied]. rewrite !Z.geb_le.
    set (listed := list_to_set (map py_upper (or_empty (Requirement.courses req)))
                   : gset string).
    assert (Hle : (size (listed ∩ normalize completed)
                   <= size (listed ∩ normalize completed'))%nat).
    { apply subseteq_size. intros x Hx. apply elem_of_intersection in Hx as [Hx Hin].
      apply elem_of_intersection. split; [exact Hx|apply Hsub, Hin]. }
    lia. }
  destruct (String.eqb_spec (Requirement.requirement_type req) "LEVEL_REQUIREMENT");
    [contradiction|].
  cbn [RequirementProgress.is_satisfied]. rewrite !Z.gtb_lt.
  pose proof (subseteq_size _ _ Hsub). lia.
Qed.

Lemma progress_requirement_id (req : Requirement.t) (completed_set : gset string)
    (completed_courses_map : gmap string Course.t) :
  RequirementProgress.requirement_id
    (_validate_single_requirement req completed_set completed_courses_map) =
  Requirement.id req.
Proof.
  unfold _validate_single_requirement.
  destruct (String.eqb _ "REQUIRED"); [reflexivity|].
  destruct (String.eqb _ "CHOICE"); [reflexivity|].
  destruct (String.eqb _ "LEVEL_REQUIREMENT"); [|reflexivity].
  destruct (level_loop _ _ _). reflexivity.
Qed.

(** X27: completing more courses never loses a requirement.  In a catalogue
    without two rows of one code and without negative credits, when the
    normalised completed courses grow, [validate_requirements] still returns,
    every requirement that was satisfied is satisfied, and a program that was
    complete is complete. *)
Theorem validate_requirements_monotone (program_code : string)
    (completed completed' : list string) (db : database)
    (v : RequirementValidationResult.t) :
  NoDup (map Course.code (course_rows db)) ->
  Forall (fun c => 0 <= Course.credits c) (course_rows db) ->
  normalize completed ⊆ normalize completed' ->
  validate_requirements program_code completed db = Ok v ->
  exists v',
    validate_requirements program_code completed' db = Ok v' /\
    Forall2 (fun p p' =>
               RequirementProgress.requirement_id p' = RequirementProgress.requirement_id p /\
               (RequirementProgress.is_satisfied p = true ->
                RequirementProgress.is_satisfied p' = true))
      (RequirementValidationResult.requirements v)
      (RequirementValidationResult.requirements v') /\
    (RequirementValidationResult.is_complete v = true ->
     RequirementValidationResult.is_complete v' = true).
Proof.
  intros Hnd Hcredits Hsub. unfold validate_requirements.
  destruct (select_program (program_rows db) program_code) as [program|]; [|discriminate].
  rewrite !progress_loop_spec. intros [= <-]. eexists. split; [reflexivity|].
  cbn [RequirementValidationResult.requirements RequirementValidationResult.is_complete].
  fold (requirement_progress db completed) (requirement_progress db completed').
  assert (Hall : Forall2 (fun p p' =>
                   RequirementProgress.requirement_id p' = RequirementProgress.requirement_id p /\
                   (RequirementProgress.is_satisfied p = true ->
                    RequirementProgress.is_satisfied p' = true))
                 (map (requirement_progress db completed)
                    (Program.program_requirements program))
                 (map (requirement_progress db completed')
                    (Program.program_requirements program))).
  { induction (Program.program_requirements program) as [|req reqs IH]; [constructor|].
    simpl. constructor; [|exact IH]. split.
    - unfold requirement_progress. rewrite !progress_requirement_id. reflexivity.
    - apply requirement_progress_mono; assumption. }
  split; [exact Hall|].
  induction Hall as [|p p' ps ps' [_ Hp] _ IH]; [reflexivity|].
  simpl. intros Hc. apply andb_prop in Hc as [Hs Hc]. rewrite (Hp Hs), (IH Hc). reflexivity.
Qed.

Lemma validate_requirements_monotone_witness :
  exists v',
    validate_requirements "honors-cs" ("CMPUT 174" :: "CMPUT 175" :: nil) university = Ok v' /\
    RequirementValidationResult.program_code v' = "honors-cs".
Proof.
  edestruct (validate_requirements_monotone "honors-cs" ("CMPUT 174" :: nil)
               ("CMPUT 174" :: "CMPUT 175" :: nil) university) as (v' & Hv' & _).
  - refine (bool_decide_unpack _ _). vm_compute. exact I.
  - repeat constructor; discriminate.
  - refine (bool_decide_unpack _ _). vm_compute. exact I.
  - vm_compute. reflexivity.
  - exists v'. split; [exact Hv'|].
    vm_compute in Hv'. injection Hv' as <-. reflexivity.
Defined.

(** ** A requirement of another type *)

(** X28: a requirement whose type is none of [REQUIRED], [CHOICE] and
    [LEVEL_REQUIREMENT] is validated as an elective: it is satisfied exactly
    when some course is completed, whichever it is; every completed course is
    reported for it, and none remaining; its progress is 100 or 0.  Yet, unless
    its type is [ELECTIVE], no course is ever found to satisfy it. *)
Theorem other_requirement_type (req : Requirement.t) (completed_set : gset string)
    (completed_courses_map : gmap string Course.t) (progress : RequirementProgress.t) :
  Requirement.requirement_type req <> "REQUIRED" ->
  Requirement.requirement_type req <> "CHOICE" ->
  Requirement.requirement_type req <> "LEVEL_REQUIREMENT" ->
  progress = _validate_single_requirement req completed_set completed_courses_map ->
  (RequirementProgress.is_satisfied progress = true <-> exists code, code ∈ completed_set) /\
  (forall code, code ∈ RequirementProgress.completed_courses progress <->
                code ∈ completed_set) /\
  RequirementProgress.remaining_courses progress = nil /\
  RequirementProgress.required_count progress = None /\
  RequirementProgress.progress_percentage progress =
  (if RequirementProgress.is_satisfied progress then 100 else 0)%Q /\
  (Requirement.requirement_type req <> "ELECTIVE" ->
   forall course, _course_satisfies_requirement course req completed_set = false).
Proof.
  intros Hrequired Hchoice Hlevel ->.
  apply String.eqb_neq in Hrequired, Hchoice, Hlevel.
  unfold _validate_single_requirement, _course_satisfies_requirement.
  rewrite Hrequired, Hchoice, Hlevel.
  cbn [RequirementProgress.is_satisfied RequirementProgress.completed_courses
       RequirementProgress.remaining_courses RequirementProgress.required_count
       RequirementProgress.progress_percentage].
  split_and!; try reflexivity.
  - rewrite Z.gtb_lt. split.
    + intros Hpos. apply size_pos_elem_of. lia.
    + intros [code Hcode].
      assert (Hne : size completed_set <> 0%nat).
      { apply size_non_empty_iff. intros Hempty.
        apply (not_elem_of_empty (C := gset string) code). rewrite <- Hempty. exact Hcode. }
      lia.
  - intros code. apply sorted_elements_elem.
  - intros Helective course. apply String.eqb_neq in Helective. rewrite Helective.
    reflexivity.
Qed.

Lemma other_requirement_type_witness :
  RequirementProgress.is_satisfied
    (_validate_single_requirement
       (Requirement.make "req-5" "Capstone" "CAPSTONE" None None None None None)
       {["MUSIC 100"]} ∅) = true <->
  exists code, code ∈ ({["MUSIC 100"]} : gset string).
Proof.
  edestruct (other_requirement_type
               (Requirement.make "req-5" "Capstone" "CAPSTONE" None None None None None)
               {["MUSIC 100"]} ∅) as (Hs & _); [discriminate..|reflexivity|exact Hs].
Defined.

(** ** roadmap_service.py: the sample plan *)

(** The courses of each semester of the sample plan come out by level, then
    by code. *)
Example optimize_course_distribution_sample :
  map (fun semester => map CourseInSemester.code (SemesterPlan.courses semester))
    (optimize_course_distribution sample_plan (by_code (course_rows catalogue))) =
  ("CMPUT 174" :: nil) :: ("CMPUT 175" :: "CMPUT 204" :: "CMPUT 301" :: nil) :: nil.
Proof. vm_compute. reflexivity. Qed.

(** The sample plan, with [CMPUT 275] completed, satisfies the requirements
    of the program; without the program, the validation fails with the
    message of its error. *)
Example validate_generated_plan_sample :
  fst (_validate_generated_plan (H := sample_formatting) honors sample_plan
         ("cmput 275" :: nil) (by_code (course_rows catalogue)) university) = (true, nil) /\
  _validate_generated_plan (H := sample_formatting) honors sample_plan nil ∅ catalogue =
  (false, "Validation failed: Program 'honors-cs' not found" :: nil, nil).
Proof. split; vm_compute; reflexivity. Qed.

(** The sample roadmap is found until an hour after it is cached, and is
    then removed. *)
Example roadmap_cache_sample :
  fst (_get_cached_roadmap "key" (5 + cache_ttl - 1) (_cache_roadmap "key" sample_roadmap 5 ∅)) =
  Some sample_roadmap /\
  _get_cached_roadmap "key" (5 + cache_ttl) (_cache_roadmap "key" sample_roadmap 5 ∅) =
  (None, ∅).
Proof. split; vm_compute; reflexivity. Qed.
